(** * NegaBot API: a shallow embedding of the request pipeline

    The development follows the Python modules of the service:

    - [Model]    (model.py): the wrapper around the opaque classifier;
    - [Database] (database.py): the SQLite prediction log, with
      [DatabaseStats] for the statistics it computes itself;
    - [Api]      (api.py): request validation and the HTTP handlers;
    - [ModelLoader] and [Startup] (model.py, api.py): the model singleton
      and the startup hook;
    - [Dashboard] (dashboard.py): loading and filtering the history.

    Python code that reads and writes process-wide state (the [model] global,
    the logger singleton, the SQLite file, the wall clock) and that raises
    exceptions is written in a state-and-exception monad over a [World].
    Python floats are IEEE binary64 numbers: a float is the rational it
    denotes ([Q]), and every float operation rounds its exact result to
    the nearest binary64 ([b64]); strings are sequences of characters. *)

From Stdlib Require Import String Ascii List ZArith QArith Qround Qabs Lia Bool
  Sorting.Sorted Sorting.Permutation PeanoNat DecimalString DecimalZ DecimalNat
  Lqa Qpower.
From Stdlib Require DecimalPos DecimalFacts.
Import ListNotations.

Local Open Scope string_scope.
Local Open Scope Z_scope.

(** ** Python values *)

Set Warnings "-register-all".

(** A JSON document, the shape of the [metadata] payload once the request
    body has been decoded. Objects keep their members in insertion order,
    as a Python [dict] does. *)
Inductive json : Type :=
| JNull
| JBool (b : bool)
| JInt (n : Z)
| JStr (s : string)
| JArr (items : list json)
| JObj (members : list (string * json)).

(** A Python [dict] with string keys decoded from a JSON object. *)
Definition pydict := list (string * json).

(** Truthiness of an [Optional[dict]]: [None] and the empty dict are falsy. *)
Definition dict_truthy (d : option pydict) : bool :=
  match d with
  | None => false
  | Some [] => false
  | Some (_ :: _) => true
  end.

(** Truthiness of an optional string: [None] and the empty string are
    falsy. *)
Definition str_truthy (s : option string) : bool :=
  match s with
  | None => false
  | Some EmptyString => false
  | Some (String _ _) => true
  end.

(** Truthiness of an [int] argument that defaults to [None]. *)
Definition int_truthy (n : option Z) : bool :=
  match n with
  | None => false
  | Some k => negb (k =? 0)
  end.

(** Python's [round(x, ndigits)]: the nearest multiple of [10^-ndigits],
    ties going to the even neighbour. *)
Definition round_half_even (x : Q) : Z :=
  let f := Qfloor x in
  match Qcompare (x - inject_Z f) (1 # 2) with
  | Lt => f
  | Gt => f + 1
  | Eq => if Z.even f then f else f + 1
  end.

Definition py_round (x : Q) (ndigits : nat) : Q :=
  let scale := 10 ^ Z.of_nat ndigits in
  Qred (inject_Z (round_half_even (x * inject_Z scale)) / inject_Z scale).

(** *** Binary64 arithmetic

    A Python [float], a SQLite [REAL] and a pandas [float64] are IEEE 754
    binary64 numbers.  [b64 q] is the binary64 nearest to the rational [q],
    ties going to the even significand: 53 significant bits, the exponent
    of the last place no smaller than [-1074] (below [2^-1022] the numbers
    are subnormal).  Results beyond the largest binary64 are not modelled:
    no sum, quotient or product of this program leaves [[0, 2^53]] unless a
    stored confidence does.  A decimal written in the store or in a
    response stands for the binary64 nearest to it, which prints back as
    that decimal. *)
Definition pow2 (e : Z) : Q := Qpower 2 e.

(** The exponent of the leading bit: [2^(ilog2 q) <= q < 2^(ilog2 q + 1)]
    for a positive [q]. *)
Definition ilog2 (q : Q) : Z :=
  let k := Z.log2 (Qnum q) - Z.log2 (Zpos (Qden q)) in
  if Qle_bool (pow2 k) q then k else k - 1.

Definition b64_pos (q : Q) : Q :=
  let e := Z.max (ilog2 q - 52) (-1074) in
  Qred (inject_Z (round_half_even (q / pow2 e)) * pow2 e).

Definition b64 (q : Q) : Q :=
  match Qcompare q 0 with
  | Eq => 0%Q
  | Gt => b64_pos q
  | Lt => Qopp (b64_pos (Qopp q))
  end.

(** [x + y], [x * y] and [x / y] on floats. *)
Definition fadd (x y : Q) : Q := b64 (x + y).
Definition fmul (x y : Q) : Q := b64 (x * y).
Definition fdiv (x y : Q) : Q := b64 (x / y).

(** [float(n)], the conversion an [int] operand undergoes next to a float,
    and [a / b] on two [int]s, which rounds the exact quotient once. *)
Definition float_of_int (n : Z) : Q := b64 (inject_Z n).
Definition int_truediv (a b : Z) : Q := b64 (inject_Z a / inject_Z b).

(** Floats added up one after the other, from [0.0]: the built-in [sum]
    of CPython 3.11 on floats and the accumulator of SQLite 3.40 behind
    [AVG]; each addition rounds. *)
Definition float_sum (xs : list Q) : Q := fold_left fadd xs 0%Q.

(** ** Exceptions, the world and the handler monad *)

Inductive exn : Type :=
| HTTPException (status_code : nat) (detail : string)
| PyError (msg : string).

Definition string_of_status (n : nat) : string :=
  NilEmpty.string_of_uint (Nat.to_uint n).

(** [str(e)] as used in the handlers' error messages; an [HTTPException]
    is rendered as Starlette does, status first. *)
Definition exn_str (e : exn) : string :=
  match e with
  | HTTPException code detail => string_of_status code ++ ": " ++ detail
  | PyError msg => msg
  end.

(** What the torch model hands back for one text: the index picked by
    [argmax] over the logits row and the softmax row itself. *)
Record TorchOutput : Type := {
  argmax : nat;
  probabilities : list Q
}.

(** The loaded classifier (tokenizer and network), an opaque deterministic
    capability; [inl] is an exception raised while tokenizing or running. *)
Definition NegaBotModel := string -> exn + TorchOutput.

(** One row of the [predictions] table. [metadata] is the TEXT column (NULL
    is [None]); [created_at] is filled by the store. *)
Record Row : Type := {
  row_id : Z;
  row_text : string;
  row_sentiment : string;
  row_confidence : Q;
  row_predicted_class : Z;
  row_timestamp : Z;
  row_metadata : option string;
  row_created_at : Z
}.

(** What a handler did to its collaborators, in order. *)
Inductive event : Type :=
| EvClassify (text : string)
| EvStore.

Record World : Type := {
  model : option NegaBotModel;   (* api.model *)
  logger_instance : bool;        (* database._logger_instance is not None *)
  predictions : list Row;        (* the table, in rowid order *)
  clock : Z;                     (* the wall clock *)
  io_faults : list bool;         (* the next store accesses: true = I/O fault *)
  trace : list event
}.

Definition M (A : Type) : Type := World -> (exn + A) * World.

Definition ret {A} (a : A) : M A := fun w => (inr a, w).

Definition bind {A B} (c : M A) (k : A -> M B) : M B :=
  fun w =>
    match c w with
    | (inl e, w') => (inl e, w')
    | (inr a, w') => k a w'
    end.

Definition raise {A} (e : exn) : M A := fun w => (inl e, w).

(** [try: c except Exception as e: h e]. State changes made by [c] before
    it raised are kept. *)
Definition try_except {A} (c : M A) (h : exn -> M A) : M A :=
  fun w =>
    match c w with
    | (inl e, w') => h e w'
    | (inr a, w') => (inr a, w')
    end.

Declare Scope py_scope.
Delimit Scope py_scope with py.
Notation "x <- c ;; k" := (bind c (fun x => k))
  (at level 61, c at next level, right associativity) : py_scope.
Notation "c ;; k" := (bind c (fun _ => k))
  (at level 61, right associativity) : py_scope.
Local Open Scope py_scope.

(** A [for] loop that appends one result per element. *)
Fixpoint for_each {A B} (f : A -> M B) (xs : list A) : M (list B) :=
  match xs with
  | [] => ret []
  | x :: rest =>
      y <- f x ;;
      ys <- for_each f rest ;;
      ret (y :: ys)
  end.

Definition set_trace (w : World) (t : list event) : World :=
  {| model := model w; logger_instance := logger_instance w;
     predictions := predictions w; clock := clock w;
     io_faults := io_faults w; trace := t |}.

Definition set_predictions (w : World) (rows : list Row) : World :=
  {| model := model w; logger_instance := logger_instance w;
     predictions := rows; clock := clock w;
     io_faults := io_faults w; trace := trace w |}.

Definition set_io_faults (w : World) (fs : list bool) : World :=
  {| model := model w; logger_instance := logger_instance w;
     predictions := predictions w; clock := clock w;
     io_faults := fs; trace := trace w |}.

Definition set_logger_instance (w : World) (b : bool) : World :=
  {| model := model w; logger_instance := b;
     predictions := predictions w; clock := clock w;
     io_faults := io_faults w; trace := trace w |}.

Definition log_event (e : event) : M unit :=
  fun w => (inr tt, set_trace w (trace w ++ [e])).

(** [datetime.now()]. *)
Definition datetime_now : M Z := fun w => (inr (clock w), w).

(** ** The [json] module: [dumps] and [loads]

    [json.dumps] with its default settings (separators [", "] and [": "],
    [ensure_ascii]) and [json.loads], on documents without floats. *)
Module Json.

Local Open Scope nat_scope.

Definition dquote : ascii := "034"%char.
Definition backslash : ascii := "092"%char.

Definition hex_digit (n : nat) : ascii :=
  ascii_of_nat (if Nat.ltb n 10 then 48 + n else 87 + n).

Definition hex_value (c : ascii) : option nat :=
  let n := nat_of_ascii c in
  if andb (Nat.leb 48 n) (Nat.leb n 57) then Some (n - 48)
  else if andb (Nat.leb 97 n) (Nat.leb n 102) then Some (n - 87)
  else if andb (Nat.leb 65 n) (Nat.leb n 70) then Some (n - 55)
  else None.

(** A character that [ensure_ascii] output carries as it is. *)
Definition plain_char (c : ascii) : bool :=
  let n := nat_of_ascii c in
  andb (andb (Nat.leb 32 n) (Nat.leb n 126))
       (negb (orb (Ascii.eqb c dquote) (Ascii.eqb c backslash))).

Definition escape_char (c : ascii) : string :=
  if plain_char c then String c EmptyString
  else if Ascii.eqb c dquote then String backslash (String dquote EmptyString)
  else if Ascii.eqb c backslash then String backslash (String backslash EmptyString)
  else if Ascii.eqb c "010" then String backslash "n"
  else if Ascii.eqb c "013" then String backslash "r"
  else if Ascii.eqb c "009" then String backslash "t"
  else if Ascii.eqb c "008" then String backslash "b"
  else if Ascii.eqb c "012" then String backslash "f"
  else
    let n := nat_of_ascii c in
    String backslash
      (String "u" (String "0" (String "0"
        (String (hex_digit (n / 16)) (String (hex_digit (n mod 16)) EmptyString))))).

Fixpoint escape (s : string) : string :=
  match s with
  | EmptyString => EmptyString
  | String c rest => escape_char c ++ escape rest
  end.

Definition quote (s : string) : string :=
  String dquote (escape s ++ String dquote EmptyString).

Definition string_of_Z (n : Z) : string :=
  NilZero.string_of_int (Z.to_int n).

Fixpoint dumps (v : json) : string :=
  match v with
  | JNull => "null"
  | JBool true => "true"
  | JBool false => "false"
  | JInt n => string_of_Z n
  | JStr s => quote s
  | JArr items =>
      "[" ++
      (fix items_text (l : list json) : string :=
         match l with
         | [] => "]"
         | x :: rest =>
             dumps x ++
             match rest with
             | [] => "]"
             | _ :: _ => ", " ++ items_text rest
             end
         end) items
  | JObj members =>
      "{" ++
      (fix members_text (l : list (string * json)) : string :=
         match l with
         | [] => "}"
         | (k, x) :: rest =>
             quote k ++ ": " ++ dumps x ++
             match rest with
             | [] => "}"
             | _ :: _ => ", " ++ members_text rest
             end
         end) members
  end.

Definition is_ws (c : ascii) : bool :=
  orb (orb (Ascii.eqb c " ") (Ascii.eqb c "009"))
      (orb (Ascii.eqb c "010") (Ascii.eqb c "013")).

Fixpoint skip_ws (s : string) : string :=
  match s with
  | String c rest => if is_ws c then skip_ws rest else s
  | EmptyString => s
  end.

Definition is_digit (c : ascii) : bool :=
  let n := nat_of_ascii c in andb (Nat.leb 48 n) (Nat.leb n 57).

(** The longest prefix of digits, and what follows it. *)
Fixpoint span_digits (s : string) : string * string :=
  match s with
  | String c rest =>
      if is_digit c
      then let (ds, tl) := span_digits rest in (String c ds, tl)
      else (EmptyString, s)
  | EmptyString => (EmptyString, EmptyString)
  end.

(** An integer literal: an optional minus sign, then either a single zero
    or digits that do not start with a zero. *)
Definition parse_int (s : string) : option (json * string) :=
  let (sign, body) :=
    match s with
    | String "-" rest => ("-", rest)
    | _ => (EmptyString, s)
    end in
  match body with
  | String c tl =>
      if Ascii.eqb c "0" then Some (JInt 0, tl)
      else
        match span_digits body with
        | (EmptyString, _) => None
        | (ds, tl') =>
            match NilZero.int_of_string (sign ++ ds) with
            | Some d => Some (JInt (Z.of_int d), tl')
            | None => None
            end
        end
  | EmptyString => None
  end.

(** The character an escape letter stands for. *)
Definition unescape (e : ascii) : option ascii :=
  if Ascii.eqb e dquote then Some dquote
  else if Ascii.eqb e backslash then Some backslash
  else if Ascii.eqb e "/" then Some "/"%char
  else if Ascii.eqb e "n" then Some "010"%char
  else if Ascii.eqb e "r" then Some "013"%char
  else if Ascii.eqb e "t" then Some "009"%char
  else if Ascii.eqb e "b" then Some "008"%char
  else if Ascii.eqb e "f" then Some "012"%char
  else None.

Definition hex4 (h1 h2 h3 h4 : ascii) : option nat :=
  match hex_value h1, hex_value h2, hex_value h3, hex_value h4 with
  | Some a, Some b, Some c, Some d => Some (((a * 16 + b) * 16 + c) * 16 + d)
  | _, _, _, _ => None
  end.

Definition cons_char (c : ascii) (r : option (string * string))
  : option (string * string) :=
  match r with
  | Some (str, tl) => Some (String c str, tl)
  | None => None
  end.

(** The characters of a string literal after its opening quote, up to and
    including the closing quote. Only code points below 256 fit a
    character of this model. *)
Fixpoint parse_chars (s : string) : option (string * string) :=
  match s with
  | EmptyString => None
  | String c rest =>
      if Ascii.eqb c dquote then Some (EmptyString, rest)
      else if Ascii.eqb c backslash then
        match rest with
        | String e rest1 =>
            if Ascii.eqb e "u" then
              match rest1 with
              | String h1 (String h2 (String h3 (String h4 rest2))) =>
                  match hex4 h1 h2 h3 h4 with
                  | Some n =>
                      if Nat.ltb n 256
                      then cons_char (ascii_of_nat n) (parse_chars rest2)
                      else None
                  | None => None
                  end
              | _ => None
              end
            else
              match unescape e with
              | Some ch => cons_char ch (parse_chars rest1)
              | None => None
              end
        | EmptyString => None
        end
      else if Nat.ltb (nat_of_ascii c) 32 then None
      else cons_char c (parse_chars rest)
  end.

(** [expect word rest v]: [rest] must start with [word]. *)
Fixpoint expect (word rest : string) (v : json) : option (json * string) :=
  match word, rest with
  | EmptyString, _ => Some (v, rest)
  | String a word', String b rest' =>
      if Ascii.eqb a b then expect word' rest' v else None
  | String _ _, EmptyString => None
  end.

Fixpoint parse_value (fuel : nat) (s : string) : option (json * string) :=
  match fuel with
  | O => None
  | S fuel' =>
      match skip_ws s with
      | EmptyString => None
      | String c rest =>
          if Ascii.eqb c "n" then expect "ull" rest JNull
          else if Ascii.eqb c "t" then expect "rue" rest (JBool true)
          else if Ascii.eqb c "f" then expect "alse" rest (JBool false)
          else if Ascii.eqb c dquote then
            match parse_chars rest with
            | Some (str, tl) => Some (JStr str, tl)
            | None => None
            end
          else if Ascii.eqb c "[" then
            match skip_ws rest with
            | String c1 tl =>
                if Ascii.eqb c1 "]" then Some (JArr [], tl)
                else
                  match parse_items fuel' rest with
                  | Some (xs, tl') => Some (JArr xs, tl')
                  | None => None
                  end
            | EmptyString => None
            end
          else if Ascii.eqb c "{" then
            match skip_ws rest with
            | String c1 tl =>
                if Ascii.eqb c1 "}" then Some (JObj [], tl)
                else
                  match parse_members fuel' rest with
                  | Some (ms, tl') => Some (JObj ms, tl')
                  | None => None
                  end
            | EmptyString => None
            end
          else parse_int (String c rest)
      end
  end

with parse_items (fuel : nat) (s : string) : option (list json * string) :=
  match fuel with
  | O => None
  | S fuel' =>
      match parse_value fuel' s with
      | Some (x, tl) =>
          match skip_ws tl with
          | String c tl1 =>
              if Ascii.eqb c "," then
                match parse_items fuel' tl1 with
                | Some (xs, tl2) => Some (x :: xs, tl2)
                | None => None
                end
              else if Ascii.eqb c "]" then Some ([x], tl1)
              else None
          | EmptyString => None
          end
      | None => None
      end
  end

with parse_members (fuel : nat) (s : string)
  : option (list (string * json) * string) :=
  match fuel with
  | O => None
  | S fuel' =>
      match skip_ws s with
      | String q rest =>
          if Ascii.eqb q dquote then
            match parse_chars rest with
            | Some (k, tl) =>
                match skip_ws tl with
                | String c tl1 =>
                    if Ascii.eqb c ":" then
                      match parse_value fuel' tl1 with
                      | Some (x, tl2) =>
                          match skip_ws tl2 with
                          | String c2 tl3 =>
                              if Ascii.eqb c2 "," then
                                match parse_members fuel' tl3 with
                                | Some (ms, tl4) => Some ((k, x) :: ms, tl4)
                                | None => None
                                end
                              else if Ascii.eqb c2 "}" then Some ([(k, x)], tl3)
                              else None
                          | EmptyString => None
                          end
                      | None => None
                      end
                    else None
                | EmptyString => None
                end
            | None => None
            end
          else None
      | EmptyString => None
      end
  end.

(** [json.loads]: one document and nothing but white space after it;
    [None] stands for [JSONDecodeError]. *)
Definition loads (s : string) : option json :=
  match parse_value (S (String.length s)) s with
  | Some (v, tl) =>
      match skip_ws tl with
      | EmptyString => Some v
      | String _ _ => None
      end
  | None => None
  end.

End Json.

(** The text of the items of an array after its opening bracket, and of
    the members of an object after its opening brace, as [Json.dumps]
    writes them. *)
Definition items_text : list json -> string :=
  fix items_text (l : list json) : string :=
    match l with
    | [] => "]"
    | x :: rest =>
        Json.dumps x ++
        match rest with
        | [] => "]"
        | _ :: _ => ", " ++ items_text rest
        end
    end.

Definition members_text : list (string * json) -> string :=
  fix members_text (l : list (string * json)) : string :=
    match l with
    | [] => "}"
    | (k, x) :: rest =>
        Json.quote k ++ ": " ++ Json.dumps x ++
        match rest with
        | [] => "}"
        | _ :: _ => ", " ++ members_text rest
        end
    end.

(** The number of nodes of a document, which bounds the fuel its text
    needs. *)
Fixpoint json_size (v : json) : nat :=
  match v with
  | JArr items =>
      S ((fix items_size (l : list json) : nat :=
            match l with
            | [] => O
            | x :: rest => S (json_size x + items_size rest)
            end) items)
  | JObj members =>
      S ((fix members_size (l : list (string * json)) : nat :=
            match l with
            | [] => O
            | (_, x) :: rest => S (json_size x + members_size rest)
            end) members)
  | _ => 1%nat
  end.

Definition items_size : list json -> nat :=
  fix items_size (l : list json) : nat :=
    match l with
    | [] => O
    | x :: rest => S (json_size x + items_size rest)
    end.

Definition members_size : list (string * json) -> nat :=
  fix members_size (l : list (string * json)) : nat :=
    match l with
    | [] => O
    | (_, x) :: rest => S (json_size x + members_size rest)
    end.

(** Whether a text starts with a digit. *)
Definition leading_digit (s : string) : bool :=
  match s with
  | String c _ => Json.is_digit c
  | EmptyString => false
  end.

(** ** model.py *)
Module Model.

(** The dictionary [predict] returns. *)
Record Prediction : Type := {
  text : string;
  sentiment : string;
  confidence : Q;
  predicted_class : Z;
  positive : Q;       (* probabilities["positive"] *)
  negative : Q        (* probabilities["negative"] *)
}.

(** [probabilities[0][i].item()]; an index out of range raises. *)
Definition item (row : list Q) (i : nat) : M Q :=
  match nth_error row i with
  | Some p => ret p
  | None => raise (PyError "index out of range")
  end.

(** [NegaBotModel.predict]. *)
Definition predict (self : NegaBotModel) (text : string) : M Prediction :=
  try_except
    (log_event (EvClassify text) ;;
     match self text with
     | inl e => raise e
     | inr out =>
         let predicted_class := argmax out in
         confidence <- item (probabilities out) predicted_class ;;
         let sentiment :=
           if Nat.eqb predicted_class 1 then "Negative" else "Positive" in
         p0 <- item (probabilities out) 0 ;;
         p1 <- item (probabilities out) 1 ;;
         ret {| text := text;
                sentiment := sentiment;
                confidence := py_round confidence 4;
                predicted_class := Z.of_nat predicted_class;
                positive := py_round p0 4;
                negative := py_round p1 4 |}
     end)
    (fun e => raise e).

(** [NegaBotModel.batch_predict]: one [predict] per text, in order. *)
Definition batch_predict (self : NegaBotModel) (texts : list string)
  : M (list Prediction) :=
  for_each (predict self) texts.

End Model.

(** ** database.py *)
Module Database.

(** The dictionary built for each row that is read back. *)
Record PredictionDict : Type := {
  id : Z;
  text : string;
  sentiment : string;
  confidence : Q;
  predicted_class : Z;
  timestamp : Z;
  metadata : option json;
  created_at : Z
}.

(** [sqlite3.connect] and the statements run on the connection: the next
    entry of the fault plan says whether this access fails. *)
Definition sqlite3_connect : M unit :=
  fun w =>
    let w1 := set_trace w (trace w ++ [EvStore]) in
    match io_faults w with
    | true :: rest =>
        (inl (PyError "unable to open database file"), set_io_faults w1 rest)
    | false :: rest => (inr tt, set_io_faults w1 rest)
    | [] => (inr tt, w1)
    end.

(** [PredictionLogger.init_database]: the table and its indexes are created
    if they do not exist yet, so the rows are left as they are. *)
Definition init_database : M unit :=
  try_except sqlite3_connect (fun e => raise e).

(** [get_logger]: the singleton is built on first use. *)
Definition get_logger : M unit :=
  fun w =>
    if logger_instance w then (inr tt, w)
    else
      match init_database w with
      | (inr _, w') => (inr tt, set_logger_instance w' true)
      | (inl e, w') => (inl e, w')
      end.

(** [id INTEGER PRIMARY KEY AUTOINCREMENT]. *)
Definition next_id (rows : list Row) : Z :=
  1 + fold_right Z.max 0 (map row_id rows).

(** [CURRENT_TIMESTAMP] has a resolution of one second; the clock counts
    microseconds. *)
Definition current_timestamp (w : World) : Z := clock w / 1000000.

(** [INSERT INTO predictions (...) VALUES (?, ?, ?, ?, ?, ?)]. *)
Definition insert_prediction (text sentiment : string) (confidence : Q)
    (predicted_class timestamp : Z) (metadata : option string) : M unit :=
  fun w =>
    let row := {| row_id := next_id (predictions w);
                  row_text := text;
                  row_sentiment := sentiment;
                  row_confidence := confidence;
                  row_predicted_class := predicted_class;
                  row_timestamp := timestamp;
                  row_metadata := metadata;
                  row_created_at := current_timestamp w |} in
    (inr tt, set_predictions w (predictions w ++ [row])).

(** [PredictionLogger.log_prediction]. *)
Definition PredictionLogger_log_prediction (text sentiment : string)
    (confidence : Q) (predicted_class : option Z) (metadata : option pydict)
  : M unit :=
  try_except
    (let predicted_class :=
       match predicted_class with
       | None => if String.eqb sentiment "Negative" then 1 else 0
       | Some c => c
       end in
     sqlite3_connect ;;
     now <- datetime_now ;;
     insert_prediction text sentiment confidence predicted_class now
       (if dict_truthy metadata
        then option_map (fun d => Json.dumps (JObj d)) metadata
        else None))
    (fun e => raise e).

(** [ORDER BY created_at DESC]. SQL leaves the order among rows of equal
    [created_at] open; here they stay in rowid order. *)
Fixpoint insert_desc (r : Row) (sorted : list Row) : list Row :=
  match sorted with
  | [] => [r]
  | x :: rest =>
      if row_created_at x <=? row_created_at r
      then r :: sorted
      else x :: insert_desc r rest
  end.

Definition order_by_created_at_desc (rows : list Row) : list Row :=
  fold_right insert_desc [] rows.

(** [LIMIT n] with [n] written into the query as a literal: a literal
    that does not fit a 64-bit integer makes the statement fail, a negative
    [n] puts no bound on the result. *)
Definition sql_limit (n : Z) (rows : list Row) : exn + list Row :=
  if (n <? - 2 ^ 63) || (2 ^ 63 <=? n)
  then inl (PyError "datatype mismatch")
  else inr (if n <? 0 then rows else firstn (Z.to_nat n) rows).

(** [json.loads(row[6]) if row[6] else None] and the dictionary around it. *)
Definition row_to_dict (r : Row) : M PredictionDict :=
  md <- (if str_truthy (row_metadata r)
         then match row_metadata r with
              | Some s =>
                  match Json.loads s with
                  | Some v => ret (Some v)
                  | None => raise (PyError "JSONDecodeError")
                  end
              | None => ret None
              end
         else ret None) ;;
  ret {| id := row_id r;
         text := row_text r;
         sentiment := row_sentiment r;
         confidence := row_confidence r;
         predicted_class := row_predicted_class r;
         timestamp := row_timestamp r;
         metadata := md;
         created_at := row_created_at r |}.

(** [PredictionLogger.get_all_predictions]. *)
Definition PredictionLogger_get_all_predictions (limit : option Z)
  : M (list PredictionDict) :=
  try_except
    (sqlite3_connect ;;
     rows <- (fun w =>
                let ordered := order_by_created_at_desc (predictions w) in
                (if int_truthy limit
                 then match limit with
                      | Some n => sql_limit n ordered
                      | None => inr ordered
                      end
                 else inr ordered, w)) ;;
     for_each row_to_dict rows)
    (fun e => ret []).

(** [PredictionLogger.get_predictions_by_sentiment]. *)
Definition PredictionLogger_get_predictions_by_sentiment (sentiment : string)
  : M (list PredictionDict) :=
  try_except
    (sqlite3_connect ;;
     rows <- (fun w =>
                (inr (order_by_created_at_desc
                        (filter (fun r => String.eqb (row_sentiment r) sentiment)
                                (predictions w))), w)) ;;
     for_each row_to_dict rows)
    (fun e => ret []).

(** The module-level convenience functions. *)
Definition log_prediction (text sentiment : string) (confidence : Q)
    (metadata : option pydict) : M unit :=
  get_logger ;;
  PredictionLogger_log_prediction text sentiment confidence None metadata.

Definition get_all_predictions (limit : option Z) : M (list PredictionDict) :=
  get_logger ;;
  PredictionLogger_get_all_predictions limit.

Definition get_predictions_by_sentiment (sentiment : string)
  : M (list PredictionDict) :=
  get_logger ;;
  PredictionLogger_get_predictions_by_sentiment sentiment.

End Database.

(** ** api.py *)
Module Api.

Record TweetRequest : Type := {
  text : string;
  metadata : option pydict
}.

Record TweetResponse : Type := {
  r_text : string;
  r_sentiment : string;
  r_confidence : Q;
  r_predicted_class : Z;
  r_positive : Q;
  r_negative : Q;
  r_timestamp : Z;
  r_request_id : option string
}.

Record BatchTweetRequest : Type := {
  tweets : list string;
  b_metadata : option pydict
}.

Record BatchTweetResponse : Type := {
  results : list TweetResponse;
  total_processed : Z;
  timestamp : Z
}.

Record HealthResponse : Type := {
  status : string;
  model_loaded : bool;
  h_timestamp : Z
}.

(** The values of the dictionary that [/stats] returns. *)
Inductive pyval : Type :=
| PInt (n : Z)
| PFloat (x : Q)
| PStr (s : string)
| PTime (t : Z).

Definition stats_dict := list (string * pyval).

Fixpoint dict_get (d : stats_dict) (key : string) : option pyval :=
  match d with
  | [] => None
  | (k, v) :: rest => if String.eqb k key then Some v else dict_get rest key
  end.

(** What the client receives. *)
Inductive http_response (A : Type) : Type :=
| Http200 (body : A)
| HttpError (status_code : nat) (detail : string).
Arguments Http200 {A} body.
Arguments HttpError {A} status_code detail.

(** [text: str = Field(..., min_length=1, max_length=1000)]. *)
Definition TweetRequest_valid (request : TweetRequest) : bool :=
  let n := String.length (text request) in
  andb (Nat.leb 1 n) (Nat.leb n 1000).

(** [tweets: List[str] = Field(..., min_items=1, max_items=50)]. *)
Definition BatchTweetRequest_valid (request : BatchTweetRequest) : bool :=
  let n := List.length (tweets request) in
  andb (Nat.leb 1 n) (Nat.leb n 50).

Definition get_model : M (option NegaBotModel) := fun w => (inr (model w), w).

Definition make_response (result : Model.Prediction) (now : Z) : TweetResponse :=
  {| r_text := Model.text result;
     r_sentiment := Model.sentiment result;
     r_confidence := Model.confidence result;
     r_predicted_class := Model.predicted_class result;
     r_positive := Model.positive result;
     r_negative := Model.negative result;
     r_timestamp := now;
     r_request_id := None |}.

(** [health_check]. *)
Definition health_check : M HealthResponse :=
  m <- get_model ;;
  now <- datetime_now ;;
  ret {| status := match m with Some _ => "healthy" | None => "unhealthy" end;
         model_loaded := match m with Some _ => true | None => false end;
         h_timestamp := now |}.

(** [predict_sentiment]. *)
Definition predict_sentiment (request : TweetRequest) : M TweetResponse :=
  try_except
    (m <- get_model ;;
     match m with
     | None => raise (HTTPException 503 "Model not loaded")
     | Some model =>
         result <- Model.predict model (text request) ;;
         now <- datetime_now ;;
         let response := make_response result now in
         Database.log_prediction (text request) (Model.sentiment result)
           (Model.confidence result) (metadata request) ;;
         ret response
     end)
    (fun e => raise (HTTPException 500 ("Prediction failed: " ++ exn_str e))).

(** [batch_predict_sentiment]. *)
Definition batch_predict_sentiment (request : BatchTweetRequest)
  : M BatchTweetResponse :=
  try_except
    (m <- get_model ;;
     match m with
     | None => raise (HTTPException 503 "Model not loaded")
     | Some model =>
         results <- Model.batch_predict model (tweets request) ;;
         responses <-
           for_each
             (fun result =>
                now <- datetime_now ;;
                let response := make_response result now in
                Database.log_prediction (Model.text result)
                  (Model.sentiment result) (Model.confidence result)
                  (b_metadata request) ;;
                ret response)
             results ;;
         now <- datetime_now ;;
         ret {| results := responses;
                total_processed := Z.of_nat (List.length responses);
                timestamp := now |}
     end)
    (fun e =>
       raise (HTTPException 500 ("Batch prediction failed: " ++ exn_str e))).

Definition is_positive (p : Database.PredictionDict) : bool :=
  String.eqb (Database.sentiment p) "Positive".

(** [sum(p["confidence"] for p in predictions)]: the floats are added one
    after the other, in the order of the list, each addition rounding to
    binary64 (the built-in [sum] of CPython 3.11). *)
Definition sum_confidence (predictions : list Database.PredictionDict) : Q :=
  float_sum (map (fun p => b64 (Database.confidence p)) predictions).

(** [get_prediction_stats]. *)
Definition get_prediction_stats : M stats_dict :=
  try_except
    (predictions <- Database.get_all_predictions None ;;
     match predictions with
     | [] =>
         ret [("total_predictions", PInt 0);
              ("positive_count", PInt 0);
              ("negative_count", PInt 0);
              ("average_confidence", PInt 0);
              ("message", PStr "No predictions found")]
     | _ :: _ =>
         let total := Z.of_nat (List.length predictions) in
         let positive_count :=
           Z.of_nat (List.length (filter is_positive predictions)) in
         let negative_count := total - positive_count in
         let avg_confidence :=
           fdiv (sum_confidence predictions) (float_of_int total) in
         now <- datetime_now ;;
         ret [("total_predictions", PInt total);
              ("positive_count", PInt positive_count);
              ("negative_count", PInt negative_count);
              ("positive_percentage",
               PFloat (py_round
                         (fmul (int_truediv positive_count total)
                               (float_of_int 100)) 2));
              ("negative_percentage",
               PFloat (py_round
                         (fmul (int_truediv negative_count total)
                               (float_of_int 100)) 2));
              ("average_confidence", PFloat (py_round avg_confidence 4));
              ("last_updated", PTime now)]
     end)
    (fun e =>
       raise (HTTPException 500 ("Failed to get statistics: " ++ exn_str e))).

(** The framework around a handler: the request body is validated against
    its model first (422 on failure, the handler does not run); an
    [HTTPException] leaving the handler becomes a response with its status,
    any other exception a 500. *)
Definition respond {A} (handler : M A) : World -> http_response A * World :=
  fun w =>
    match handler w with
    | (inr body, w') => (Http200 body, w')
    | (inl (HTTPException code detail), w') => (HttpError code detail, w')
    | (inl (PyError _), w') => (HttpError 500 "Internal Server Error", w')
    end.

Definition unprocessable {A} : World -> http_response A * World :=
  fun w => (HttpError 422 "Unprocessable Entity", w).

(** [POST /predict]. *)
Definition post_predict (body : TweetRequest)
  : World -> http_response TweetResponse * World :=
  if TweetRequest_valid body then respond (predict_sentiment body)
  else unprocessable.

(** [POST /batch_predict]. *)
Definition post_batch_predict (body : BatchTweetRequest)
  : World -> http_response BatchTweetResponse * World :=
  if BatchTweetRequest_valid body then respond (batch_predict_sentiment body)
  else unprocessable.

(** [GET /health]. *)
Definition get_health : World -> http_response HealthResponse * World :=
  respond health_check.

(** [GET /stats]. *)
Definition get_stats : World -> http_response stats_dict * World :=
  respond get_prediction_stats.

End Api.

(** ** Sample worlds *)

(** A two-class classifier: texts that start with a minus sign are put in
    class 1, the classifier raises on texts that start with an exclamation
    mark, everything else is class 0. *)
Definition toy_model : NegaBotModel :=
  fun text =>
    match text with
    | String c _ =>
        if Ascii.eqb c "-" then
          inr {| argmax := 1; probabilities := [(1 # 8)%Q; (7 # 8)%Q] |}
        else if Ascii.eqb c "!" then inl (PyError "model fault")
        else inr {| argmax := 0; probabilities := [(3 # 4)%Q; (1 # 4)%Q] |}
    | EmptyString =>
        inr {| argmax := 0; probabilities := [(3 # 4)%Q; (1 # 4)%Q] |}
    end.

Definition empty_world (m : option NegaBotModel) : World :=
  {| model := m; logger_instance := false; predictions := [];
     clock := 1700000000000000; io_faults := []; trace := [] |}.

Definition sample_metadata : pydict :=
  [("source", JStr "test"); ("user_id", JStr "123")].

(** A history of three rows, the last two written within the same second. *)
Definition sample_rows : list Row :=
  [ {| row_id := 1; row_text := "good"; row_sentiment := "Positive";
       row_confidence := (3 # 4)%Q; row_predicted_class := 0;
       row_timestamp := 1700000000000000; row_metadata := None;
       row_created_at := 1700000000 |};
    {| row_id := 2; row_text := "-bad"; row_sentiment := "Negative";
       row_confidence := (7 # 8)%Q; row_predicted_class := 1;
       row_timestamp := 1700000005000000; row_metadata := None;
       row_created_at := 1700000005 |};
    {| row_id := 3; row_text := "fine"; row_sentiment := "Positive";
       row_confidence := (3 # 4)%Q; row_predicted_class := 0;
       row_timestamp := 1700000005500000; row_metadata := None;
       row_created_at := 1700000005 |} ].

Definition sample_world (m : option NegaBotModel) (faults : list bool) : World :=
  {| model := m; logger_instance := true; predictions := sample_rows;
     clock := 1700000009000000; io_faults := faults; trace := [] |}.

(** Sample requests. *)
Definition sample_request : Api.TweetRequest :=
  {| Api.text := "good"; Api.metadata := Some sample_metadata |}.


Definition sample_batch : Api.BatchTweetRequest :=
  {| Api.tweets := ["good"; "-bad"; "fine"];
     Api.b_metadata := Some sample_metadata |}.


Definition failing_batch : Api.BatchTweetRequest :=
  {| Api.tweets := ["good"; "!boom"; "fine"]; Api.b_metadata := None |}.

(** ** Summaries of the handlers' runs *)

(** Whether [Model.predict] returns for a text: the classifier runs and the
    three indexes it reads exist. *)
Definition classifies (m : NegaBotModel) (t : string) : bool :=
  match m t with
  | inl _ => false
  | inr out =>
      andb (Nat.ltb (argmax out) (List.length (probabilities out)))
           (Nat.leb 2 (List.length (probabilities out)))
  end.

(** The classifier is binary: every softmax row has two entries. *)
Definition binary (m : NegaBotModel) : Prop :=
  forall t out, m t = inr out -> List.length (probabilities out) = 2%nat.

(** The class index and the label agree. *)
Definition class_matches_sentiment (c : Z) (s : string) : Prop :=
  (c = 0 <-> s = "Positive") /\ (c = 1 <-> s = "Negative").

Definition response_consistent (r : Api.TweetResponse) : Prop :=
  class_matches_sentiment (Api.r_predicted_class r) (Api.r_sentiment r).

Definition row_consistent (r : Row) : Prop :=
  class_matches_sentiment (row_predicted_class r) (row_sentiment r).

(** No pending store fault. *)
Definition fault_free (w : World) : Prop :=
  Forall (fun b => b = false) (io_faults w).

(** The logger singleton exists or its construction will not fault. *)
Definition logger_available (w : World) : bool :=
  orb (logger_instance w) (negb (hd false (io_faults w))).

(** The metadata column of a row can be decoded. *)
Definition row_decodable (r : Row) : bool :=
  match row_metadata r with
  | Some (String c s) =>
      match Json.loads (String c s) with Some _ => true | None => false end
  | _ => true
  end.

Definition is_store_event (e : event) : Prop := e = EvStore.

(** Non-increasing [created_at]. *)
Definition newest_first (ds : list Database.PredictionDict) : Prop :=
  StronglySorted (fun a b => Database.created_at b <= Database.created_at a) ds.



(** The mean of a list of floats as a program takes it: the sum, then one
    division by the count. *)
Definition float_mean (xs : list Q) : Q :=
  fdiv (float_sum xs) (float_of_int (Z.of_nat (List.length xs))).

(** [v] is [x] rounded to [n] decimals: a multiple [k * 10^-n] of [10^-n]
    no further than half of [10^-n] from [x], with [k] even when [x] lies
    half-way between two multiples. *)
Definition rounded_to (n : nat) (x v : Q) : Prop :=
  exists k : Z,
    (v == inject_Z k / inject_Z (10 ^ Z.of_nat n))%Q /\
    (Qabs (v - x) <= 1 / (2 * inject_Z (10 ^ Z.of_nat n)))%Q /\
    ((Qabs (v - x) == 1 / (2 * inject_Z (10 ^ Z.of_nat n)))%Q ->
     Z.even k = true).


(** The TEXT value stored for a metadata argument. *)
Definition stored_metadata (md : option pydict) : option string :=
  if dict_truthy md then option_map (fun d => Json.dumps (JObj d)) md else None.

(** The row [Database.log_prediction] appends when it succeeds in [w]. *)
Definition logged_row (text sentiment : string) (confidence : Q)
    (metadata : option pydict) (w : World) : Row :=
  {| row_id := Database.next_id (predictions w);
     row_text := text;
     row_sentiment := sentiment;
     row_confidence := confidence;
     row_predicted_class := if String.eqb sentiment "Negative" then 1 else 0;
     row_timestamp := clock w;
     row_metadata := stored_metadata metadata;
     row_created_at := Database.current_timestamp w |}.

(** A prediction that [Model.predict] returns for its own text. *)
Definition produced_by (m : NegaBotModel) (p : Model.Prediction) : Prop :=
  forall w, fst (Model.predict m (Model.text p) w) = inr p.

(** The world after one store access. *)
Definition accessed (w : World) : World :=
  set_io_faults (set_trace w (trace w ++ [EvStore])%list) (tl (io_faults w)).

Definition store_error : exn := PyError "unable to open database file".

(** [row] is what logging the prediction [p] with metadata [md] at time
    [now] writes, its [id] and [created_at] apart. *)
Definition row_of (md : option pydict) (now : Z) (p : Model.Prediction)
    (row : Row) : Prop :=
  row_text row = Model.text p /\
  row_sentiment row = Model.sentiment p /\
  row_confidence row = Model.confidence p /\
  row_predicted_class row
  = (if String.eqb (Model.sentiment p) "Negative" then 1 else 0) /\
  row_timestamp row = now /\
  row_metadata row = stored_metadata md.

(** The loop body of [batch_predict_sentiment]. *)
Definition respond_and_log (md : option pydict) (result : Model.Prediction)
  : M Api.TweetResponse :=
  now <- datetime_now ;;
  let response := Api.make_response result now in
  Database.log_prediction (Model.text result) (Model.sentiment result)
    (Model.confidence result) md ;;
  ret response.

(** The dictionary read back for a row whose metadata decodes. *)
Definition decoded_metadata (r : Row) : option json :=
  match row_metadata r with
  | Some (String c s) => Json.loads (String c s)
  | _ => None
  end.

Definition dict_of_row (r : Row) : Database.PredictionDict :=
  {| Database.id := row_id r;
     Database.text := row_text r;
     Database.sentiment := row_sentiment r;
     Database.confidence := row_confidence r;
     Database.predicted_class := row_predicted_class r;
     Database.timestamp := row_timestamp r;
     Database.metadata := decoded_metadata r;
     Database.created_at := row_created_at r |}.

(** The rows a read with the optional limit gets to see: those the
    [SELECT] returns, none when the statement fails. *)
Definition selected (limit : option Z) (rows : list Row) : list Row :=
  let ordered := Database.order_by_created_at_desc rows in
  if int_truthy limit
  then match limit with
       | Some n =>
           match Database.sql_limit n ordered with
           | inr l => l
           | inl _ => []
           end
       | None => ordered
       end
  else ordered.

(** The store can be read: no fault is pending and every row decodes. *)
Definition readable (w : World) : Prop :=
  fault_free w /\ forallb row_decodable (predictions w) = true.

(** The snapshot [/stats] returns when it finds no prediction. *)
Definition empty_snapshot : Api.stats_dict :=
  [("total_predictions", Api.PInt 0);
   ("positive_count", Api.PInt 0);
   ("negative_count", Api.PInt 0);
   ("average_confidence", Api.PInt 0);
   ("message", Api.PStr "No predictions found")].

(** Rows in non-increasing order of [created_at]. *)
Definition rows_desc (l : list Row) : Prop :=
  StronglySorted (fun a b => row_created_at b <= row_created_at a) l.

(** ** database.py: statistics computed by the store itself *)
Module DatabaseStats.

(** [SELECT sentiment, COUNT( * ) FROM predictions GROUP BY sentiment] read
    through [sentiment_counts.get(label, 0)]. *)
Definition sentiment_count (label : string) (rows : list Row) : Z :=
  Z.of_nat (List.length
              (filter (fun r => String.eqb (row_sentiment r) label) rows)).

(** [SELECT AVG(confidence) FROM predictions] on a table with rows: the
    aggregate adds the [REAL] values in table order, each addition rounding
    to binary64, and divides the sum by the row count converted to a
    [REAL] (SQLite 3.40). *)
Definition sql_avg (rows : list Row) : Q :=
  fdiv (float_sum (map (fun r => b64 (row_confidence r)) rows))
       (float_of_int (Z.of_nat (List.length rows))).

(** [PredictionLogger.get_stats]. *)
Definition PredictionLogger_get_stats : M Api.stats_dict :=
  try_except
    (Database.sqlite3_connect ;;
     (fun w =>
        let rows := predictions w in
        let total_count := Z.of_nat (List.length rows) in
        if total_count =? 0 then
          (inr [("total_predictions", Api.PInt 0);
                ("positive_count", Api.PInt 0);
                ("negative_count", Api.PInt 0);
                ("average_confidence", Api.PInt 0)], w)
        else
          let avg_confidence := sql_avg rows in
          (inr [("total_predictions", Api.PInt total_count);
                ("positive_count", Api.PInt (sentiment_count "Positive" rows));
                ("negative_count", Api.PInt (sentiment_count "Negative" rows));
                ("average_confidence",
                 if Qeq_bool avg_confidence (0 # 1) then Api.PInt 0
                 else Api.PFloat (py_round avg_confidence 4))], w)))
    (fun e => ret []).

(** The module-level [get_prediction_stats]. *)
Definition get_prediction_stats : M Api.stats_dict :=
  Database.get_logger ;;
  PredictionLogger_get_stats.

End DatabaseStats.

(** ** model.py and api.py: loading the model at startup *)

(** The process around the world of the handlers: the singleton of
    model.py. *)
Record Process : Type := {
  world : World;
  model_instance : option NegaBotModel    (* model._model_instance *)
}.

Definition set_model (w : World) (m : option NegaBotModel) : World :=
  {| model := m; logger_instance := logger_instance w;
     predictions := predictions w; clock := clock w;
     io_faults := io_faults w; trace := trace w |}.

Module ModelLoader.

Definition default_model_name : string :=
  "jatinmehra/NegaBot-Product-Criticism-Catcher".

(** What [from_pretrained] yields for a model name, model and tokenizer
    together: the loaded classifier or the exception. *)
Definition Hub := string -> exn + NegaBotModel.

(** [NegaBotModel.load_model]. *)
Definition load_model (hub : Hub) (model_name : string) : exn + NegaBotModel :=
  match hub model_name with
  | inr m => inr m
  | inl e => inl e      (* logged and raised again *)
  end.

(** [NegaBotModel.__init__]. *)
Definition NegaBotModel_init (hub : Hub) (model_name : string)
  : exn + NegaBotModel :=
  load_model hub model_name.

(** [get_model]: the singleton is built on first use and kept. *)
Definition get_model (hub : Hub) (p : Process) : (exn + NegaBotModel) * Process :=
  match model_instance p with
  | Some m => (inr m, p)
  | None =>
      match NegaBotModel_init hub default_model_name with
      | inr m => (inr m, {| world := world p; model_instance := Some m |})
      | inl e => (inl e, p)
      end
  end.

End ModelLoader.

Module Startup.

(** [startup_event]. *)
Definition startup_event (hub : ModelLoader.Hub) (p : Process)
  : (exn + unit) * Process :=
  match ModelLoader.get_model hub p with
  | (inr m, p') =>
      (inr tt, {| world := set_model (world p') (Some m);
                  model_instance := model_instance p' |})
  | (inl e, p') => (inl e, p')     (* logged and raised again *)
  end.

(** [root]. *)
Definition root : M json :=
  ret (JObj
         [("message", JStr "Welcome to NegaBot API");
          ("version", JStr "1.0.0");
          ("description",
           JStr "Tweet Sentiment Classification using NegaBot model");
          ("endpoints",
           JObj [("predict", JStr "/predict - Single tweet prediction");
                 ("batch_predict",
                  JStr "/batch_predict - Multiple tweets prediction");
                 ("health", JStr "/health - API health check");
                 ("stats", JStr "/stats - Prediction statistics")])]).

(** [GET /]. *)
Definition get_root : World -> Api.http_response json * World :=
  Api.respond root.

End Startup.

(** ** dashboard.py: loading and filtering the history *)
Module Dashboard.

(** A row of the data frame: the record and the two columns derived from
    [created_at] (seconds since the epoch). *)
Record FrameRow : Type := {
  prediction : Database.PredictionDict;
  date : Z;      (* df['created_at'].dt.date, as a day number *)
  hour : Z       (* df['created_at'].dt.hour *)
}.

(** A data frame. [pd.DataFrame()] has no column at all; a frame built
    from records keeps its columns also when a filter leaves it no row. *)
Record DataFrame : Type := {
  has_columns : bool;
  rows : list FrameRow
}.

Definition empty_frame : DataFrame := {| has_columns := false; rows := [] |}.

Definition with_dates (p : Database.PredictionDict) : FrameRow :=
  {| prediction := p;
     date := Database.created_at p / 86400;
     hour := (Database.created_at p mod 86400) / 3600 |}.

(** [load_data]; the message shown by [st.error] is left out. *)
Definition load_data : M DataFrame :=
  try_except
    (predictions <- Database.get_all_predictions None ;;
     match predictions with
     | _ :: _ =>
         ret {| has_columns := true; rows := map with_dates predictions |}
     | [] => ret empty_frame
     end)
    (fun e => ret empty_frame).

(** [df[mask]] where the mask is computed from columns of [df]: a frame
    without columns raises [KeyError]. *)
Definition select (keep : FrameRow -> bool) (df : DataFrame)
  : exn + DataFrame :=
  if has_columns df
  then inr {| has_columns := true; rows := filter keep (rows df) |}
  else inl (PyError "KeyError").

(** The regular expression engine behind
    [Series.str.contains(term, case=False, na=False)]: compiling the term
    raises or gives the test run on each text. *)
Definition Regex := string -> exn + (string -> bool).

(** The three filters of [filter_dataframe], each applied if it is
    switched on. [date_range] is the tuple the date input hands over.
    Whether [str.contains] compiles the term for a column without rows
    depends on the string engine of the pandas at hand: [eager] says that
    it does. *)
Definition sentiment_step (sentiment_filter : string) (filtered_df : DataFrame)
  : exn + DataFrame :=
  if negb (String.eqb sentiment_filter "All")
  then select (fun r => String.eqb (Database.sentiment (prediction r))
                          sentiment_filter) filtered_df
  else inr filtered_df.

Definition date_step (date_range : list Z) (filtered_df : DataFrame)
  : exn + DataFrame :=
  match date_range with
  | [] => inr filtered_df
  | [start_date; end_date] =>
      select (fun r => andb (start_date <=? date r) (date r <=? end_date))
             filtered_df
  | _ => inl (PyError "ValueError")     (* the tuple does not unpack *)
  end.

Definition search_step (compile : Regex) (eager : bool) (search_term : string)
    (filtered_df : DataFrame) : exn + DataFrame :=
  match search_term with
  | EmptyString => inr filtered_df
  | String _ _ =>
      if has_columns filtered_df
      then match rows filtered_df, eager with
           | [], false => inr filtered_df
           | _, _ =>
               match compile search_term with
               | inl e => inl e
               | inr found =>
                   select (fun r => found (Database.text (prediction r)))
                          filtered_df
               end
           end
      else inl (PyError "KeyError")
  end.

(** [filter_dataframe]. *)
Definition filter_dataframe (compile : Regex) (eager : bool) (df : DataFrame)
    (sentiment_filter : string) (date_range : list Z) (search_term : string)
  : exn + DataFrame :=
  let filtered_df := df in
  match sentiment_step sentiment_filter filtered_df with
  | inl e => inl e
  | inr filtered_df =>
      match date_step date_range filtered_df with
      | inl e => inl e
      | inr filtered_df => search_step compile eager search_term filtered_df
      end
  end.





End Dashboard.

(** ** Vocabulary for the further properties *)

Definition status_of {A} (r : Api.http_response A) : nat :=
  match r with
  | Api.Http200 _ => 200
  | Api.HttpError code _ => code
  end.

(** A row labelled the way [Model.predict] and [log_prediction] label. *)
Definition well_labelled (r : Row) : Prop :=
  (row_sentiment r = "Positive" /\ row_predicted_class r = 0) \/
  (row_sentiment r = "Negative" /\ row_predicted_class r = 1).

(** Ids are positive and grow along the table. *)
Definition ids_ascending (rows : list Row) : Prop :=
  StronglySorted Z.lt (map row_id rows) /\ Forall (fun r => 0 < row_id r) rows.

(** Every entry of every softmax row is a probability. *)
Definition yields_probabilities (m : NegaBotModel) : Prop :=
  forall t out,
    m t = inr out ->
    Forall (fun p => (0 <= p)%Q /\ (p <= 1)%Q) (probabilities out).

Definition unit_interval (x : Q) : Prop := (0 <= x)%Q /\ (x <= 1)%Q.

(** A hub that serves the sample classifier under the default name only. *)
Definition sample_hub : ModelLoader.Hub :=
  fun name =>
    if String.eqb name ModelLoader.default_model_name then inr toy_model
    else inl (PyError "model not found").

Definition failing_hub : ModelLoader.Hub :=
  fun _ => inl (PyError "connection error").

(** A regular expression engine for the samples: a term starting with
    an opening parenthesis does not compile, any other term is searched
    for as a prefix. *)
Definition sample_regex : Dashboard.Regex :=
  fun term =>
    match term with
    | String "(" _ => inl (PyError "re.error")
    | _ => inr (fun text => String.prefix term text)
    end.

(** The stored row says what the response says. (Row and response each
    take their own reading of the clock.) *)
Definition row_matches_response (row : Row) (r : Api.TweetResponse) : Prop :=
  row_text row = Api.r_text r /\
  row_sentiment row = Api.r_sentiment r /\
  row_confidence row = Api.r_confidence r.

(** A property of the table that survives the append of a row logged with
    one of the two labels. *)
Definition kept_by_logging (I : list Row -> Prop) : Prop :=
  forall w t s c md,
    s = "Positive" \/ s = "Negative" ->
    I (predictions w) ->
    I (predictions w ++ [logged_row t s c md w])%list.

(** The confidence of a response is the probability reported for its
    label. *)
Definition confidence_of_label (r : Api.TweetResponse) : Prop :=
  (Api.r_sentiment r = "Positive" /\ Api.r_confidence r = Api.r_positive r) \/
  (Api.r_sentiment r = "Negative" /\ Api.r_confidence r = Api.r_negative r).

(** The three numbers of a response are probabilities. *)
Definition numbers_in_range (r : Api.TweetResponse) : Prop :=
  unit_interval (Api.r_confidence r) /\
  unit_interval (Api.r_positive r) /\
  unit_interval (Api.r_negative r).

(** The snapshot [/stats] computes from a non-empty list of records. *)
Definition snapshot_of (ps : list Database.PredictionDict) (now : Z)
  : Api.stats_dict :=
  let total := Z.of_nat (List.length ps) in
  let positive_count := Z.of_nat (List.length (filter Api.is_positive ps)) in
  let negative_count := total - positive_count in
  [("total_predictions", Api.PInt total);
   ("positive_count", Api.PInt positive_count);
   ("negative_count", Api.PInt negative_count);
   ("positive_percentage",
    Api.PFloat (py_round (fmul (int_truediv positive_count total)
                               (float_of_int 100)) 2));
   ("negative_percentage",
    Api.PFloat (py_round (fmul (int_truediv negative_count total)
                               (float_of_int 100)) 2));
   ("average_confidence",
    Api.PFloat (py_round (fdiv (Api.sum_confidence ps) (float_of_int total))
                         4));
   ("last_updated", Api.PTime now)].

Definition is_percentage (q : Q) : Prop := (0 <= q)%Q /\ (q <= 100)%Q.

(** Every stored confidence is a probability. *)
Definition confidences_are_probabilities (rows : list Row) : Prop :=
  Forall (fun r => unit_interval (row_confidence r)) rows.

(** What every snapshot of [/stats] satisfies, for the rows of the store it
    was computed from. *)
Definition consistent_snapshot (rows : list Row) (d : Api.stats_dict) : Prop :=
  exists total pos neg avg,
    Api.dict_get d "total_predictions" = Some (Api.PInt total) /\
    Api.dict_get d "positive_count" = Some (Api.PInt pos) /\
    Api.dict_get d "negative_count" = Some (Api.PInt neg) /\
    Api.dict_get d "average_confidence" = Some avg /\
    0 <= pos /\ 0 <= neg /\ pos + neg = total /\
    (total = 0 \/ total = Z.of_nat (List.length rows)) /\
    (total = 0 <->
     Api.dict_get d "message" = Some (Api.PStr "No predictions found")) /\
    (total = 0 ->
     Api.dict_get d "positive_percentage" = None /\
     Api.dict_get d "negative_percentage" = None /\
     Api.dict_get d "last_updated" = None /\
     avg = Api.PInt 0) /\
    (0 < total ->
     exists pp np a,
       Api.dict_get d "positive_percentage" = Some (Api.PFloat pp) /\
       Api.dict_get d "negative_percentage" = Some (Api.PFloat np) /\
       is_percentage pp /\ is_percentage np /\
       avg = Api.PFloat a /\
       (confidences_are_probabilities rows -> unit_interval a)).


(** The record read back for a prediction logged in [w]. *)
Definition logged_dict (text sentiment : string) (confidence : Q)
    (metadata : option pydict) (w : World) : Database.PredictionDict :=
  {| Database.id := Database.next_id (predictions w);
     Database.text := text;
     Database.sentiment := sentiment;
     Database.confidence := confidence;
     Database.predicted_class :=
       if String.eqb sentiment "Negative" then 1 else 0;
     Database.timestamp := clock w;
     Database.metadata :=
       match metadata with
       | Some ((_ :: _) as d) => Some (JObj d)
       | _ => None
       end;
     Database.created_at := Database.current_timestamp w |}.

(** Every stored row was created before the second the clock shows. *)
Definition strictly_older (w : World) : Prop :=
  Forall (fun r => row_created_at r < Database.current_timestamp w)
         (predictions w).



(** Four rows written one per second whose confidences add up to
    different floats from the oldest to the newest and back. *)
Definition uneven_rows : list Row :=
  [ {| row_id := 1; row_text := "a"; row_sentiment := "Positive";
       row_confidence := (7705 # 10000)%Q; row_predicted_class := 0;
       row_timestamp := 1700000000000000; row_metadata := None;
       row_created_at := 1700000000 |};
    {| row_id := 2; row_text := "b"; row_sentiment := "Positive";
       row_confidence := (5396 # 10000)%Q; row_predicted_class := 0;
       row_timestamp := 1700000001000000; row_metadata := None;
       row_created_at := 1700000001 |};
    {| row_id := 3; row_text := "c"; row_sentiment := "Positive";
       row_confidence := (8603 # 10000)%Q; row_predicted_class := 0;
       row_timestamp := 1700000002000000; row_metadata := None;
       row_created_at := 1700000002 |};
    {| row_id := 4; row_text := "d"; row_sentiment := "Negative";
       row_confidence := (2322 # 10000)%Q; row_predicted_class := 1;
       row_timestamp := 1700000003000000; row_metadata := None;
       row_created_at := 1700000003 |} ].

Definition uneven_world : World :=
  {| model := None; logger_instance := true; predictions := uneven_rows;
     clock := 1700000009000000; io_faults := []; trace := [] |}.

(** The dictionary [PredictionLogger.get_stats] computes from the rows. *)
Definition store_snapshot (rows : list Row) : Api.stats_dict :=
  if Z.of_nat (List.length rows) =? 0
  then [("total_predictions", Api.PInt 0);
        ("positive_count", Api.PInt 0);
        ("negative_count", Api.PInt 0);
        ("average_confidence", Api.PInt 0)]
  else [("total_predictions", Api.PInt (Z.of_nat (List.length rows)));
        ("positive_count",
         Api.PInt (DatabaseStats.sentiment_count "Positive" rows));
        ("negative_count",
         Api.PInt (DatabaseStats.sentiment_count "Negative" rows));
        ("average_confidence",
         if Qeq_bool (DatabaseStats.sql_avg rows) (0 # 1)
         then Api.PInt 0
         else Api.PFloat (py_round (DatabaseStats.sql_avg rows) 4))].

(** What [model.get_model] can hand out: the singleton if there is one,
    else what the hub serves under the default name. *)
Definition loadable (hub : ModelLoader.Hub) (p : Process)
  : exn + NegaBotModel :=
  match model_instance p with
  | Some m => inr m
  | None => hub ModelLoader.default_model_name
  end.

(** A process that has just been started. *)
Definition fresh_process : Process :=
  {| world := empty_world None; model_instance := None |}.

(** The store accesses [k] times without fault and then faults. *)
Definition faults_after (k : nat) (w : World) : Prop :=
  exists rest, io_faults w = (repeat false k ++ true :: rest)%list.

(** ** Vocabulary for the dashboard *)

(** The three tests of [filter_dataframe] on one row: a filter that is
    switched off lets every row pass. *)
Definition sentiment_test (sentiment_filter : string)
    (r : Dashboard.FrameRow) : bool :=
  String.eqb sentiment_filter "All"
  || String.eqb (Database.sentiment (Dashboard.prediction r)) sentiment_filter.

Definition date_test (date_range : list Z) (r : Dashboard.FrameRow) : bool :=
  match date_range with
  | [start_date; end_date] =>
      (start_date <=? Dashboard.date r) && (Dashboard.date r <=? end_date)
  | _ => true
  end.

Definition search_test (compile : Dashboard.Regex) (search_term : string)
    (r : Dashboard.FrameRow) : bool :=
  match search_term with
  | EmptyString => true
  | String _ _ =>
      match compile search_term with
      | inr found => found (Database.text (Dashboard.prediction r))
      | inl _ => false
      end
  end.

Definition kept (compile : Dashboard.Regex) (sentiment_filter : string)
    (date_range : list Z) (search_term : string) (r : Dashboard.FrameRow)
  : bool :=
  sentiment_test sentiment_filter r && date_test date_range r
  && search_test compile search_term r.

(** The term is compiled: the engine always does, or a row is left to
    search once the sentiment and date filters have been applied. *)
Definition term_compiled (eager : bool) (df : Dashboard.DataFrame)
    (sentiment_filter : string) (date_range : list Z) : bool :=
  eager
  || existsb (fun r => sentiment_test sentiment_filter r
                       && date_test date_range r) (Dashboard.rows df).

(** The exception the controls make [filter_dataframe] raise on a frame
    that has its columns, if any. *)
Definition filter_error (compile : Dashboard.Regex) (eager : bool)
    (df : Dashboard.DataFrame) (sentiment_filter : string)
    (date_range : list Z) (search_term : string) : option exn :=
  match date_range with
  | [] | [_; _] =>
      match search_term with
      | EmptyString => None
      | String _ _ =>
          if term_compiled eager df sentiment_filter date_range
          then match compile search_term with
               | inl e => Some e
               | inr _ => None
               end
          else None
      end
  | _ => Some (PyError "ValueError")
  end.

(** A frame over the sample history. *)
Definition sample_frame : Dashboard.DataFrame :=
  {| Dashboard.has_columns := true;
     Dashboard.rows :=
       map Dashboard.with_dates
         (map dict_of_row (Database.order_by_created_at_desc sample_rows)) |}.

(** The date and hour columns fit the creation time of the row. *)
Definition dated (r : Dashboard.FrameRow) : Prop :=
  0 <= Dashboard.hour r < 24 /\
  Dashboard.date r * 86400 + Dashboard.hour r * 3600
  <= Database.created_at (Dashboard.prediction r)
  < Dashboard.date r * 86400 + Dashboard.hour r * 3600 + 3600.

(** * Properties *)

Local Open Scope list_scope.

Ltac run_monad :=
  unfold bind, ret, raise, try_except, log_event, datetime_now in *.

(** ** The classifier wrapper *)

(** [predict] written out: one classifier event, then either the
    prediction or the exception. *)
Lemma predict_eq (m : NegaBotModel) (t : string) (w : World) :
  Model.predict m t w
  = (match m t with
     | inl e => inl e
     | inr out =>
         match nth_error (probabilities out) (argmax out),
               nth_error (probabilities out) 0,
               nth_error (probabilities out) 1 with
         | Some c, Some p0, Some p1 =>
             inr {| Model.text := t;
                    Model.sentiment :=
                      if Nat.eqb (argmax out) 1 then "Negative" else "Positive";
                    Model.confidence := py_round c 4;
                    Model.predicted_class := Z.of_nat (argmax out);
                    Model.positive := py_round p0 4;
                    Model.negative := py_round p1 4 |}
         | _, _, _ => inl (PyError "index out of range")
         end
     end,
     set_trace w (trace w ++ [EvClassify t])).
Proof.
  unfold Model.predict, Model.item. run_monad.
  destruct (m t) as [e|out]; [reflexivity|].
  remember (nth_error (probabilities out) (argmax out)) as c eqn:Ec.
  remember (nth_error (probabilities out) 0) as p0 eqn:E0.
  remember (nth_error (probabilities out) 1) as p1 eqn:E1.
  destruct c, p0, p1; reflexivity.
Qed.

Lemma predict_world (m : NegaBotModel) (t : string) (w : World) :
  snd (Model.predict m t w) = set_trace w (trace w ++ [EvClassify t]).
Proof. rewrite predict_eq. reflexivity. Qed.

Lemma predict_returns (m : NegaBotModel) (t : string) (w : World) :
  classifies m t = true ->
  exists p, fst (Model.predict m t w) = inr p.
Proof.
  rewrite predict_eq. unfold classifies.
  destruct (m t) as [e|out]; [discriminate|].
  intros H. apply andb_true_iff in H. destruct H as [H1 H2].
  apply Nat.ltb_lt in H1. apply Nat.leb_le in H2.
  destruct (nth_error (probabilities out) (argmax out)) eqn:Ec;
    [|apply nth_error_None in Ec; lia].
  destruct (nth_error (probabilities out) 0) eqn:E0;
    [|apply nth_error_None in E0; lia].
  destruct (nth_error (probabilities out) 1) eqn:E1;
    [|apply nth_error_None in E1; lia].
  eexists. reflexivity.
Qed.

(** What a returned prediction looks like. *)
Lemma predict_result (m : NegaBotModel) (t : string) (w : World)
    (p : Model.Prediction) :
  fst (Model.predict m t w) = inr p ->
  classifies m t = true /\
  Model.text p = t /\
  exists out,
    m t = inr out /\
    (argmax out < List.length (probabilities out))%nat /\
    Model.predicted_class p = Z.of_nat (argmax out) /\
    Model.sentiment p
    = (if Nat.eqb (argmax out) 1 then "Negative" else "Positive").
Proof.
  rewrite predict_eq. unfold classifies.
  destruct (m t) as [e|out]; [discriminate|].
  destruct (nth_error (probabilities out) (argmax out)) eqn:Ec;
    [|discriminate].
  destruct (nth_error (probabilities out) 0) eqn:E0;
    [|discriminate].
  destruct (nth_error (probabilities out) 1) eqn:E1;
    [|discriminate].
  cbn [fst]. intros H. inversion H. subst p.
  cbn [Model.text Model.sentiment Model.predicted_class].
  assert (argmax out < List.length (probabilities out))%nat
    by (apply nth_error_Some; congruence).
  assert (1 < List.length (probabilities out))%nat
    by (apply nth_error_Some; congruence).
  split.
  - apply andb_true_iff. split; [apply Nat.ltb_lt|apply Nat.leb_le]; lia.
  - split; [reflexivity|]. exists out. auto.
Qed.

Lemma predict_raises (m : NegaBotModel) (t : string) (w : World) :
  classifies m t = false ->
  exists e, fst (Model.predict m t w) = inl e.
Proof.
  intros H. destruct (fst (Model.predict m t w)) as [e|p] eqn:E.
  - exists e. reflexivity.
  - apply predict_result in E. destruct E as [E _]. congruence.
Qed.

Lemma predict_sentiment_label (m : NegaBotModel) (t : string) (w : World)
    (p : Model.Prediction) :
  fst (Model.predict m t w) = inr p ->
  Model.sentiment p = "Positive" \/ Model.sentiment p = "Negative".
Proof.
  intros H. apply predict_result in H.
  destruct H as [_ [_ [out [_ [_ [_ Hs]]]]]]. rewrite Hs.
  destruct (Nat.eqb (argmax out) 1); auto.
Qed.

Lemma predict_fst_indep (m : NegaBotModel) (t : string) (w w' : World) :
  fst (Model.predict m t w) = fst (Model.predict m t w').
Proof. rewrite !predict_eq. reflexivity. Qed.

Lemma set_trace_set_trace (w : World) (t1 t2 : list event) :
  set_trace (set_trace w t1) t2 = set_trace w t2.
Proof. reflexivity. Qed.

(** [batch_predict] classifies the texts in order and stops at the first
    one that raises; nothing but the trace changes. *)
Lemma batch_predict_run (m : NegaBotModel) (ts : list string) (w : World) :
  exists r classified,
    Model.batch_predict m ts w
    = (r, set_trace w (trace w ++ map EvClassify classified)) /\
    ((forallb (classifies m) ts = true /\ classified = ts /\
      exists ps, r = inr ps /\ map Model.text ps = ts /\
                 Forall (produced_by m) ps)
     \/
     (forallb (classifies m) ts = false /\ exists e, r = inl e)).
Proof.
  unfold Model.batch_predict. revert w.
  induction ts as [|t ts IH]; intros w.
  - exists (inr []), []. split.
    + cbn. unfold ret. rewrite app_nil_r. destruct w; reflexivity.
    + left. repeat split. exists []. repeat split. constructor.
  - cbn [for_each forallb]. unfold bind at 1.
    destruct (Model.predict m t w) as [r1 w1] eqn:E1.
    assert (Hw1 : w1 = set_trace w (trace w ++ [EvClassify t])).
    { rewrite <- (predict_world m t w). rewrite E1. reflexivity. }
    destruct r1 as [e|p].
    + exists (inl e), [t]. split; [subst w1; reflexivity|].
      right. split; [|eexists; reflexivity].
      destruct (classifies m t) eqn:C; [|reflexivity].
      destruct (predict_returns m t w C) as [p Hp].
      rewrite E1 in Hp. discriminate.
    + assert (Hp : fst (Model.predict m t w) = inr p) by (rewrite E1; reflexivity).
      pose proof (predict_result m t w p Hp) as [C [Ht _]].
      destruct (IH w1) as [r [cl [Hrun Hcases]]].
      unfold bind at 1. rewrite Hrun. rewrite C. cbn [andb].
      assert (Hw : set_trace w1 (trace w1 ++ map EvClassify cl)
                   = set_trace w (trace w ++ map EvClassify (t :: cl))).
      { subst w1. cbn [map]. unfold set_trace. cbn. rewrite <- app_assoc.
        reflexivity. }
      destruct Hcases as [[Hall [Hcl [ps [Hr [Hts Hps]]]]]|[Hall [e He]]].
      * subst r. exists (inr (p :: ps)), (t :: cl). split.
        { unfold ret. rewrite Hw. reflexivity. }
        left. split; [exact Hall|]. split; [congruence|].
        exists (p :: ps). split; [reflexivity|]. split.
        { cbn. congruence. }
        constructor; [|exact Hps].
        intros w0. rewrite Ht. rewrite (predict_fst_indep m t w0 w). exact Hp.
      * subst r. exists (inl e), (t :: cl). split.
        { rewrite Hw. reflexivity. }
        right. split; [exact Hall|]. eexists. reflexivity.
Qed.

(** ** The store *)

Lemma sqlite3_connect_eq (w : World) :
  Database.sqlite3_connect w
  = (if hd false (io_faults w) then inl store_error else inr tt, accessed w).
Proof.
  unfold Database.sqlite3_connect, accessed.
  destruct w as [m l ps c fs tr]. cbn.
  destruct fs as [|[] fs]; reflexivity.
Qed.

Lemma get_logger_eq (w : World) :
  Database.get_logger w
  = if logger_instance w then (inr tt, w)
    else if hd false (io_faults w) then (inl store_error, accessed w)
    else (inr tt, set_logger_instance (accessed w) true).
Proof.
  unfold Database.get_logger, Database.init_database, try_except, raise.
  rewrite sqlite3_connect_eq.
  destruct (logger_instance w); [reflexivity|].
  destruct (hd false (io_faults w)); reflexivity.
Qed.

Lemma method_log_prediction_eq (t s : string) (c : Q) (md : option pydict)
    (w : World) :
  Database.PredictionLogger_log_prediction t s c None md w
  = if hd false (io_faults w) then (inl store_error, accessed w)
    else (inr tt,
          set_predictions (accessed w)
            (predictions w ++ [logged_row t s c md w])).
Proof.
  unfold Database.PredictionLogger_log_prediction, Database.insert_prediction.
  run_monad. rewrite sqlite3_connect_eq.
  destruct (hd false (io_faults w)); [reflexivity|].
  destruct w; reflexivity.
Qed.

Lemma fault_free_hd (w : World) :
  fault_free w -> hd false (io_faults w) = false.
Proof.
  unfold fault_free. intros H.
  destruct (io_faults w) as [|b fs]; [reflexivity|].
  inversion H. assumption.
Qed.

Lemma fault_free_accessed (w : World) : fault_free w -> fault_free (accessed w).
Proof.
  unfold fault_free. intros H. destruct w as [m l ps c fs tr]. cbn in *.
  destruct fs as [|b fs]; [constructor|]. inversion H. assumption.
Qed.

(** The effect of one [log_prediction] call. *)
Lemma log_prediction_run (t s : string) (c : Q) (md : option pydict)
    (w : World) :
  exists r w',
    Database.log_prediction t s c md w = (r, w') /\
    model w' = model w /\ clock w' = clock w /\
    (exists evs, trace w' = trace w ++ evs /\ Forall is_store_event evs) /\
    ((r = inr tt /\ logger_instance w' = true /\
      predictions w' = predictions w ++ [logged_row t s c md w])
     \/ ((exists e, r = inl e) /\ predictions w' = predictions w)) /\
    (fault_free w -> r = inr tt /\ fault_free w').
Proof.
  unfold Database.log_prediction, bind. rewrite get_logger_eq.
  destruct (logger_instance w) eqn:Hl.
  - rewrite method_log_prediction_eq.
    destruct (hd false (io_faults w)) eqn:Hf.
    + eexists. eexists. split; [reflexivity|].
      destruct w as [m l ps ck fs tr]. cbn in *.
      split; [reflexivity|]. split; [reflexivity|]. split.
      { exists [EvStore]. split; [reflexivity|]. repeat constructor. }
      split.
      { right. split; [eexists; reflexivity|reflexivity]. }
      intros H. apply fault_free_hd in H. cbn in H. congruence.
    + eexists. eexists. split; [reflexivity|].
      split; [destruct w; reflexivity|]. split; [destruct w; reflexivity|].
      split.
      { exists [EvStore]. split; [destruct w; reflexivity|].
        repeat constructor. }
      split.
      { left. split; [reflexivity|]. split; [destruct w; cbn in *; congruence|].
        destruct w; reflexivity. }
      intros H. split; [reflexivity|].
      apply fault_free_accessed in H. destruct w; exact H.
  - destruct (hd false (io_faults w)) eqn:Hf.
    + eexists. eexists. split; [reflexivity|].
      destruct w as [m l ps ck fs tr]. cbn in *.
      split; [reflexivity|]. split; [reflexivity|]. split.
      { exists [EvStore]. split; [reflexivity|]. repeat constructor. }
      split.
      { right. split; [eexists; reflexivity|reflexivity]. }
      intros H. apply fault_free_hd in H. cbn in H. congruence.
    + rewrite method_log_prediction_eq.
      set (w1 := set_logger_instance (accessed w) true).
      assert (Hm : model w1 = model w) by (destruct w; reflexivity).
      assert (Hc : clock w1 = clock w) by (destruct w; reflexivity).
      assert (Hp : predictions w1 = predictions w) by (destruct w; reflexivity).
      assert (Ht : trace w1 = trace w ++ [EvStore]) by (destruct w; reflexivity).
      assert (Hff : fault_free w -> fault_free w1).
      { intros H. apply fault_free_accessed in H. destruct w; exact H. }
      destruct (hd false (io_faults w1)) eqn:Hf1.
      * eexists. eexists. split; [reflexivity|].
        split; [destruct w1; exact Hm|]. split; [destruct w1; exact Hc|].
        split.
        { exists [EvStore; EvStore]. split; [|repeat constructor].
          destruct w1; cbn in *. rewrite Ht. rewrite <- app_assoc. reflexivity. }
        split.
        { right. split; [eexists; reflexivity|]. destruct w1; exact Hp. }
        intros H. apply Hff in H. apply fault_free_hd in H. congruence.
      * eexists. eexists. split; [reflexivity|].
        split; [destruct w1; exact Hm|]. split; [destruct w1; exact Hc|].
        split.
        { exists [EvStore; EvStore]. split; [|repeat constructor].
          destruct w1; cbn in *. rewrite Ht. rewrite <- app_assoc. reflexivity. }
        split.
        { left. split; [reflexivity|].
          split; [destruct w; reflexivity|].
          subst w1. destruct w; reflexivity. }
        intros H. split; [reflexivity|].
        apply Hff in H. apply fault_free_accessed in H. destruct w1; exact H.
Qed.

Lemma logged_row_of (md : option pydict) (p : Model.Prediction) (w : World) :
  row_of md (clock w) p
    (logged_row (Model.text p) (Model.sentiment p) (Model.confidence p) md w).
Proof. repeat split. Qed.

(** ** The handlers *)

(** The loop of [batch_predict_sentiment] over the classified results:
    rows are appended for a prefix of the results, for all of them when the
    loop returns. *)
Lemma respond_and_log_all (md : option pydict) (ps : list Model.Prediction)
    (w : World) :
  exists r w' new k,
    for_each (respond_and_log md) ps w = (r, w') /\
    model w' = model w /\ clock w' = clock w /\
    (exists evs, trace w' = trace w ++ evs /\ Forall is_store_event evs) /\
    predictions w' = predictions w ++ new /\
    Forall2 (row_of md (clock w)) (firstn k ps) new /\
    (forall rs, r = inr rs ->
       rs = map (fun p => Api.make_response p (clock w)) ps /\
       k = List.length ps) /\
    (fault_free w -> (exists rs, r = inr rs) /\ fault_free w').
Proof.
  revert w. induction ps as [|p ps IH]; intros w.
  - exists (inr []), w, [], 0%nat. split; [reflexivity|].
    split; [reflexivity|]. split; [reflexivity|]. split.
    { exists []. rewrite app_nil_r. split; [reflexivity|constructor]. }
    split; [rewrite app_nil_r; reflexivity|]. split; [constructor|]. split.
    { intros rs H. inversion H. split; reflexivity. }
    intros H. split; [eexists; reflexivity|exact H].
  - cbn [for_each]. unfold bind at 1. unfold respond_and_log at 1.
    run_monad.
    destruct (log_prediction_run (Model.text p) (Model.sentiment p)
                (Model.confidence p) md w)
      as [r1 [w1 [Hrun [Hm [Hc [[evs [Ht Hevs]] [Hrows Hff]]]]]]].
    rewrite Hrun.
    destruct Hrows as [[Hr [_ Hp]]|[[e Hr] Hp]]; subst r1.
    + destruct (IH w1) as [r [w' [new [k [Hrun' [Hm' [Hc' [[evs' [Ht' Hevs']]
                              [Hp' [Hrows' [Hres' Hff']]]]]]]]]]].
      rewrite Hrun'.
      exists (match r with
              | inl e => inl e
              | inr rs => inr (Api.make_response p (clock w) :: rs)
              end), w',
             (logged_row (Model.text p) (Model.sentiment p)
                (Model.confidence p) md w :: new), (S k).
      split; [destruct r; reflexivity|].
      split; [congruence|]. split; [congruence|]. split.
      { exists (evs ++ evs'). split.
        - rewrite Ht', Ht. rewrite app_assoc. reflexivity.
        - apply Forall_app. split; assumption. }
      split.
      { rewrite Hp', Hp. rewrite <- app_assoc. reflexivity. }
      split.
      { cbn [firstn]. constructor; [apply logged_row_of|].
        rewrite <- Hc. exact Hrows'. }
      split.
      { intros rs Hrs. destruct r as [e|rs']; [discriminate|].
        inversion Hrs. subst rs. destruct (Hres' rs' eq_refl) as [H1 H2].
        split; [|cbn; congruence]. cbn [map]. rewrite H1. rewrite Hc.
        reflexivity. }
      intros H. destruct (Hff H) as [_ H1]. destruct (Hff' H1) as [[rs Hrs] H2].
      subst r. split; [eexists; reflexivity|exact H2].
    + exists (inl e), w1, [], 0%nat.
      split; [reflexivity|]. split; [exact Hm|]. split; [exact Hc|]. split.
      { exists evs. split; assumption. }
      split; [rewrite app_nil_r; exact Hp|]. split; [constructor|]. split.
      { intros rs H. discriminate. }
      intros H. destruct (Hff H) as [H1 _]. discriminate.
Qed.

(** One run of [batch_predict_sentiment] with a loaded model: either some
    text does not classify, and then nothing but classifier events
    happened; or all texts classify, and then rows are appended for a
    prefix of them. *)
Lemma batch_predict_sentiment_run (body : Api.BatchTweetRequest) (w : World)
    (m : NegaBotModel) :
  model w = Some m ->
  exists r w' classified evs new k ps,
    Api.batch_predict_sentiment body w = (r, w') /\
    trace w' = trace w ++ map EvClassify classified ++ evs /\
    Forall is_store_event evs /\
    predictions w' = predictions w ++ new /\
    model w' = model w /\ clock w' = clock w /\
    ((forallb (classifies m) (Api.tweets body) = false /\
      new = [] /\ evs = [] /\ exists d, r = inl (HTTPException 500 d))
     \/
     (forallb (classifies m) (Api.tweets body) = true /\
      classified = Api.tweets body /\
      map Model.text ps = Api.tweets body /\
      Forall (produced_by m) ps /\
      Forall2 (row_of (Api.b_metadata body) (clock w)) (firstn k ps) new /\
      (forall resp, r = inr resp ->
         Api.results resp = map (fun p => Api.make_response p (clock w)) ps /\
         k = List.length ps /\
         Api.total_processed resp = Z.of_nat (List.length ps)) /\
      (forall e, r = inl e -> exists d, e = HTTPException 500 d) /\
      (fault_free w -> exists resp, r = inr resp))).
Proof.
  intros Hm. unfold Api.batch_predict_sentiment, Api.get_model.
  change (fun result : Model.Prediction =>
            bind datetime_now
              (fun now =>
                 bind (Database.log_prediction (Model.text result)
                         (Model.sentiment result) (Model.confidence result)
                         (Api.b_metadata body))
                   (fun _ => ret (Api.make_response result now))))
    with (respond_and_log (Api.b_metadata body)).
  unfold try_except, bind at 1. rewrite Hm. unfold bind at 1.
  destruct (batch_predict_run m (Api.tweets body) w)
    as [r0 [cl [Hrun Hcases]]].
  rewrite Hrun.
  set (w1 := set_trace w (trace w ++ map EvClassify cl)) in *.
  assert (Hm1 : model w1 = model w) by reflexivity.
  assert (Hc1 : clock w1 = clock w) by reflexivity.
  assert (Hp1 : predictions w1 = predictions w) by reflexivity.
  assert (Ht1 : trace w1 = trace w ++ map EvClassify cl) by reflexivity.
  assert (Hf1 : fault_free w -> fault_free w1) by (intros H; exact H).
  destruct Hcases as [[Hall [Hcl [ps [Hr0 [Hts Hps]]]]]|[Hall [e He]]];
    subst r0.
  - destruct (respond_and_log_all (Api.b_metadata body) ps w1)
      as [r [w' [new [k [Hrun' [Hm' [Hc' [[evs [Ht' Hevs]]
                              [Hp' [Hrows [Hres Hff]]]]]]]]]]].
    unfold bind at 1. rewrite Hrun'.
    exists (match r with
            | inl e =>
                inl (HTTPException 500
                       ("Batch prediction failed: " ++ exn_str e)%string)
            | inr rs =>
                inr {| Api.results := rs;
                       Api.total_processed := Z.of_nat (List.length rs);
                       Api.timestamp := clock w' |}
            end), w', cl, evs, new, k, ps.
    split; [destruct r; reflexivity|].
    split; [rewrite Ht', Ht1, app_assoc; reflexivity|].
    split; [exact Hevs|]. split; [congruence|]. split; [congruence|].
    split; [congruence|].
    right. split; [exact Hall|]. split; [exact Hcl|]. split; [exact Hts|].
    split; [exact Hps|]. split; [rewrite <- Hc1; exact Hrows|]. split.
    { intros resp Hresp. destruct r as [e|rs]; [discriminate|].
      inversion Hresp. subst resp. cbn.
      destruct (Hres rs eq_refl) as [H1 H2]. rewrite Hc1 in H1.
      split; [exact H1|]. split; [exact H2|].
      rewrite H1, length_map. reflexivity. }
    split.
    { intros e He. destruct r as [e'|rs]; [|discriminate].
      inversion He. eexists. reflexivity. }
    intros H. destruct (Hff (Hf1 H)) as [[rs Hrs] _]. subst r.
    eexists. reflexivity.
  - exists (inl (HTTPException 500
                   ("Batch prediction failed: " ++ exn_str e)%string)),
           w1, cl, [], [], 0%nat, [].
    split; [reflexivity|]. split; [rewrite app_nil_r; exact Ht1|].
    split; [constructor|]. split; [rewrite app_nil_r; exact Hp1|].
    split; [congruence|]. split; [exact Hc1|].
    left. split; [exact Hall|]. split; [reflexivity|].
    split; [reflexivity|]. eexists. reflexivity.
Qed.

(** One run of [predict_sentiment] with a loaded model. *)
Lemma predict_sentiment_run (body : Api.TweetRequest) (w : World)
    (m : NegaBotModel) :
  model w = Some m ->
  exists r w' evs,
    Api.predict_sentiment body w = (r, w') /\
    trace w' = trace w ++ [EvClassify (Api.text body)] ++ evs /\
    Forall is_store_event evs /\
    model w' = model w /\ clock w' = clock w /\
    ((classifies m (Api.text body) = false /\ evs = [] /\
      predictions w' = predictions w /\
      exists d, r = inl (HTTPException 500 d))
     \/
     (classifies m (Api.text body) = true /\
      exists p,
        produced_by m p /\ Model.text p = Api.text body /\
        ((r = inr (Api.make_response p (clock w)) /\
          predictions w'
          = predictions w
            ++ [logged_row (Api.text body) (Model.sentiment p)
                  (Model.confidence p) (Api.metadata body) w])
         \/
         ((exists d, r = inl (HTTPException 500 d)) /\
          predictions w' = predictions w)) /\
        (fault_free w -> r = inr (Api.make_response p (clock w))))).
Proof.
  intros Hm. unfold Api.predict_sentiment, Api.get_model.
  unfold try_except, bind at 1. rewrite Hm. unfold bind at 1.
  destruct (Model.predict m (Api.text body) w) as [r1 w1] eqn:E1.
  assert (Hw1 : w1 = set_trace w (trace w ++ [EvClassify (Api.text body)])).
  { rewrite <- (predict_world m (Api.text body) w). rewrite E1. reflexivity. }
  destruct r1 as [e|p].
  - exists (inl (HTTPException 500 ("Prediction failed: " ++ exn_str e)%string)),
           w1, [].
    split; [reflexivity|]. subst w1.
    split; [reflexivity|]. split; [constructor|].
    split; [exact Hm|]. split; [reflexivity|].
    left. split.
    { destruct (classifies m (Api.text body)) eqn:C; [|reflexivity].
      destruct (predict_returns m (Api.text body) w C) as [p Hp].
      rewrite E1 in Hp. discriminate. }
    split; [reflexivity|]. split; [reflexivity|]. eexists. reflexivity.
  - assert (Hp : fst (Model.predict m (Api.text body) w) = inr p)
      by (rewrite E1; reflexivity).
    destruct (predict_result m _ w p Hp) as [C [Ht _]].
    run_monad.
    destruct (log_prediction_run (Api.text body) (Model.sentiment p)
                (Model.confidence p) (Api.metadata body) w1)
      as [r2 [w2 [Hrun [Hm2 [Hc2 [[evs [Ht2 Hevs]] [Hrows Hff]]]]]]].
    rewrite Hrun.
    assert (Hprod : produced_by m p).
    { intros w0. rewrite Ht.
      rewrite (predict_fst_indep m (Api.text body) w0 w). exact Hp. }
    exists (match r2 with
            | inl e =>
                inl (HTTPException 500 ("Prediction failed: " ++ exn_str e)%string)
            | inr _ => inr (Api.make_response p (clock w1))
            end), w2, evs.
    split; [destruct r2; reflexivity|]. subst w1.
    split; [rewrite Ht2; cbn [trace set_trace]; rewrite <- app_assoc; reflexivity|].
    split; [exact Hevs|]. split; [rewrite Hm2; exact Hm|].
    split; [exact Hc2|].
    right. split; [exact C|]. exists p. split; [exact Hprod|].
    split; [exact Ht|]. split.
    + destruct Hrows as [[Hr [_ Hrows]]|[[e Hr] Hrows]]; subst r2.
      * left. split; [reflexivity|exact Hrows].
      * right. split; [eexists; reflexivity|exact Hrows].
    + intros H. destruct (Hff H) as [Hr _]. subst r2. reflexivity.
Qed.


Lemma classifies_iff_returns (m : NegaBotModel) (t : string) (w : World) :
  classifies m t = true <-> exists p, fst (Model.predict m t w) = inr p.
Proof.
  split.
  - apply predict_returns.
  - intros [p Hp]. apply predict_result in Hp. tauto.
Qed.

Lemma forallb_classifies (m : NegaBotModel) (ts : list string) (w : World) :
  forallb (classifies m) ts = true <->
  forall t, In t ts -> exists p, fst (Model.predict m t w) = inr p.
Proof.
  rewrite forallb_forall. split; intros H t Ht.
  - apply classifies_iff_returns. auto.
  - apply (classifies_iff_returns m t w). auto.
Qed.

Lemma toy_model_binary : binary toy_model.
Proof.
  intros t out. unfold toy_model. destruct t as [|c t].
  - intros H. inversion H. reflexivity.
  - destruct (Ascii.eqb c "-"); [intros H; inversion H; reflexivity|].
    destruct (Ascii.eqb c "!"); [discriminate|].
    intros H. inversion H. reflexivity.
Qed.

Lemma produced_consistent (m : NegaBotModel) (p : Model.Prediction) :
  binary m -> produced_by m p ->
  class_matches_sentiment (Model.predicted_class p) (Model.sentiment p).
Proof.
  intros Hb Hp.
  destruct (predict_result m _ (empty_world None) p (Hp _))
    as [_ [_ [out [Hout [Hlt [Hc Hs]]]]]].
  rewrite (Hb _ _ Hout) in Hlt. rewrite Hc, Hs.
  unfold class_matches_sentiment.
  destruct (argmax out) as [|[|n]]; [| |lia]; cbn;
    repeat split; intros; try reflexivity; try discriminate.
Qed.

Lemma produced_label (m : NegaBotModel) (p : Model.Prediction) :
  produced_by m p ->
  Model.sentiment p = "Positive"%string \/ Model.sentiment p = "Negative"%string.
Proof.
  intros Hp.
  apply (predict_sentiment_label m (Model.text p) (empty_world None)). apply Hp.
Qed.

(** A row written for a prediction carries the class that goes with its
    label. *)
Lemma row_of_consistent (m : NegaBotModel) (md : option pydict) (now : Z)
    (p : Model.Prediction) (row : Row) :
  produced_by m p -> row_of md now p row -> row_consistent row.
Proof.
  intros Hp [_ [Hs [_ [Hc _]]]]. unfold row_consistent.
  rewrite Hc, Hs.
  destruct (produced_label m p Hp) as [H|H]; rewrite H; cbn;
    repeat split; intros; try reflexivity; try discriminate.
Qed.

Lemma in_firstn {A} (x : A) (k : nat) (l : list A) :
  In x (firstn k l) -> In x l.
Proof.
  revert l. induction k as [|k IH]; intros [|y l] H; cbn in *; try tauto.
  destruct H as [H|H]; auto.
Qed.

Lemma rows_of_consistent (m : NegaBotModel) (md : option pydict) (now : Z)
    (ps : list Model.Prediction) (rows : list Row) :
  Forall (produced_by m) ps ->
  forall k, Forall2 (row_of md now) (firstn k ps) rows ->
  Forall row_consistent rows.
Proof.
  intros Hps k H.
  assert (Hk : Forall (produced_by m) (firstn k ps)).
  { apply Forall_forall. intros x Hx. apply in_firstn in Hx.
    rewrite Forall_forall in Hps. auto. }
  induction H as [|p row ps' rows' Hrow _ IH]; [constructor|].
  inversion Hk; subst. constructor.
  - eapply row_of_consistent; eassumption.
  - apply IH. assumption.
Qed.

Lemma respond_200 {A} (h : M A) (w w' : World) (b : A) :
  Api.respond h w = (Api.Http200 b, w') <-> h w = (inr b, w').
Proof.
  unfold Api.respond. destruct (h w) as [[[c d|msg]|a] w1]; split; intros H;
    inversion H; subst; reflexivity.
Qed.

Lemma respond_error {A} (h : M A) (w w' : World) (c : nat) (d : string) :
  h w = (inl (HTTPException c d), w') ->
  Api.respond h w = (Api.HttpError c d, w').
Proof. unfold Api.respond. intros ->. reflexivity. Qed.

(** ** Readiness *)

(** [GET /health] reports the model as loaded exactly when it is, and
    changes nothing. *)
Lemma health_reports_model (w : World) :
  exists h,
    Api.get_health w = (Api.Http200 h, w) /\
    (Api.model_loaded h = true <-> model w <> None) /\
    Api.status h = (if Api.model_loaded h then "healthy" else "unhealthy")%string.
Proof.
  unfold Api.get_health, Api.respond, Api.health_check, Api.get_model.
  run_monad. eexists. split; [reflexivity|]. cbn.
  destruct (model w); split; try reflexivity; split; congruence.
Qed.

(** A text of length 0 or above 1000 is answered 422 and the world is left
    as it was. *)
Lemma invalid_text_is_422 (body : Api.TweetRequest) (w : World) :
  (String.length (Api.text body) < 1
   \/ 1000 < String.length (Api.text body))%nat ->
  Api.post_predict body w = (Api.HttpError 422 "Unprocessable Entity", w).
Proof.
  intros H. unfold Api.post_predict, Api.TweetRequest_valid.
  assert (Hv : andb (Nat.leb 1 (String.length (Api.text body)))
                    (Nat.leb (String.length (Api.text body)) 1000) = false).
  { apply andb_false_iff. destruct H as [H|H];
      [left|right]; apply Nat.leb_gt; exact H. }
  rewrite Hv. reflexivity.
Qed.

(** Without a model both handlers raise a 503 that their own [except]
    clause rewraps as a 500; nothing else happens. *)
Lemma handlers_without_model (w : World) :
  model w = None ->
  (forall body,
     Api.predict_sentiment body w
     = (inl (HTTPException 500 "Prediction failed: 503: Model not loaded"),
        w)) /\
  (forall body,
     Api.batch_predict_sentiment body w
     = (inl (HTTPException 500
               "Batch prediction failed: 503: Model not loaded"), w)).
Proof.
  intros Hm. split; intros body.
  - unfold Api.predict_sentiment, Api.get_model, try_except, bind, raise.
    rewrite Hm. reflexivity.
  - unfold Api.batch_predict_sentiment, Api.get_model, try_except, bind, raise.
    rewrite Hm. reflexivity.
Qed.


(** C1 (the code at a request that arrives while the model is not loaded):
    the handlers raise the 503 inside their own [try] block, whose
    [except Exception] clause turns it into a 500. The caller of [/predict]
    and of [/batch_predict] therefore receives status 500, never 503; the
    world is left as it was, so the classifier and the store are not
    touched. *)
Theorem model_not_loaded_status (w : World) :
  model w = None ->
  (forall body,
     Api.TweetRequest_valid body = true ->
     exists detail,
       Api.post_predict body w = (Api.HttpError 500 detail, w)) /\
  (forall body,
     Api.BatchTweetRequest_valid body = true ->
     exists detail,
       Api.post_batch_predict body w = (Api.HttpError 500 detail, w)).
Proof.
  intros Hm. destruct (handlers_without_model w Hm) as [H1 H2].
  split; intros body Hv; eexists.
  - unfold Api.post_predict. rewrite Hv. apply respond_error. apply H1.
  - unfold Api.post_batch_predict. rewrite Hv. apply respond_error. apply H2.
Qed.

Lemma model_not_loaded_status_witness :
  (exists detail,
     Api.post_predict {| Api.text := "good"; Api.metadata := None |}
       (empty_world None)
     = (Api.HttpError 500 detail, empty_world None)) /\
  (exists detail,
     Api.post_batch_predict
       {| Api.tweets := ["good"%string]; Api.b_metadata := None |}
       (empty_world None)
     = (Api.HttpError 500 detail, empty_world None)).
Proof.
  destruct (model_not_loaded_status (empty_world None) eq_refl) as [H1 H2].
  split; [apply H1|apply H2]; reflexivity.
Defined.

(** ** Class index and label *)

(** C2: with a binary classifier loaded, every response of [/predict] and
    every result of [/batch_predict] has [predicted_class = 0] exactly when
    its sentiment is ["Positive"] and [predicted_class = 1] exactly when it
    is ["Negative"]; and every row either endpoint appends to the store,
    whatever the outcome of the request, satisfies the same two
    equivalences. *)
Theorem class_index_matches_label (w : World) (m : NegaBotModel) :
  model w = Some m -> binary m ->
  (forall body resp w',
     Api.post_predict body w = (Api.Http200 resp, w') ->
     response_consistent resp) /\
  (forall body resp w',
     Api.post_batch_predict body w = (Api.Http200 resp, w') ->
     Forall response_consistent (Api.results resp)) /\
  (forall body,
     exists new,
       predictions (snd (Api.post_predict body w)) = predictions w ++ new /\
       Forall row_consistent new) /\
  (forall body,
     exists new,
       predictions (snd (Api.post_batch_predict body w))
       = predictions w ++ new /\
       Forall row_consistent new).
Proof.
  intros Hm Hb. split; [|split; [|split]].
  - intros body resp w' H. unfold Api.post_predict in H.
    destruct (Api.TweetRequest_valid body); [|discriminate].
    apply respond_200 in H.
    destruct (predict_sentiment_run body w m Hm)
      as [r [w1 [evs [Hrun [_ [_ [_ [_ Hcases]]]]]]]].
    rewrite Hrun in H. inversion H. subst r w1.
    destruct Hcases as [[_ [_ [_ [d Hd]]]]|[_ [p [Hp [_ [Hout _]]]]]];
      [discriminate|].
    destruct Hout as [[Hr _]|[[d Hd] _]]; [|discriminate].
    inversion Hr. subst resp.
    exact (produced_consistent m p Hb Hp).
  - intros body resp w' H. unfold Api.post_batch_predict in H.
    destruct (Api.BatchTweetRequest_valid body); [|discriminate].
    apply respond_200 in H.
    destruct (batch_predict_sentiment_run body w m Hm)
      as [r [w1 [cl [evs [new [k [ps [Hrun [_ [_ [_ [_ [_ Hcases]]]]]]]]]]]]].
    rewrite Hrun in H. inversion H. subst r w1.
    destruct Hcases as [[_ [_ [_ [d Hd]]]]|[_ [_ [_ [Hps [_ [Hres _]]]]]]];
      [discriminate|].
    destruct (Hres resp eq_refl) as [Hr _]. rewrite Hr.
    apply Forall_forall. intros x Hx. apply in_map_iff in Hx.
    destruct Hx as [p [Hx Hin]]. subst x.
    rewrite Forall_forall in Hps.
    exact (produced_consistent m p Hb (Hps p Hin)).
  - intros body. unfold Api.post_predict.
    destruct (Api.TweetRequest_valid body).
    + destruct (predict_sentiment_run body w m Hm)
        as [r [w1 [evs [Hrun [_ [_ [_ [_ Hcases]]]]]]]].
      assert (Hsnd : snd (Api.respond (Api.predict_sentiment body) w) = w1).
      { unfold Api.respond. rewrite Hrun. destruct r as [[c d|msg]|a];
          reflexivity. }
      rewrite Hsnd.
      destruct Hcases as [[_ [_ [Hp _]]]|[_ [p [Hp [Htext [Hout _]]]]]].
      * exists []. rewrite app_nil_r. split; [exact Hp|constructor].
      * destruct Hout as [[_ Hrows]|[_ Hrows]].
        -- eexists. split; [exact Hrows|]. constructor; [|constructor].
           rewrite <- Htext.
           exact (row_of_consistent m _ _ p _ Hp (logged_row_of _ p w)).
        -- exists []. rewrite app_nil_r. split; [exact Hrows|constructor].
    + exists []. rewrite app_nil_r. split; [reflexivity|constructor].
  - intros body. unfold Api.post_batch_predict.
    destruct (Api.BatchTweetRequest_valid body).
    + destruct (batch_predict_sentiment_run body w m Hm)
        as [r [w1 [cl [evs [new [k [ps [Hrun [_ [_ [Hp [_ [_ Hcases]]]]]]]]]]]]].
      assert (Hsnd : snd (Api.respond (Api.batch_predict_sentiment body) w)
                     = w1).
      { unfold Api.respond. rewrite Hrun. destruct r as [[c d|msg]|a];
          reflexivity. }
      rewrite Hsnd. exists new. split; [exact Hp|].
      destruct Hcases as [[_ [Hnew _]]|[_ [_ [_ [Hps [Hrows _]]]]]].
      * subst new. constructor.
      * exact (rows_of_consistent m _ _ ps new Hps k Hrows).
    + exists []. rewrite app_nil_r. split; [reflexivity|constructor].
Qed.

Lemma class_index_matches_label_witness :
  response_consistent
    {| Api.r_text := "-bad"; Api.r_sentiment := "Negative";
       Api.r_confidence := (7 # 8)%Q; Api.r_predicted_class := 1;
       Api.r_positive := (1 # 8)%Q; Api.r_negative := (7 # 8)%Q;
       Api.r_timestamp := 1700000000000000; Api.r_request_id := None |}.
Proof.
  destruct (class_index_matches_label (empty_world (Some toy_model)) toy_model
              eq_refl toy_model_binary) as [H _].
  apply (H {| Api.text := "-bad"; Api.metadata := None |} _
           (snd (Api.post_predict {| Api.text := "-bad"; Api.metadata := None |}
                   (empty_world (Some toy_model))))).
  reflexivity.
Defined.

(** ** Validation of batch requests *)




(** ** Batch results *)



(** ** Failure inside a batch *)

(** C10: in [/batch_predict] every classifier invocation precedes every
    store access, and a row is appended only after all items were
    classified. If classification raises for some item of a valid batch,
    the request is answered 500, the rows of the store are exactly the ones
    it had before, and the store was not accessed at all. *)
Theorem failed_batch_leaves_store_unchanged (body : Api.BatchTweetRequest)
    (w : World) (m : NegaBotModel) :
  model w = Some m ->
  Api.BatchTweetRequest_valid body = true ->
  (exists classified evs,
     trace (snd (Api.post_batch_predict body w))
     = trace w ++ map EvClassify classified ++ evs /\
     Forall is_store_event evs /\
     (predictions (snd (Api.post_batch_predict body w)) <> predictions w ->
      classified = Api.tweets body)) /\
  ((exists t e, In t (Api.tweets body) /\
                fst (Model.predict m t w) = inl e) ->
   exists d w',
     Api.post_batch_predict body w = (Api.HttpError 500 d, w') /\
     predictions w' = predictions w /\
     exists classified, trace w' = trace w ++ map EvClassify classified).
Proof.
  intros Hm Hv. unfold Api.post_batch_predict. rewrite Hv.
  destruct (batch_predict_sentiment_run body w m Hm)
    as [r [w' [cl [evs [new [k [ps [Hrun [Ht [Hevs [Hp [_ [_ Hcases]]]]]]]]]]]]].
  assert (Hsnd : snd (Api.respond (Api.batch_predict_sentiment body) w) = w').
  { unfold Api.respond. rewrite Hrun. destruct r as [[c d|msg]|a];
      reflexivity. }
  split.
  - rewrite Hsnd. exists cl, evs. split; [exact Ht|]. split; [exact Hevs|].
    intros Hchanged.
    destruct Hcases as [[_ [Hnew _]]|[_ [Hcl _]]]; [|exact Hcl].
    subst new. rewrite app_nil_r in Hp. contradiction.
  - intros [t [e [Hin He]]].
    destruct Hcases as [[_ [Hnew [Hevs0 [d Hd]]]]|[Hall _]].
    + subst new evs r. exists d, w'. split.
      { apply respond_error. exact Hrun. }
      split; [rewrite app_nil_r in Hp; exact Hp|].
      exists cl. rewrite app_nil_r in Ht. exact Ht.
    + exfalso.
      destruct (proj1 (forallb_classifies m _ w) Hall t Hin) as [p Hp'].
      congruence.
Qed.

Lemma failed_batch_leaves_store_unchanged_witness :
  exists d w',
    Api.post_batch_predict failing_batch (sample_world (Some toy_model) [])
    = (Api.HttpError 500 d, w') /\
    predictions w' = sample_rows.
Proof.
  destruct (failed_batch_leaves_store_unchanged failing_batch
              (sample_world (Some toy_model) []) toy_model eq_refl eq_refl)
    as [_ H].
  destruct H as [d [w' [H1 [H2 _]]]].
  - exists "!boom"%string, (PyError "model fault").
    split; [right; left; reflexivity|reflexivity].
  - exists d, w'. split; assumption.
Defined.

(** ** Reading the history *)

Lemma row_to_dict_eq (r : Row) (w : World) :
  Database.row_to_dict r w
  = (if row_decodable r then inr (dict_of_row r)
     else inl (PyError "JSONDecodeError"), w).
Proof.
  unfold Database.row_to_dict, row_decodable, dict_of_row, decoded_metadata,
    str_truthy.
  run_monad.
  destruct (row_metadata r) as [[|c s]|]; try reflexivity.
  destruct (Json.loads (String c s)); reflexivity.
Qed.

Lemma for_each_row_to_dict (rows : list Row) (w : World) :
  for_each Database.row_to_dict rows w
  = (if forallb row_decodable rows then inr (map dict_of_row rows)
     else inl (PyError "JSONDecodeError"), w).
Proof.
  induction rows as [|r rows IH]; [reflexivity|].
  cbn [for_each forallb map]. unfold bind at 1. rewrite row_to_dict_eq.
  destruct (row_decodable r); [|reflexivity].
  unfold bind at 1. rewrite IH.
  destruct (forallb row_decodable rows); reflexivity.
Qed.

(** [PredictionLogger.get_all_predictions], written out: a fault or a row
    that does not decode gives the empty list. *)
Lemma method_get_all_predictions_eq (limit : option Z) (w : World) :
  Database.PredictionLogger_get_all_predictions limit w
  = (if hd false (io_faults w) then inr []
     else if forallb row_decodable (selected limit (predictions w))
          then inr (map dict_of_row (selected limit (predictions w)))
          else inr [],
     accessed w).
Proof.
  unfold Database.PredictionLogger_get_all_predictions.
  unfold try_except, bind at 1. rewrite sqlite3_connect_eq.
  destruct (hd false (io_faults w)); [reflexivity|].
  unfold bind at 1.
  change (predictions (accessed w)) with (predictions w).
  unfold selected.
  destruct (int_truthy limit);
    [destruct limit as [n|];
     [destruct (Database.sql_limit n
                  (Database.order_by_created_at_desc (predictions w)))
        as [e|l]; [reflexivity|]|]|];
    rewrite for_each_row_to_dict;
    match goal with
    | |- context [forallb row_decodable ?l] =>
        destruct (forallb row_decodable l); reflexivity
    end.
Qed.

Lemma method_get_by_sentiment_eq (sentiment : string) (w : World) :
  let rows :=
    Database.order_by_created_at_desc
      (filter (fun r => String.eqb (row_sentiment r) sentiment)
              (predictions w)) in
  Database.PredictionLogger_get_predictions_by_sentiment sentiment w
  = (if hd false (io_faults w) then inr []
     else if forallb row_decodable rows then inr (map dict_of_row rows)
          else inr [],
     accessed w).
Proof.
  cbv zeta. unfold Database.PredictionLogger_get_predictions_by_sentiment.
  unfold try_except, bind at 1. rewrite sqlite3_connect_eq.
  destruct (hd false (io_faults w)); [reflexivity|].
  unfold bind at 1. rewrite for_each_row_to_dict.
  change (predictions (accessed w)) with (predictions w).
  match goal with |- context [forallb row_decodable ?l] =>
    destruct (forallb row_decodable l) end; reflexivity.
Qed.

(** *** Ordering *)

Lemma insert_desc_perm (r : Row) (l : list Row) :
  Permutation (r :: l) (Database.insert_desc r l).
Proof.
  induction l as [|x l IH]; cbn; [apply Permutation_refl|].
  destruct (row_created_at x <=? row_created_at r).
  - apply Permutation_refl.
  - eapply Permutation_trans; [apply perm_swap|].
    apply perm_skip. exact IH.
Qed.

Lemma order_by_perm (rows : list Row) :
  Permutation rows (Database.order_by_created_at_desc rows).
Proof.
  induction rows as [|r rows IH]; cbn; [constructor|].
  eapply Permutation_trans; [apply perm_skip; exact IH|].
  apply insert_desc_perm.
Qed.

Lemma insert_desc_sorted (r : Row) (l : list Row) :
  rows_desc l -> rows_desc (Database.insert_desc r l).
Proof.
  unfold rows_desc. induction l as [|x l IH]; intros H; cbn.
  - repeat constructor.
  - inversion H as [|? ? Hl Hx]; subst.
    destruct (row_created_at x <=? row_created_at r) eqn:E.
    + apply Z.leb_le in E. constructor; [exact H|].
      constructor; [exact E|].
      rewrite Forall_forall in *. intros y Hy. specialize (Hx y Hy). lia.
    + apply Z.leb_gt in E. constructor; [apply IH; exact Hl|].
      rewrite Forall_forall in *. intros y Hy.
      apply (Permutation_in _ (Permutation_sym (insert_desc_perm r l))) in Hy.
      destruct Hy as [Hy|Hy]; [subst y; lia|auto].
Qed.

Lemma order_by_sorted (rows : list Row) :
  rows_desc (Database.order_by_created_at_desc rows).
Proof.
  induction rows as [|r rows IH]; cbn; [constructor|].
  apply insert_desc_sorted. exact IH.
Qed.

Lemma rows_desc_firstn (n : nat) (l : list Row) :
  rows_desc l -> rows_desc (firstn n l).
Proof.
  unfold rows_desc. revert l. induction n as [|n IH]; intros l H; cbn;
    [constructor|].
  destruct l as [|x l]; [constructor|].
  inversion H as [|? ? Hl Hx]; subst. constructor; [apply IH; exact Hl|].
  rewrite Forall_forall in *. intros y Hy. apply in_firstn in Hy. auto.
Qed.

Lemma selected_sorted (limit : option Z) (rows : list Row) :
  rows_desc (selected limit rows).
Proof.
  unfold selected, Database.sql_limit.
  destruct (int_truthy limit); [|apply order_by_sorted].
  destruct limit as [n|]; [|apply order_by_sorted].
  destruct ((n <? - 2 ^ 63) || (2 ^ 63 <=? n)); [constructor|].
  destruct (n <? 0); [apply order_by_sorted|].
  apply rows_desc_firstn. apply order_by_sorted.
Qed.

Lemma newest_first_map (rows : list Row) :
  rows_desc rows -> newest_first (map dict_of_row rows).
Proof.
  unfold rows_desc, newest_first. induction 1 as [|x l Hl IH Hx]; cbn;
    constructor; [exact IH|].
  rewrite Forall_forall in *. intros d Hd. apply in_map_iff in Hd.
  destruct Hd as [y [Hd Hy]]. subst d. cbn. auto.
Qed.

(** ** Rounding and sums *)





Lemma round_half_even_between (a b : Z) (y : Q) :
  (inject_Z a <= y)%Q -> (y <= inject_Z b)%Q ->
  a <= round_half_even y <= b.
Proof.
  intros Ha Hb.
  assert (Hfa : a <= Qfloor y).
  { rewrite <- (Qfloor_Z a). apply Qfloor_resp_le. exact Ha. }
  assert (Hfb : Qfloor y <= b).
  { rewrite <- (Qfloor_Z b). apply Qfloor_resp_le. exact Hb. }
  assert (Hup : (inject_Z (Qfloor y) < y)%Q -> Qfloor y + 1 <= b).
  { intros H. assert (H0 : (inject_Z (Qfloor y) < inject_Z b)%Q) by lra.
    rewrite <- Zlt_Qlt in H0. lia. }
  unfold round_half_even.
  destruct (Qcompare (y - inject_Z (Qfloor y)) (1 # 2)) eqn:E.
  - apply Qeq_alt in E. destruct (Z.even (Qfloor y)); [lia|].
    split; [lia|]. apply Hup. lra.
  - lia.
  - apply Qgt_alt in E. split; [lia|]. apply Hup. lra.
Qed.

Lemma py_round_between (a b : Z) (x : Q) (n : nat) :
  (inject_Z a <= x)%Q -> (x <= inject_Z b)%Q ->
  (inject_Z a <= py_round x n)%Q /\ (py_round x n <= inject_Z b)%Q.
Proof.
  intros Ha Hb. unfold py_round.
  set (scale := 10 ^ Z.of_nat n).
  assert (Hs : 0 < scale) by (apply Z.pow_pos_nonneg; lia).
  assert (Hq : (0 < inject_Z scale)%Q).
  { change 0%Q with (inject_Z 0). rewrite <- Zlt_Qlt. exact Hs. }
  destruct (round_half_even_between (a * scale) (b * scale)
              (x * inject_Z scale)) as [H1 H2].
  { rewrite inject_Z_mult. apply Qmult_le_compat_r; [exact Ha|].
    apply Qlt_le_weak. exact Hq. }
  { rewrite inject_Z_mult. apply Qmult_le_compat_r; [exact Hb|].
    apply Qlt_le_weak. exact Hq. }
  rewrite Qred_correct. split.
  - apply Qle_shift_div_l; [exact Hq|].
    rewrite <- inject_Z_mult, <- Zle_Qle. exact H1.
  - apply Qle_shift_div_r; [exact Hq|].
    rewrite <- inject_Z_mult, <- Zle_Qle. exact H2.
Qed.

Lemma py_round_unit_interval (x : Q) (n : nat) :
  unit_interval x -> unit_interval (py_round x n).
Proof.
  intros [H0 H1]. exact (py_round_between 0 1 x n H0 H1).
Qed.

(** ** Binary64 rounding *)

(** Powers of two. *)
Lemma pow2_pos (e : Z) : (0 < pow2 e)%Q.
Proof. apply Qpower_0_lt. reflexivity. Qed.

Lemma pow2_plus (a b : Z) : (pow2 (a + b) == pow2 a * pow2 b)%Q.
Proof. apply Qpower_plus. discriminate. Qed.

Lemma pow2_succ (a : Z) : (pow2 (a + 1) == 2 * pow2 a)%Q.
Proof. rewrite pow2_plus. change (pow2 1) with 2%Q. ring. Qed.

Lemma pow2_pred (a : Z) : (pow2 (a - 1) == pow2 a / 2)%Q.
Proof.
  unfold Z.sub. rewrite pow2_plus. change (pow2 (-1)) with (/ 2)%Q.
  reflexivity.
Qed.

Lemma pow2_le (a b : Z) : a <= b -> (pow2 a <= pow2 b)%Q.
Proof. intros H. apply Qpower_le_compat_l; [exact H|discriminate]. Qed.

Lemma pow2_lt_inv (a b : Z) : (pow2 a < pow2 b)%Q -> a < b.
Proof. intros H. apply (Qpower_lt_compat_l_inv 2); [exact H|reflexivity]. Qed.

Lemma pow2_nonneg_Z (a : Z) : 0 <= a -> (pow2 a == inject_Z (2 ^ a))%Q.
Proof. intros H. symmetry. apply (Zpower_Qpower 2 a H). Qed.

(** The exponent of the leading bit. *)
Lemma ilog2_spec (q : Q) :
  (0 < q)%Q -> (pow2 (ilog2 q) <= q)%Q /\ (q < pow2 (ilog2 q + 1))%Q.
Proof.
  intros Hq. unfold ilog2.
  destruct q as [n d]. cbn [Qnum Qden].
  assert (Hn : 0 < n).
  { unfold Qlt in Hq. cbn in Hq. lia. }
  set (a := Z.log2 n). set (b := Z.log2 (Z.pos d)).
  pose proof (Z.log2_spec n Hn) as Ha. fold a in Ha.
  pose proof (Z.log2_spec (Z.pos d) ltac:(lia)) as Hb. fold b in Hb.
  pose proof (Z.log2_nonneg n) as Ha0. fold a in Ha0.
  pose proof (Z.log2_nonneg (Z.pos d)) as Hb0. fold b in Hb0.
  assert (HA : (pow2 a <= inject_Z n)%Q /\ (inject_Z n < 2 * pow2 a)%Q).
  { rewrite <- pow2_succ. rewrite !pow2_nonneg_Z by lia.
    rewrite <- Zle_Qle, <- Zlt_Qlt. unfold Z.succ in Ha. lia. }
  assert (HB : (pow2 b <= inject_Z (Z.pos d))%Q
               /\ (inject_Z (Z.pos d) < 2 * pow2 b)%Q).
  { rewrite <- pow2_succ. rewrite !pow2_nonneg_Z by lia.
    rewrite <- Zle_Qle, <- Zlt_Qlt. unfold Z.succ in Hb. lia. }
  assert (Hk : (pow2 (a - b) == pow2 a / pow2 b)%Q).
  { apply Qpower_minus. discriminate. }
  pose proof (pow2_pos a) as PA. pose proof (pow2_pos b) as PB.
  assert (HD : (0 < inject_Z (Z.pos d))%Q) by reflexivity.
  assert (Hqd : (n # d == inject_Z n / inject_Z (Z.pos d))%Q)
    by apply Qmake_Qdiv.
  set (N := inject_Z n) in *. set (D := inject_Z (Z.pos d)) in *.
  set (A := pow2 a) in *. set (B := pow2 b) in *.
  assert (Hup : (n # d < 2 * (A / B))%Q).
  { rewrite Hqd. apply Qlt_shift_div_r; [exact HD|].
    assert (E : (2 * (A / B) * D == (2 * A * D) / B)%Q) by (field; lra).
    rewrite E. apply Qlt_shift_div_l; [exact PB|]. nra. }
  assert (Hlo : (A / B / 2 <= n # d)%Q).
  { rewrite Hqd. apply Qle_shift_div_l; [exact HD|].
    assert (E : (A / B / 2 * D == (A * D) / (2 * B))%Q) by (field; lra).
    rewrite E. apply Qle_shift_div_r; [lra|]. nra. }
  destruct (Qle_bool (pow2 (a - b)) (n # d)) eqn:T.
  - apply Qle_bool_iff in T. split; [exact T|].
    rewrite pow2_succ, Hk. exact Hup.
  - split.
    + rewrite pow2_pred, Hk. exact Hlo.
    + replace (a - b - 1 + 1) with (a - b) by lia.
      apply Qnot_le_lt. intros H. apply Qle_bool_iff in H. congruence.
Qed.

Lemma ilog2_le (q : Q) (k : Z) :
  (0 < q)%Q -> (q < pow2 (k + 1))%Q -> ilog2 q <= k.
Proof.
  intros Hq H. destruct (ilog2_spec q Hq) as [Hlo _].
  assert (Hlt : (pow2 (ilog2 q) < pow2 (k + 1))%Q) by lra.
  apply pow2_lt_inv in Hlt. lia.
Qed.

Lemma ilog2_ge (q : Q) (k : Z) :
  (0 < q)%Q -> (pow2 k <= q)%Q -> k <= ilog2 q.
Proof.
  intros Hq H. destruct (ilog2_spec q Hq) as [_ Hhi].
  assert (Hlt : (pow2 k < pow2 (ilog2 q + 1))%Q) by lra.
  apply pow2_lt_inv in Hlt. lia.
Qed.

(** Rounding to 53 bits. *)
Lemma b64_pos_eq (q : Q) :
  (b64_pos q
   == inject_Z (round_half_even (q / pow2 (Z.max (ilog2 q - 52) (-1074))))
      * pow2 (Z.max (ilog2 q - 52) (-1074)))%Q.
Proof. unfold b64_pos. cbv zeta. apply Qred_correct. Qed.

Lemma b64_nonneg_eq (q : Q) :
  (0 <= q)%Q -> (b64 q == 0 /\ q == 0)%Q \/ ((0 < q)%Q /\ b64 q = b64_pos q).
Proof.
  intros H. unfold b64. destruct (Qcompare_spec q 0) as [E|E|E].
  - left. split; [reflexivity|exact E].
  - lra.
  - right. split; [exact E|reflexivity].
Qed.

Lemma b64_pos_nonneg (q : Q) : (0 < q)%Q -> (0 <= b64_pos q)%Q.
Proof.
  intros Hq. rewrite b64_pos_eq.
  set (e := Z.max (ilog2 q - 52) (-1074)).
  pose proof (pow2_pos e) as P.
  assert (Hy : (0 <= q / pow2 e)%Q).
  { apply Qle_shift_div_l; [exact P|]. lra. }
  assert (Hr : 0 <= round_half_even (q / pow2 e)).
  { unfold round_half_even.
    assert (Hf : 0 <= Qfloor (q / pow2 e)).
    { rewrite <- (Qfloor_Z 0). apply Qfloor_resp_le. exact Hy. }
    destruct (Qcompare _ _); [destruct (Z.even _)| |]; lia. }
  apply Qmult_le_0_compat; [|lra].
  change 0%Q with (inject_Z 0). rewrite <- Zle_Qle. exact Hr.
Qed.

Lemma b64_nonneg (q : Q) : (0 <= q)%Q -> (0 <= b64 q)%Q.
Proof.
  intros H. destruct (b64_nonneg_eq q H) as [[E _]|[Hq E]].
  - rewrite E. lra.
  - rewrite E. apply b64_pos_nonneg. exact Hq.
Qed.


(** An integer bound that the number respects is respected by the rounded
    number, below 2^53. *)
Lemma b64_le_int (q : Q) (hi : Z) :
  (0 <= q)%Q -> (q <= inject_Z hi)%Q -> (q < pow2 53)%Q ->
  (b64 q <= inject_Z hi)%Q.
Proof.
  intros H Hhi H53.
  destruct (b64_nonneg_eq q H) as [[E E0]|[Hq E]].
  - rewrite E. lra.
  - rewrite E, b64_pos_eq.
    set (e := Z.max (ilog2 q - 52) (-1074)).
    pose proof (pow2_pos e) as P.
    assert (He : e <= 0).
    { pose proof (ilog2_le q 52 Hq H53). unfold e. lia. }
    assert (Hpe : (pow2 (- e) == inject_Z (2 ^ (- e)))%Q)
      by (apply pow2_nonneg_Z; lia).
    assert (Hinv : (pow2 (- e) * pow2 e == 1)%Q).
    { rewrite <- pow2_plus. replace (- e + e) with 0 by lia. reflexivity. }
    assert (Hy : (q / pow2 e <= inject_Z (hi * 2 ^ (- e)))%Q).
    { rewrite inject_Z_mult, <- Hpe.
      apply Qle_shift_div_r; [exact P|].
      assert (E1 : (inject_Z hi * pow2 (- e) * pow2 e == inject_Z hi)%Q).
      { rewrite <- Qmult_assoc, Hinv. ring. }
      rewrite E1. exact Hhi. }
    assert (Hy0 : (inject_Z 0 <= q / pow2 e)%Q).
    { apply Qle_shift_div_l; [exact P|]. change (inject_Z 0) with 0%Q. lra. }
    destruct (round_half_even_between 0 (hi * 2 ^ (- e)) _ Hy0 Hy)
      as [_ Hr].
    rewrite Zle_Qle, inject_Z_mult, <- Hpe in Hr.
    assert (Hm : (inject_Z (round_half_even (q / pow2 e)) * pow2 e
                  <= inject_Z hi * pow2 (- e) * pow2 e)%Q)
      by (apply Qmult_le_compat_r; lra).
    assert (E1 : (inject_Z hi * pow2 (- e) * pow2 e == inject_Z hi)%Q).
    { rewrite <- Qmult_assoc, Hinv. ring. }
    lra.
Qed.

(** Past 2^53 one more does not count. *)
Lemma b64_saturates (q : Q) :
  (0 <= q)%Q -> (q <= pow2 53 + 1)%Q -> (b64 q <= pow2 53)%Q.
Proof.
  intros H Hq1.
  destruct (Qlt_le_dec q (pow2 53)) as [Hlt|Hge].
  - rewrite (pow2_nonneg_Z 53) by lia.
    apply b64_le_int; [exact H| |exact Hlt].
    rewrite <- (pow2_nonneg_Z 53) by lia. lra.
  - assert (Hq : (0 < q)%Q) by (pose proof (pow2_pos 53); lra).
    destruct (b64_nonneg_eq q H) as [[E E0]|[_ E]]; [lra|].
    rewrite E, b64_pos_eq.
    assert (Hfl : ilog2 q = 53).
    { pose proof (ilog2_ge q 53 Hq Hge) as Hg.
      assert (H0 : (q < pow2 (53 + 1))%Q).
      { rewrite pow2_succ. pose proof (pow2_pos 53).
        assert (pow2 1 <= pow2 53)%Q by (apply (pow2_le 1 53); lia).
        change (pow2 1) with 2%Q in *. lra. }
      pose proof (ilog2_le q 53 Hq H0). lia. }
    rewrite Hfl. change (Z.max (53 - 52) (-1074)) with 1.
    change (pow2 1) with 2%Q.
    assert (H52 : (pow2 53 == 2 * inject_Z (2 ^ 52))%Q).
    { change 53 with (52 + 1). rewrite pow2_succ, (pow2_nonneg_Z 52) by lia.
      reflexivity. }
    assert (Hy1 : (inject_Z (2 ^ 52) <= q / 2)%Q).
    { apply Qle_shift_div_l; lra. }
    assert (Hy2 : (q / 2 <= inject_Z (2 ^ 52) + (1 # 2))%Q).
    { apply Qle_shift_div_r; lra. }
    assert (Hf : Qfloor (q / 2) = 2 ^ 52).
    { pose proof (Qfloor_le (q / 2)) as F1.
      pose proof (Qlt_floor (q / 2)) as F2.
      assert (G1 : (inject_Z (Qfloor (q / 2)) < inject_Z (2 ^ 52 + 1))%Q).
      { rewrite inject_Z_plus. change (inject_Z 1) with 1%Q. lra. }
      assert (G2 : (inject_Z (2 ^ 52) < inject_Z (Qfloor (q / 2) + 1))%Q)
        by lra.
      rewrite <- Zlt_Qlt in G1, G2. lia. }
    assert (Hr : round_half_even (q / 2) = 2 ^ 52).
    { unfold round_half_even. rewrite Hf.
      destruct (Qcompare_spec (q / 2 - inject_Z (2 ^ 52)) (1 # 2))
        as [C|C|C]; [reflexivity|reflexivity|lra]. }
    rewrite Hr, H52. lra.
Qed.

Lemma b64_ge_int (q : Q) (lo : Z) :
  0 <= lo -> (inject_Z lo <= q)%Q -> (q < pow2 53)%Q ->
  (inject_Z lo <= b64 q)%Q.
Proof.
  intros Hlo0 Hlo H53.
  assert (H : (0 <= q)%Q).
  { assert (inject_Z 0 <= inject_Z lo)%Q by (rewrite <- Zle_Qle; exact Hlo0).
    change (inject_Z 0) with 0%Q in *. lra. }
  destruct (b64_nonneg_eq q H) as [[E E0]|[Hq E]].
  - rewrite E. lra.
  - rewrite E, b64_pos_eq.
    set (e := Z.max (ilog2 q - 52) (-1074)).
    pose proof (pow2_pos e) as P.
    assert (He : e <= 0).
    { pose proof (ilog2_le q 52 Hq H53). unfold e. lia. }
    assert (Hpe : (pow2 (- e) == inject_Z (2 ^ (- e)))%Q)
      by (apply pow2_nonneg_Z; lia).
    assert (Hinv : (pow2 (- e) * pow2 e == 1)%Q).
    { rewrite <- pow2_plus. replace (- e + e) with 0 by lia. reflexivity. }
    assert (E1 : (inject_Z lo * pow2 (- e) * pow2 e == inject_Z lo)%Q).
    { rewrite <- Qmult_assoc, Hinv. ring. }
    assert (Hy : (inject_Z (lo * 2 ^ (- e)) <= q / pow2 e)%Q).
    { rewrite inject_Z_mult, <- Hpe.
      apply Qle_shift_div_l; [exact P|].
      rewrite E1. exact Hlo. }
    assert (Hr : lo * 2 ^ (- e) <= round_half_even (q / pow2 e)).
    { unfold round_half_even.
      assert (Hf : lo * 2 ^ (- e) <= Qfloor (q / pow2 e)).
      { rewrite <- (Qfloor_Z (lo * 2 ^ (- e))). apply Qfloor_resp_le. exact Hy. }
      destruct (Qcompare _ _); [destruct (Z.even _)| |]; lia. }
    rewrite Zle_Qle, inject_Z_mult, <- Hpe in Hr.
    assert (Hm : (inject_Z lo * pow2 (- e) * pow2 e
                  <= inject_Z (round_half_even (q / pow2 e)) * pow2 e)%Q)
      by (apply Qmult_le_compat_r; lra).
    lra.
Qed.


(** From 2^53 on, rounding stays at or above 2^53. *)
Lemma b64_ge_pow53 (q : Q) : (pow2 53 <= q)%Q -> (pow2 53 <= b64 q)%Q.
Proof.
  intros Hge. pose proof (pow2_pos 53) as P53.
  assert (Hq : (0 < q)%Q) by lra.
  assert (H : (0 <= q)%Q) by lra.
  destruct (b64_nonneg_eq q H) as [[E E0]|[_ E]]; [lra|].
  rewrite E, b64_pos_eq.
  pose proof (ilog2_ge q 53 Hq Hge) as Hg.
  replace (Z.max (ilog2 q - 52) (-1074)) with (ilog2 q - 52) by lia.
  set (e := ilog2 q - 52).
  pose proof (pow2_pos e) as P.
  destruct (ilog2_spec q Hq) as [Hlo _].
  assert (Hsplit : (pow2 (ilog2 q) == inject_Z (2 ^ 52) * pow2 e)%Q).
  { replace (ilog2 q) with (52 + e) at 1 by (unfold e; lia).
    rewrite pow2_plus, (pow2_nonneg_Z 52) by lia. reflexivity. }
  assert (Hy : (inject_Z (2 ^ 52) <= q / pow2 e)%Q).
  { apply Qle_shift_div_l; [exact P|]. rewrite <- Hsplit. exact Hlo. }
  assert (Hr : 2 ^ 52 <= round_half_even (q / pow2 e)).
  { unfold round_half_even.
    assert (Hf : 2 ^ 52 <= Qfloor (q / pow2 e)).
    { rewrite <- (Qfloor_Z (2 ^ 52)). apply Qfloor_resp_le. exact Hy. }
    destruct (Qcompare _ _); [destruct (Z.even _)| |]; lia. }
  rewrite Zle_Qle in Hr.
  assert (Hm : (inject_Z (2 ^ 52) * pow2 e
                <= inject_Z (round_half_even (q / pow2 e)) * pow2 e)%Q)
    by (apply Qmult_le_compat_r; lra).
  assert (H53e : (pow2 53 <= pow2 (ilog2 q))%Q) by (apply pow2_le; exact Hg).
  rewrite Hsplit in H53e. lra.
Qed.

Lemma b64_unit_interval (q : Q) : unit_interval q -> unit_interval (b64 q).
Proof.
  intros [H0 H1]. split.
  - apply b64_nonneg. exact H0.
  - change 1%Q with (inject_Z 1). apply b64_le_int.
    + exact H0.
    + exact H1.
    + assert (1 < pow2 53)%Q by reflexivity. lra.
Qed.

Lemma b64_percentage (q : Q) :
  (0 <= q)%Q -> (q <= 100)%Q -> (0 <= b64 q)%Q /\ (b64 q <= 100)%Q.
Proof.
  intros H0 H1. split.
  - apply b64_nonneg. exact H0.
  - change 100%Q with (inject_Z 100). apply b64_le_int.
    + exact H0.
    + exact H1.
    + assert (100 < pow2 53)%Q by reflexivity. lra.
Qed.


(** ** Sums and means of floats *)


Lemma inject_Z_nonneg (k : Z) : 0 <= k -> (0 <= inject_Z k)%Q.
Proof. intros H. change 0%Q with (inject_Z 0). rewrite <- Zle_Qle. exact H. Qed.

Lemma fold_fadd_bounds (xs : list Q) :
  Forall unit_interval xs ->
  forall (acc : Q) (k : Z),
    0 <= k -> (0 <= acc)%Q -> (acc <= inject_Z k)%Q -> (acc <= pow2 53)%Q ->
    (0 <= fold_left fadd xs acc)%Q /\
    (fold_left fadd xs acc <= inject_Z (k + Z.of_nat (List.length xs)))%Q /\
    (fold_left fadd xs acc <= pow2 53)%Q.
Proof.
  induction 1 as [|x xs [Hx0 Hx1] _ IH]; intros acc k Hk H0 Hak H53.
  - cbn [fold_left List.length]. replace (k + Z.of_nat 0) with k by lia.
    repeat split; assumption.
  - cbn [fold_left List.length].
    replace (k + Z.of_nat (S (List.length xs)))
      with ((k + 1) + Z.of_nat (List.length xs)) by lia.
    assert (Hy0 : (0 <= acc + x)%Q) by lra.
    assert (Hy1 : (acc + x <= inject_Z (k + 1))%Q).
    { rewrite inject_Z_plus. change (inject_Z 1) with 1%Q. lra. }
    assert (Hy2 : (acc + x <= pow2 53 + 1)%Q) by lra.
    pose proof (b64_saturates _ Hy0 Hy2) as Hs.
    apply IH.
    + lia.
    + apply b64_nonneg. exact Hy0.
    + unfold fadd. destruct (Qlt_le_dec (acc + x) (pow2 53)) as [Hlt|Hge].
      * apply b64_le_int; assumption.
      * lra.
    + exact Hs.
Qed.





Lemma float_of_int_lower (n : Z) (s : Q) :
  1 <= n -> (s <= inject_Z n)%Q -> (s <= pow2 53)%Q ->
  (0 < float_of_int n)%Q /\ (s <= float_of_int n)%Q.
Proof.
  intros Hn Hs H53. unfold float_of_int.
  pose proof (pow2_pos 53) as P53.
  destruct (Qlt_le_dec (inject_Z n) (pow2 53)) as [Hlt|Hge].
  - pose proof (b64_ge_int (inject_Z n) n ltac:(lia) (Qle_refl _) Hlt) as H.
    assert (H1 : (inject_Z 1 <= inject_Z n)%Q) by (rewrite <- Zle_Qle; lia).
    change (inject_Z 1) with 1%Q in H1. split; lra.
  - pose proof (b64_ge_pow53 _ Hge) as H. split; lra.
Qed.

Lemma float_sum_bounds (xs : list Q) :
  Forall unit_interval xs ->
  (0 <= float_sum xs)%Q /\
  (float_sum xs <= inject_Z (Z.of_nat (List.length xs)))%Q /\
  (float_sum xs <= pow2 53)%Q.
Proof.
  intros H. pose proof (pow2_pos 53) as P53.
  apply (fold_fadd_bounds xs H 0%Q 0); [lia|apply Qle_refl|apply Qle_refl|lra].
Qed.

(** The mean of floats between 0 and 1, taken in floats, is between 0
    and 1. *)
Lemma float_mean_unit_interval (xs : list Q) :
  xs <> nil -> Forall unit_interval xs -> unit_interval (float_mean xs).
Proof.
  intros Hne H. destruct (float_sum_bounds xs H) as [H0 [H1 H2]].
  assert (Hn : 1 <= Z.of_nat (List.length xs)).
  { destruct xs; [congruence|cbn [List.length]; lia]. }
  destruct (float_of_int_lower _ _ Hn H1 H2) as [Hp Hle].
  unfold float_mean, fdiv. apply b64_unit_interval. split.
  - apply Qle_shift_div_l; [exact Hp|]. lra.
  - apply Qle_shift_div_r; [exact Hp|]. lra.
Qed.




(** ** Percentages in floats *)
Lemma float_of_int_100 : float_of_int 100 = 100%Q.
Proof. vm_compute. reflexivity. Qed.

Lemma ratio_unit_interval (p t : Z) :
  0 <= p <= t -> 0 < t -> unit_interval (inject_Z p / inject_Z t).
Proof.
  intros Hp Ht.
  assert (Hq : (0 < inject_Z t)%Q).
  { change 0%Q with (inject_Z 0). rewrite <- Zlt_Qlt. exact Ht. }
  assert (H0 : (0 <= inject_Z p)%Q).
  { change 0%Q with (inject_Z 0). rewrite <- Zle_Qle. lia. }
  assert (H1 : (inject_Z p <= inject_Z t)%Q) by (rewrite <- Zle_Qle; lia).
  split.
  - apply Qle_shift_div_l; [exact Hq|]. lra.
  - apply Qle_shift_div_r; [exact Hq|]. lra.
Qed.

Lemma float_percentage_range (p t : Z) :
  0 <= p <= t -> 0 < t ->
  (0 <= fmul (int_truediv p t) (float_of_int 100))%Q /\
  (fmul (int_truediv p t) (float_of_int 100) <= 100)%Q.
Proof.
  intros Hp Ht. rewrite float_of_int_100.
  destruct (b64_unit_interval _ (ratio_unit_interval p t Hp Ht)) as [H0 H1].
  unfold fmul, int_truediv. apply b64_percentage; lra.
Qed.




(** The floats [/stats] adds up are the stored confidences, newest
    first. *)
Lemma sum_confidence_rows (rows : list Row) :
  Api.sum_confidence (map dict_of_row rows)
  = float_sum (map (fun r => b64 (row_confidence r)) rows).
Proof. unfold Api.sum_confidence. rewrite map_map. reflexivity. Qed.

Lemma stored_floats_unit (rows : list Row) :
  confidences_are_probabilities rows ->
  Forall unit_interval (map (fun r => b64 (row_confidence r)) rows).
Proof.
  intros H. apply Forall_map. revert H. apply Forall_impl.
  intros r. apply b64_unit_interval.
Qed.

Lemma filter_perm {A} (f : A -> bool) (l l' : list A) :
  Permutation l l' -> Permutation (filter f l) (filter f l').
Proof.
  induction 1 as [|x l l' _ IH|x y l|l l' l'' _ IH1 _ IH2]; cbn.
  - constructor.
  - destruct (f x); [apply perm_skip|]; exact IH.
  - destruct (f x), (f y); try apply Permutation_refl. apply perm_swap.
  - eapply Permutation_trans; eassumption.
Qed.



(** ** Statistics *)

Lemma get_all_predictions_eq (limit : option Z) (w : World) :
  Database.get_all_predictions limit w
  = if logger_instance w
    then Database.PredictionLogger_get_all_predictions limit w
    else if hd false (io_faults w) then (inl store_error, accessed w)
    else Database.PredictionLogger_get_all_predictions limit
           (set_logger_instance (accessed w) true).
Proof.
  unfold Database.get_all_predictions, bind. rewrite get_logger_eq.
  destruct (logger_instance w); [reflexivity|].
  destruct (hd false (io_faults w)); reflexivity.
Qed.


(** With the logger in place, a read that faults is reported as an empty
    history. *)
Lemma get_all_predictions_fault (limit : option Z) (w : World) :
  logger_instance w = true -> hd false (io_faults w) = true ->
  Database.get_all_predictions limit w = (inr [], accessed w).
Proof.
  intros Hl Hf. rewrite get_all_predictions_eq, Hl.
  rewrite method_get_all_predictions_eq, Hf. reflexivity.
Qed.

(** [/stats] on an empty history. *)
Lemma get_stats_of_nothing (w w' : World) :
  Database.get_all_predictions None w = (inr [], w') ->
  Api.get_stats w = (Api.Http200 empty_snapshot, w').
Proof.
  intros H. unfold Api.get_stats. apply respond_200.
  unfold Api.get_prediction_stats, try_except, bind. rewrite H. reflexivity.
Qed.

(** C4 (counterexample): the snapshot returned for an empty store has no
    [positive_percentage] and no [negative_percentage] entry at all. *)
Lemma empty_stats_lack_percentages :
  fst (Api.get_stats (empty_world None)) = Api.Http200 empty_snapshot /\
  predictions (empty_world None) = [] /\
  Api.dict_get empty_snapshot "positive_percentage" = None /\
  Api.dict_get empty_snapshot "negative_percentage" = None.
Proof. repeat split. Qed.

(** C4 (amended): when the store holds no record and the logger singleton
    exists or can be built, [GET /stats] answers 200 with
    [total_predictions], [positive_count], [negative_count] and
    [average_confidence] all 0 and a message; the snapshot has no
    percentage entries. *)
Theorem stats_of_empty_store (w : World) :
  predictions w = [] ->
  logger_available w = true ->
  exists w',
    Api.get_stats w = (Api.Http200 empty_snapshot, w') /\
    Api.dict_get empty_snapshot "total_predictions" = Some (Api.PInt 0) /\
    Api.dict_get empty_snapshot "positive_count" = Some (Api.PInt 0) /\
    Api.dict_get empty_snapshot "negative_count" = Some (Api.PInt 0) /\
    Api.dict_get empty_snapshot "average_confidence" = Some (Api.PInt 0) /\
    Api.dict_get empty_snapshot "message"
    = Some (Api.PStr "No predictions found") /\
    Api.dict_get empty_snapshot "positive_percentage" = None /\
    Api.dict_get empty_snapshot "negative_percentage" = None.
Proof.
  intros Hrows Hav.
  assert (Hget : exists w', Database.get_all_predictions None w = (inr [], w')).
  { rewrite get_all_predictions_eq. unfold logger_available in Hav.
    destruct (logger_instance w).
    - rewrite method_get_all_predictions_eq, Hrows. eexists.
      destruct (hd false (io_faults w)); reflexivity.
    - cbn in Hav. apply negb_true_iff in Hav. rewrite Hav.
      rewrite method_get_all_predictions_eq.
      change (predictions (set_logger_instance (accessed w) true))
        with (predictions w).
      rewrite Hrows. eexists.
      destruct (hd false (io_faults (set_logger_instance (accessed w) true)));
        reflexivity. }
  destruct Hget as [w' Hget]. exists w'.
  split; [apply get_stats_of_nothing; exact Hget|]. repeat split.
Qed.

Lemma stats_of_empty_store_witness :
  exists w',
    Api.get_stats (empty_world (Some toy_model))
    = (Api.Http200 empty_snapshot, w').
Proof.
  destruct (stats_of_empty_store (empty_world (Some toy_model))
              eq_refl eq_refl) as [w' [H _]].
  exists w'. exact H.
Defined.

(** *** Rounding to decimals *)


Lemma scale_pos (n : nat) : (0 < inject_Z (10 ^ Z.of_nat n))%Q.
Proof.
  change 0%Q with (inject_Z 0). rewrite <- Zlt_Qlt.
  apply Z.pow_pos_nonneg; lia.
Qed.

Lemma Qabs_scale (a x s : Q) :
  (0 < s)%Q -> (Qabs (a / s - x) == Qabs (a - x * s) / s)%Q.
Proof.
  intros Hs.
  assert (E : (a / s - x == (a - x * s) * / s)%Q) by (field; lra).
  rewrite E, Qabs_Qmult.
  rewrite (Qabs_pos (/ s)); [reflexivity|].
  apply Qlt_le_weak, Qinv_lt_0_compat. exact Hs.
Qed.


(** There is one such number. *)
Lemma rounded_to_unique (n : nat) (x v v' : Q) :
  rounded_to n x v -> rounded_to n x v' -> (v == v')%Q.
Proof.
  intros [k [Hk [He Ht]]] [k' [Hk' [He' Ht']]].
  pose proof (scale_pos n) as Hs.
  set (s := inject_Z (10 ^ Z.of_nat n)) in *.
  assert (Hh : (1 / (2 * s) == (1 # 2) / s)%Q) by (field; lra).
  rewrite Hh in He, He', Ht, Ht'.
  rewrite Hk, Qabs_scale in He, Ht by exact Hs.
  rewrite Hk', Qabs_scale in He', Ht' by exact Hs.
  assert (Hdiv : forall a b : Q, (a / s <= b / s)%Q -> (a <= b)%Q).
  { intros a b H.
    assert (Ea : (a == a / s * s)%Q) by (field; lra).
    assert (Eb : (b == b / s * s)%Q) by (field; lra).
    rewrite Ea, Eb. apply Qmult_le_compat_r; [exact H|lra]. }
  assert (Hdiv_eq : forall a b : Q, (a == b)%Q -> (a / s == b / s)%Q).
  { intros a b H. rewrite H. reflexivity. }
  apply Hdiv in He, He'.
  apply Qabs_Qle_condition in He. apply Qabs_Qle_condition in He'.
  assert (Hkk : (inject_Z k - inject_Z k' <= 1)%Q
                /\ (inject_Z k' - inject_Z k <= 1)%Q) by (split; lra).
  destruct Hkk as [H1 H2].
  assert (Hz : k - k' <= 1 /\ k' - k <= 1).
  { split.
    - assert (H : (inject_Z (k - k') <= inject_Z 1)%Q).
      { unfold Z.sub. rewrite inject_Z_plus, inject_Z_opp.
        change (inject_Z 1) with 1%Q. lra. }
      rewrite <- Zle_Qle in H. exact H.
    - assert (H : (inject_Z (k' - k) <= inject_Z 1)%Q).
      { unfold Z.sub. rewrite inject_Z_plus, inject_Z_opp.
        change (inject_Z 1) with 1%Q. lra. }
      rewrite <- Zle_Qle in H. exact H. }
  assert (Hcases : k = k' \/ k = k' + 1 \/ k' = k + 1) by lia.
  destruct Hcases as [E|[E|E]].
  - rewrite Hk, Hk', E. reflexivity.
  - exfalso. subst k. rewrite inject_Z_plus in *.
    change (inject_Z 1) with 1%Q in *.
    assert (Ex : (x * s == inject_Z k' + (1 # 2))%Q) by lra.
    assert (T1 : Z.even (k' + 1) = true).
    { apply Ht. apply Hdiv_eq. rewrite Ex.
      assert (E1 : (inject_Z k' + 1 - (inject_Z k' + (1 # 2)) == 1 # 2)%Q)
        by ring.
      rewrite E1. reflexivity. }
    assert (T2 : Z.even k' = true).
    { apply Ht'. apply Hdiv_eq. rewrite Ex.
      assert (E1 : (inject_Z k' - (inject_Z k' + (1 # 2)) == - (1 # 2))%Q)
        by ring.
      rewrite E1. reflexivity. }
    rewrite Z.even_add, T2 in T1. discriminate.
  - exfalso. subst k'. rewrite inject_Z_plus in *.
    change (inject_Z 1) with 1%Q in *.
    assert (Ex : (x * s == inject_Z k + (1 # 2))%Q) by lra.
    assert (T1 : Z.even (k + 1) = true).
    { apply Ht'. apply Hdiv_eq. rewrite Ex.
      assert (E1 : (inject_Z k + 1 - (inject_Z k + (1 # 2)) == 1 # 2)%Q)
        by ring.
      rewrite E1. reflexivity. }
    assert (T2 : Z.even k = true).
    { apply Ht. apply Hdiv_eq. rewrite Ex.
      assert (E1 : (inject_Z k - (inject_Z k + (1 # 2)) == - (1 # 2))%Q)
        by ring.
      rewrite E1. reflexivity. }
    rewrite Z.even_add, T2 in T1. discriminate.
Qed.

(** *** The percentages and the average of [/stats] *)








(** In floats [23 / 160 * 100] falls just short of 14.375, and the mean of
    0.7501 and 0.7502 just short of 0.75015: [/stats] reports 14.37 and
    0.7501, where the numbers themselves would round to 14.38 and
    0.7502. *)
Example percentage_of_23_in_160 :
  py_round (fmul (int_truediv 23 160) (float_of_int 100)) 2 = (1437 # 100)%Q /\
  py_round (inject_Z 23 / inject_Z 160 * 100) 2 = (719 # 50)%Q.
Proof. split; vm_compute; reflexivity. Qed.

Example mean_of_two_confidences :
  py_round (float_mean [b64 (7501 # 10000); b64 (7502 # 10000)]) 4
  = (7501 # 10000)%Q /\
  py_round (((7501 # 10000) + (7502 # 10000)) / 2) 4 = (3751 # 5000)%Q.
Proof. split; vm_compute; reflexivity. Qed.

(** ** Store faults *)

Lemma log_prediction_fault (t s : string) (c : Q) (md : option pydict)
    (w : World) :
  hd false (io_faults w) = true ->
  Database.log_prediction t s c md w = (inl store_error, accessed w).
Proof.
  intros Hf. unfold Database.log_prediction, bind. rewrite get_logger_eq.
  destruct (logger_instance w).
  - rewrite method_log_prediction_eq, Hf. reflexivity.
  - rewrite Hf. reflexivity.
Qed.

(** C8 (counterexample): with three rows in the store and the logger in
    place, a read that fails with an I/O fault makes [GET /stats] answer
    200 with the snapshot of an empty history. *)
Lemma read_fault_reported_as_empty_history :
  Api.get_stats (sample_world None [true])
  = (Api.Http200 empty_snapshot, accessed (sample_world None [true])) /\
  List.length (predictions (sample_world None [true])) = 3%nat /\
  hd false (io_faults (sample_world None [true])) = true.
Proof. repeat split. Qed.

(** C8 (amended): when the next store access fails with an I/O fault,
    [/predict] answers 500 for a text that classifies and appends no row,
    and [GET /stats] answers 500 if the logger singleton has yet to be
    built; once the logger exists, the read swallows the fault and
    [GET /stats] answers 200 with the snapshot of an empty history. *)
Theorem store_fault_status (w : World) :
  hd false (io_faults w) = true ->
  (forall body m,
     model w = Some m ->
     Api.TweetRequest_valid body = true ->
     (exists p, fst (Model.predict m (Api.text body) w) = inr p) ->
     exists d w',
       Api.post_predict body w = (Api.HttpError 500 d, w') /\
       predictions w' = predictions w) /\
  (logger_instance w = false ->
   exists d, Api.get_stats w = (Api.HttpError 500 d, accessed w)) /\
  (logger_instance w = true ->
   Api.get_stats w = (Api.Http200 empty_snapshot, accessed w)).
Proof.
  intros Hf. split; [|split].
  - intros body m Hm Hv [p Hp]. unfold Api.post_predict. rewrite Hv.
    assert (Hrun : Model.predict m (Api.text body) w
                   = (inr p,
                      set_trace w (trace w ++ [EvClassify (Api.text body)]))).
    { rewrite <- (predict_world m (Api.text body) w), <- Hp.
      destruct (Model.predict m (Api.text body) w); reflexivity. }
    eexists. eexists. split.
    + apply respond_error.
      unfold Api.predict_sentiment, Api.get_model, try_except, bind at 1.
      rewrite Hm. unfold bind at 1. rewrite Hrun.
      unfold bind at 1, datetime_now. unfold bind at 1.
      rewrite log_prediction_fault; [reflexivity|exact Hf].
    + destruct w; reflexivity.
  - intros Hl. eexists. unfold Api.get_stats. apply respond_error.
    unfold Api.get_prediction_stats, try_except, bind.
    rewrite get_all_predictions_eq, Hl, Hf. reflexivity.
  - intros Hl. apply get_stats_of_nothing.
    apply get_all_predictions_fault; assumption.
Qed.

Lemma store_fault_status_witness :
  Api.get_stats (sample_world None [true])
  = (Api.Http200 empty_snapshot, accessed (sample_world None [true])).
Proof.
  destruct (store_fault_status (sample_world None [true]) eq_refl)
    as [_ [_ H]].
  apply H. reflexivity.
Defined.

(** ** Order and size of the history reads *)

(** What holds of the reads: the records come by non-increasing
    [created_at], a positive limit bounds their number, and the filtered
    read returns records of the requested sentiment only. *)
Lemma history_reads_ordered (w : World) :
  (forall limit ds w',
     Database.get_all_predictions limit w = (inr ds, w') ->
     newest_first ds /\
     (forall n, limit = Some n -> 0 < n ->
                (List.length ds <= Z.to_nat n)%nat)) /\
  (forall sentiment ds w',
     Database.get_predictions_by_sentiment sentiment w = (inr ds, w') ->
     newest_first ds /\
     Forall (fun d => Database.sentiment d = sentiment) ds).
Proof.
  assert (Hnil : newest_first []) by constructor.
  split.
  - intros limit ds w' H.
    assert (Hm : forall w0 w1,
               Database.PredictionLogger_get_all_predictions limit w0
               = (inr ds, w1) ->
               ds = [] \/ ds = map dict_of_row (selected limit (predictions w0))).
    { intros w0 w1 H0. rewrite method_get_all_predictions_eq in H0.
      destruct (hd false (io_faults w0)); [inversion H0; auto|].
      destruct (forallb row_decodable (selected limit (predictions w0)));
        inversion H0; auto. }
    assert (Hds : ds = [] \/ ds = map dict_of_row (selected limit (predictions w))).
    { rewrite get_all_predictions_eq in H.
      destruct (logger_instance w); [exact (Hm _ _ H)|].
      destruct (hd false (io_faults w)); [discriminate|].
      exact (Hm _ _ H). }
    destruct Hds as [Hds|Hds]; subst ds.
    + split; [exact Hnil|]. intros; cbn; lia.
    + split; [apply newest_first_map, selected_sorted|].
      intros n Hl Hn. subst limit. rewrite length_map.
      unfold selected, int_truthy, Database.sql_limit.
      destruct (n =? 0) eqn:E0; [apply Z.eqb_eq in E0; lia|]. cbn [negb].
      destruct ((n <? - 2 ^ 63) || (2 ^ 63 <=? n)); [cbn; lia|].
      destruct (n <? 0) eqn:E1; [apply Z.ltb_lt in E1; lia|].
      apply firstn_le_length.
  - intros sentiment ds w' H.
    set (rows := Database.order_by_created_at_desc
                   (filter (fun r => String.eqb (row_sentiment r) sentiment)
                           (predictions w))).
    assert (Hm : forall w0 w1,
               predictions w0 = predictions w ->
               Database.PredictionLogger_get_predictions_by_sentiment
                 sentiment w0 = (inr ds, w1) ->
               ds = [] \/ ds = map dict_of_row rows).
    { intros w0 w1 Hp H0.
      pose proof (method_get_by_sentiment_eq sentiment w0) as Heq.
      cbv zeta in Heq. rewrite Heq, Hp in H0. fold rows in H0.
      destruct (hd false (io_faults w0)); [inversion H0; auto|].
      destruct (forallb row_decodable rows); inversion H0; auto. }
    assert (Hds : ds = [] \/ ds = map dict_of_row rows).
    { unfold Database.get_predictions_by_sentiment, bind in H.
      rewrite get_logger_eq in H.
      destruct (logger_instance w); [exact (Hm _ _ eq_refl H)|].
      destruct (hd false (io_faults w)); [discriminate|].
      apply (Hm _ _ (eq_refl : predictions (set_logger_instance (accessed w) true)
                               = predictions w) H). }
    destruct Hds as [Hds|Hds]; subst ds.
    + split; [exact Hnil|constructor].
    + split; [apply newest_first_map, order_by_sorted|].
      apply Forall_forall. intros d Hd. apply in_map_iff in Hd.
      destruct Hd as [r [Hd Hr]]. subst d. cbn.
      apply (Permutation_in _ (Permutation_sym (order_by_perm _))) in Hr.
      apply filter_In in Hr. destruct Hr as [_ Hr].
      apply String.eqb_eq. exact Hr.
Qed.

(** C9 (the code at [limit = 0]): the limit is tested for truthiness
    before [LIMIT] is added to the query, so a read with [limit = 0]
    returns the whole history, here three records, instead of none. *)
Theorem limit_zero_returns_whole_history :
  exists ds,
    fst (Database.get_all_predictions (Some 0) (sample_world None []))
    = inr ds /\
    List.length ds = 3%nat /\
    ~ (List.length ds <= 0)%nat /\
    newest_first ds.
Proof.
  eexists. split; [reflexivity|]. split; [reflexivity|].
  split; [cbn; lia|].
  repeat constructor; cbn; lia.
Qed.

(** ** [json.loads] after [json.dumps] *)

Lemma append_assoc (a b c : string) : ((a ++ b) ++ c = a ++ (b ++ c))%string.
Proof. induction a as [|x a IH]; cbn; [reflexivity|]. rewrite IH. reflexivity. Qed.

Lemma append_nil_r (a : string) : (a ++ EmptyString = a)%string.
Proof. induction a as [|x a IH]; cbn; [reflexivity|]. rewrite IH. reflexivity. Qed.

Lemma length_append (a b : string) :
  String.length (a ++ b) = (String.length a + String.length b)%nat.
Proof. induction a as [|x a IH]; cbn; [reflexivity|]. rewrite IH. reflexivity. Qed.

(** Induction on documents, with the hypothesis for every item of an array
    and every member of an object. *)
Lemma json_nested_ind (P : json -> Prop) :
  P JNull ->
  (forall b, P (JBool b)) ->
  (forall n, P (JInt n)) ->
  (forall s, P (JStr s)) ->
  (forall items, Forall P items -> P (JArr items)) ->
  (forall members, Forall (fun kv => P (snd kv)) members -> P (JObj members)) ->
  forall v, P v.
Proof.
  intros Hnull Hbool Hint Hstr Harr Hobj.
  fix IH 1. intros [ |b|n|s|items|members].
  - exact Hnull.
  - apply Hbool.
  - apply Hint.
  - apply Hstr.
  - apply Harr. induction items as [|x items IHitems]; constructor.
    + apply IH.
    + exact IHitems.
  - apply Hobj. induction members as [|[k x] members IHmembers]; constructor.
    + apply IH.
    + exact IHmembers.
Qed.

(** *** String literals *)

Lemma parse_escape_char (c : ascii) (tail : string) :
  Json.parse_chars (Json.escape_char c ++ tail)
  = Json.cons_char c (Json.parse_chars tail).
Proof.
  destruct c as [[] [] [] [] [] [] [] []]; reflexivity.
Qed.

Lemma parse_chars_escape (s rest : string) :
  Json.parse_chars (Json.escape s ++ String Json.dquote rest) = Some (s, rest).
Proof.
  induction s as [|c s IH]; [reflexivity|].
  cbn [Json.escape]. rewrite append_assoc, parse_escape_char, IH.
  reflexivity.
Qed.

(** *** Integer literals *)

Lemma span_digits_tail (rest : string) :
  leading_digit rest = false -> Json.span_digits rest = (EmptyString, rest).
Proof.
  destruct rest as [|c rest]; [reflexivity|]. cbn. intros ->. reflexivity.
Qed.

Lemma span_digits_uint (u : Decimal.uint) (rest : string) :
  leading_digit rest = false ->
  Json.span_digits (NilEmpty.string_of_uint u ++ rest)
  = (NilEmpty.string_of_uint u, rest).
Proof.
  intros H. induction u as [|u IH|u IH|u IH|u IH|u IH|u IH|u IH|u IH|u IH|u IH];
    [exact (span_digits_tail rest H)|..];
    cbn [NilEmpty.string_of_uint append Json.span_digits];
    rewrite IH; reflexivity.
Qed.

(** A numeral without a leading zero. *)
Lemma to_uint_leading (p : positive) :
  match Pos.to_uint p with
  | Decimal.Nil | Decimal.D0 _ => False
  | _ => True
  end.
Proof.
  pose proof (DecimalZ.to_of (Z.to_int (Z.pos p))) as H.
  rewrite DecimalZ.of_to in H. cbn [Z.to_int Decimal.norm] in H.
  injection H as H.
  pose proof (DecimalPos.Unsigned.to_uint_nonnil p) as Hnil.
  pose proof (DecimalPos.Unsigned.to_uint_nonzero p) as Hzero.
  destruct (Pos.to_uint p) as [|u|u|u|u|u|u|u|u|u|u]; try exact I;
    [congruence|].
  unfold Decimal.unorm in H. cbn [Decimal.nzhead] in H.
  pose proof (DecimalFacts.nb_digits_nzhead u) as Hlen.
  destruct (Decimal.nzhead u) as [|v|v|v|v|v|v|v|v|v|v]; try discriminate.
  - injection H as H. subst u. congruence.
  - injection H as H. subst v. cbn in Hlen. lia.
Qed.

Lemma parse_int_pos (u : Decimal.uint) (rest : string) :
  match u with Decimal.Nil | Decimal.D0 _ => False | _ => True end ->
  leading_digit rest = false ->
  Json.parse_int (NilZero.string_of_int (Decimal.Pos u) ++ rest)
  = Some (JInt (Z.of_int (Decimal.Pos u)), rest).
Proof.
  intros Hu Hrest.
  assert (Hs : NilZero.string_of_int (Decimal.Pos u)
               = NilEmpty.string_of_uint u) by (destruct u; tauto).
  pose proof (span_digits_uint u rest Hrest) as Hspan.
  pose proof (NilZero.isi (Decimal.Pos u)) as Hisi.
  rewrite Hs in Hisi. rewrite Hs.
  assert (Hisi' : NilZero.int_of_string (NilEmpty.string_of_uint u)
                  = Some (Decimal.Pos u)).
  { apply Hisi; [destruct u; [contradiction|..]; discriminate|discriminate]. }
  unfold Json.parse_int.
  destruct u; try contradiction;
    cbn [NilEmpty.string_of_uint append Ascii.eqb Bool.eqb];
    cbn [NilEmpty.string_of_uint append] in Hspan, Hisi';
    rewrite Hspan; cbn [append]; rewrite Hisi'; reflexivity.
Qed.

Lemma parse_int_neg (u : Decimal.uint) (rest : string) :
  match u with Decimal.Nil | Decimal.D0 _ => False | _ => True end ->
  leading_digit rest = false ->
  Json.parse_int (NilZero.string_of_int (Decimal.Neg u) ++ rest)
  = Some (JInt (Z.of_int (Decimal.Neg u)), rest).
Proof.
  intros Hu Hrest.
  assert (Hs : NilZero.string_of_uint u = NilEmpty.string_of_uint u)
    by (destruct u; tauto).
  pose proof (span_digits_uint u rest Hrest) as Hspan.
  pose proof (NilZero.isi (Decimal.Neg u)) as Hisi.
  cbn [NilZero.string_of_int] in Hisi. rewrite Hs in Hisi.
  assert (Hisi' : NilZero.int_of_string
                    (String "-" (NilEmpty.string_of_uint u))
                  = Some (Decimal.Neg u)).
  { apply Hisi; [discriminate|destruct u; [contradiction|..]; discriminate]. }
  unfold Json.parse_int. cbn [NilZero.string_of_int append]. rewrite Hs.
  destruct u; try contradiction;
    cbn [NilEmpty.string_of_uint append Ascii.eqb Bool.eqb];
    cbn [NilEmpty.string_of_uint append] in Hspan, Hisi';
    rewrite Hspan; cbn [append]; rewrite Hisi'; reflexivity.
Qed.

(** The decimal numeral of an integer. *)
Lemma string_of_Z_cases (n : Z) :
  n = 0 \/
  exists u,
    match u with Decimal.Nil | Decimal.D0 _ => False | _ => True end /\
    (Z.to_int n = Decimal.Pos u \/ Z.to_int n = Decimal.Neg u).
Proof.
  destruct n as [|p|p]; [left; reflexivity| |]; right;
    exists (Pos.to_uint p); (split; [apply to_uint_leading|]); cbn; auto.
Qed.

Lemma parse_value_int (n : Z) (fuel : nat) (rest : string) :
  leading_digit rest = false ->
  Json.parse_value (S fuel) (Json.string_of_Z n ++ rest) = Some (JInt n, rest).
Proof.
  intros Hrest. unfold Json.string_of_Z.
  destruct (string_of_Z_cases n) as [-> |[u [Hu Hcase]]]; [reflexivity|].
  rewrite <- (DecimalZ.of_to n) at 2.
  destruct Hcase as [-> | ->].
  - rewrite <- (parse_int_pos u rest Hu Hrest).
    destruct u; try contradiction; reflexivity.
  - rewrite <- (parse_int_neg u rest Hu Hrest). reflexivity.
Qed.

Lemma string_of_Z_nonempty (n : Z) :
  exists c s, Json.string_of_Z n = String c s /\
              Json.is_ws c = false /\ Ascii.eqb c "]" = false.
Proof.
  unfold Json.string_of_Z.
  destruct (string_of_Z_cases n) as [-> |[u [Hu Hcase]]].
  - eexists. eexists. repeat split.
  - destruct Hcase as [-> | ->].
    + destruct u; try contradiction; eexists; eexists; repeat split.
    + eexists. eexists. repeat split.
Qed.

(** *** Documents *)

Lemma parse_value_space (fuel : nat) (s : string) :
  Json.parse_value fuel (String " " s) = Json.parse_value fuel s.
Proof. destruct fuel; reflexivity. Qed.

Lemma parse_items_space (fuel : nat) (s : string) :
  Json.parse_items fuel (String " " s) = Json.parse_items fuel s.
Proof.
  destruct fuel; [reflexivity|].
  cbn [Json.parse_items]. rewrite parse_value_space. reflexivity.
Qed.

Lemma parse_members_space (fuel : nat) (s : string) :
  Json.parse_members fuel (String " " s) = Json.parse_members fuel s.
Proof. destruct fuel; reflexivity. Qed.

Lemma dumps_start (v : json) :
  exists c s, Json.dumps v = String c s /\
              Json.is_ws c = false /\ Ascii.eqb c "]" = false.
Proof.
  destruct v as [ |b|n|s|items|members].
  - eexists. eexists. repeat split.
  - destruct b; eexists; eexists; repeat split.
  - apply string_of_Z_nonempty.
  - eexists. eexists. repeat split.
  - eexists. eexists. repeat split.
  - eexists. eexists. repeat split.
Qed.

Lemma parse_value_array (fuel : nat) (body : string) (c : ascii) (s : string) :
  body = String c s -> Json.is_ws c = false -> Ascii.eqb c "]" = false ->
  Json.parse_value (S fuel) (String "[" body)
  = match Json.parse_items fuel body with
    | Some (xs, tl) => Some (JArr xs, tl)
    | None => None
    end.
Proof.
  intros -> Hws Hc.
  cbn [Json.parse_value Json.skip_ws].
  change (Json.is_ws "[") with false. cbv iota.
  cbn -[Json.parse_items Json.is_ws Json.skip_ws].
  cbn [Json.skip_ws]. rewrite Hws, Hc. reflexivity.
Qed.

Lemma quote_append (k rest : string) :
  (Json.quote k ++ rest)%string
  = String Json.dquote (Json.escape k ++ String Json.dquote rest).
Proof. unfold Json.quote. cbn. rewrite append_assoc. reflexivity. Qed.

Lemma parse_value_object (fuel : nat) (k body : string) :
  Json.parse_value (S fuel) (String "{" (Json.quote k ++ body))
  = match Json.parse_members fuel (Json.quote k ++ body) with
    | Some (ms, tl) => Some (JObj ms, tl)
    | None => None
    end.
Proof.
  rewrite quote_append. reflexivity.
Qed.

Lemma parse_value_string (fuel : nat) (s rest : string) :
  Json.parse_value (S fuel) (Json.quote s ++ rest) = Some (JStr s, rest).
Proof.
  rewrite quote_append.
  cbn -[Json.parse_chars]. rewrite parse_chars_escape. reflexivity.
Qed.

Lemma parse_items_last (fuel : nat) (s rest : string) (x : json) :
  Json.parse_value fuel s = Some (x, String "]" rest) ->
  Json.parse_items (S fuel) s = Some ([x], rest).
Proof. intros H. cbn [Json.parse_items]. rewrite H. reflexivity. Qed.

Lemma parse_items_more (fuel : nat) (s tl : string) (x : json) :
  Json.parse_value fuel s = Some (x, String "," tl) ->
  Json.parse_items (S fuel) s
  = match Json.parse_items fuel tl with
    | Some (xs, tl2) => Some (x :: xs, tl2)
    | None => None
    end.
Proof. intros H. cbn [Json.parse_items]. rewrite H. reflexivity. Qed.

Lemma parse_members_last (fuel : nat) (k body rest : string) (x : json) :
  Json.parse_value fuel body = Some (x, String "}" rest) ->
  Json.parse_members (S fuel) (Json.quote k ++ String ":" body)
  = Some ([(k, x)], rest).
Proof.
  intros H. rewrite quote_append.
  cbn -[Json.parse_chars Json.parse_value]. rewrite parse_chars_escape.
  cbn -[Json.parse_value]. rewrite H. reflexivity.
Qed.

Lemma parse_members_more (fuel : nat) (k body tl : string) (x : json) :
  Json.parse_value fuel body = Some (x, String "," tl) ->
  Json.parse_members (S fuel) (Json.quote k ++ String ":" body)
  = match Json.parse_members fuel tl with
    | Some (ms, tl2) => Some ((k, x) :: ms, tl2)
    | None => None
    end.
Proof.
  intros H. rewrite quote_append.
  cbn [Json.parse_members].
  cbn -[Json.parse_chars Json.parse_value Json.parse_members].
  rewrite parse_chars_escape.
  cbn -[Json.parse_value Json.parse_members]. rewrite H. reflexivity.
Qed.

(** The parser reads a document back from its text, whatever follows it,
    as long as no digit follows directly. *)
Lemma parse_value_dumps (v : json) :
  forall fuel rest,
    (json_size v <= fuel)%nat -> leading_digit rest = false ->
    Json.parse_value fuel (Json.dumps v ++ rest) = Some (v, rest).
Proof.
  induction v as [ |b|n|s|items IH|members IH] using json_nested_ind;
    intros fuel rest Hfuel Hrest.
  - destruct fuel; [cbn in Hfuel; lia|]. reflexivity.
  - destruct fuel; [cbn in Hfuel; lia|]. destruct b; reflexivity.
  - destruct fuel; [cbn in Hfuel; lia|]. apply parse_value_int. exact Hrest.
  - destruct fuel; [cbn in Hfuel; lia|]. apply parse_value_string.
  - destruct fuel as [|fuel]; [cbn in Hfuel; lia|].
    change (json_size (JArr items)) with (S (items_size items)) in Hfuel.
    apply le_S_n in Hfuel.
    destruct items as [|x0 items0]; [reflexivity|].
    change (Json.dumps (JArr (x0 :: items0)))
      with (String "[" (items_text (x0 :: items0))).
    cbn [append].
    assert (Hitems :
              forall xs, Forall (fun x => forall fuel rest,
                                    (json_size x <= fuel)%nat ->
                                    leading_digit rest = false ->
                                    Json.parse_value fuel (Json.dumps x ++ rest)
                                    = Some (x, rest)) xs ->
                         xs <> [] ->
              forall f, (items_size xs <= f)%nat ->
                        Json.parse_items f (items_text xs ++ rest)
                        = Some (xs, rest)).
    { clear. intros xs Hxs. induction Hxs as [|x xs Hx _ IHxs];
        [congruence|]. intros _ f Hf.
      change (items_size (x :: xs)) with (S (json_size x + items_size xs)) in Hf.
      destruct f as [|f]; [lia|].
      destruct xs as [|y ys].
      - change (items_text [x]) with (Json.dumps x ++ "]")%string.
        rewrite append_assoc. cbn [append].
        apply parse_items_last. apply Hx; [lia|reflexivity].
      - change (items_text (x :: y :: ys))
          with (Json.dumps x ++ ", " ++ items_text (y :: ys))%string.
        rewrite append_assoc. cbn [append].
        rewrite (parse_items_more f _ (String " " (items_text (y :: ys) ++ rest)) x).
        + rewrite parse_items_space, IHxs; [reflexivity|discriminate|lia].
        + apply Hx; [lia|reflexivity]. }
    destruct (dumps_start x0) as [c [s0 [Hs [Hws Hc]]]].
    assert (Hbody : exists s1, (items_text (x0 :: items0) ++ rest)%string
                               = String c s1).
    { destruct items0.
      - change (items_text [x0]) with (Json.dumps x0 ++ "]")%string.
        rewrite Hs. eexists. reflexivity.
      - change (items_text (x0 :: j :: items0))
          with (Json.dumps x0 ++ ", " ++ items_text (j :: items0))%string.
        rewrite Hs. eexists. reflexivity. }
    destruct Hbody as [s1 Hbody].
    rewrite (parse_value_array fuel _ c s1 Hbody Hws Hc).
    rewrite (Hitems (x0 :: items0) IH); [reflexivity|discriminate|exact Hfuel].
  - destruct fuel as [|fuel]; [cbn in Hfuel; lia|].
    change (json_size (JObj members)) with (S (members_size members)) in Hfuel.
    apply le_S_n in Hfuel.
    destruct members as [|[k0 x0] members0]; [reflexivity|].
    assert (Hmembers :
              forall ms, Forall (fun kv => forall fuel rest,
                                     (json_size (snd kv) <= fuel)%nat ->
                                     leading_digit rest = false ->
                                     Json.parse_value fuel
                                       (Json.dumps (snd kv) ++ rest)
                                     = Some (snd kv, rest)) ms ->
                         ms <> [] ->
              forall f, (members_size ms <= f)%nat ->
                        Json.parse_members f (members_text ms ++ rest)
                        = Some (ms, rest)).
    { clear. intros ms Hms. induction Hms as [|[k x] ms Hx _ IHms];
        [congruence|]. intros _ f Hf. cbn [snd] in Hx.
      change (members_size ((k, x) :: ms))
        with (S (json_size x + members_size ms)) in Hf.
      destruct f as [|f]; [lia|].
      destruct ms as [|y ys].
      - change (members_text [(k, x)])
          with (Json.quote k ++ ": " ++ Json.dumps x ++ "}")%string.
        rewrite !append_assoc. cbn [append].
        apply parse_members_last. rewrite parse_value_space.
        apply Hx; [lia|reflexivity].
      - change (members_text ((k, x) :: y :: ys))
          with (Json.quote k ++ ": " ++ Json.dumps x ++ ", "
                ++ members_text (y :: ys))%string.
        rewrite !append_assoc. cbn [append].
        rewrite (parse_members_more f k _
                   (String " " (members_text (y :: ys) ++ rest)) x).
        + rewrite parse_members_space, IHms; [reflexivity|discriminate|lia].
        + rewrite parse_value_space. apply Hx; [lia|reflexivity]. }
    change (Json.dumps (JObj ((k0, x0) :: members0)))
      with (String "{" (members_text ((k0, x0) :: members0))).
    cbn [append].
    assert (Hbody : exists body,
               (members_text ((k0, x0) :: members0) ++ rest)%string
               = (Json.quote k0 ++ body)%string).
    { destruct members0.
      - change (members_text [(k0, x0)])
          with (Json.quote k0 ++ ": " ++ Json.dumps x0 ++ "}")%string.
        rewrite append_assoc. eexists. reflexivity.
      - change (members_text ((k0, x0) :: p :: members0))
          with (Json.quote k0 ++ ": " ++ Json.dumps x0 ++ ", "
                ++ members_text (p :: members0))%string.
        rewrite append_assoc. eexists. reflexivity. }
    destruct Hbody as [body Hbody].
    rewrite Hbody, parse_value_object, <- Hbody.
    rewrite (Hmembers ((k0, x0) :: members0) IH);
      [reflexivity|discriminate|exact Hfuel].
Qed.

(** The text of a document is at least as long as the document is big. *)
Lemma json_size_le_length (v : json) :
  (json_size v <= String.length (Json.dumps v))%nat.
Proof.
  induction v as [ |b|n|s|items IH|members IH] using json_nested_ind.
  - cbn. lia.
  - destruct b; cbn; lia.
  - destruct (string_of_Z_nonempty n) as [c [s [H _]]].
    cbn [Json.dumps json_size]. rewrite H. cbn. lia.
  - cbn. lia.
  - change (json_size (JArr items)) with (S (items_size items)).
    change (Json.dumps (JArr items)) with (String "[" (items_text items)).
    cbn [String.length]. apply le_n_S.
    induction IH as [|x xs Hx _ IHxs]; [cbn; lia|].
    change (items_size (x :: xs)) with (S (json_size x + items_size xs)).
    destruct xs as [|y ys].
    + change (items_text [x]) with (Json.dumps x ++ "]")%string.
      rewrite length_append. cbn. lia.
    + change (items_text (x :: y :: ys))
        with (Json.dumps x ++ ", " ++ items_text (y :: ys))%string.
      rewrite !length_append. cbn [String.length]. lia.
  - change (json_size (JObj members)) with (S (members_size members)).
    change (Json.dumps (JObj members)) with (String "{" (members_text members)).
    cbn [String.length]. apply le_n_S.
    induction IH as [|[k x] ms Hx _ IHms]; [cbn; lia|]. cbn [snd] in Hx.
    change (members_size ((k, x) :: ms))
      with (S (json_size x + members_size ms)).
    destruct ms as [|y ys].
    + change (members_text [(k, x)])
        with (Json.quote k ++ ": " ++ Json.dumps x ++ "}")%string.
      change (members_size []) with O.
      rewrite !length_append. cbn [String.length]. lia.
    + change (members_text ((k, x) :: y :: ys))
        with (Json.quote k ++ ": " ++ Json.dumps x ++ ", "
              ++ members_text (y :: ys))%string.
      rewrite !length_append. cbn [String.length]. lia.
Qed.

(** [json.loads(json.dumps(v))] is [v]. *)
Lemma loads_dumps (v : json) : Json.loads (Json.dumps v) = Some v.
Proof.
  unfold Json.loads.
  rewrite <- (append_nil_r (Json.dumps v)) at 2.
  rewrite parse_value_dumps; [reflexivity| |reflexivity].
  pose proof (json_size_le_length v). lia.
Qed.

Lemma dumps_nonempty (v : json) : exists c s, Json.dumps v = String c s.
Proof.
  destruct (dumps_start v) as [c [s [H _]]]. exists c, s. exact H.
Qed.

(** ** Metadata *)

Lemma stored_metadata_nonempty (md : pydict) :
  md <> [] -> stored_metadata (Some md) = Some (Json.dumps (JObj md)).
Proof. destruct md; [congruence|reflexivity]. Qed.

(** A row that holds the text of a document reads back as that document. *)
Lemma row_with_dumps_decodes (row : Row) (v : json) :
  row_metadata row = Some (Json.dumps v) ->
  row_decodable row = true /\
  Database.metadata (dict_of_row row) = Some v /\
  forall w, Database.row_to_dict row w = (inr (dict_of_row row), w).
Proof.
  intros H.
  assert (Hdec : decoded_metadata row = Some v).
  { unfold decoded_metadata. rewrite H.
    destruct (dumps_nonempty v) as [c [s Hs]]. rewrite Hs, <- Hs.
    apply loads_dumps. }
  assert (Hok : row_decodable row = true).
  { unfold row_decodable. unfold decoded_metadata in Hdec.
    destruct (row_metadata row) as [[|c s]|]; try reflexivity.
    rewrite Hdec. reflexivity. }
  split; [exact Hok|]. split; [exact Hdec|].
  intros w. rewrite row_to_dict_eq, Hok. reflexivity.
Qed.




(** *** Rows written by the endpoints stay readable *)

Lemma stored_metadata_decodable (row : Row) (md : option pydict) :
  row_metadata row = stored_metadata md -> row_decodable row = true.
Proof.
  intros H. destruct md as [[|kv d]|].
  - unfold row_decodable. rewrite H. reflexivity.
  - apply (row_with_dumps_decodes row (JObj (kv :: d))). exact H.
  - unfold row_decodable. rewrite H. reflexivity.
Qed.

Lemma forallb_app_true {A} (f : A -> bool) (l l' : list A) :
  forallb f l = true -> forallb f l' = true -> forallb f (l ++ l') = true.
Proof. intros H H'. rewrite forallb_app, H, H'. reflexivity. Qed.

(** Whatever the outcome of a prediction request, every row of the store
    decodes afterwards if every row did before. *)
Lemma endpoints_keep_rows_decodable (w : World) :
  forallb row_decodable (predictions w) = true ->
  (forall body,
     forallb row_decodable (predictions (snd (Api.post_predict body w)))
     = true) /\
  (forall body,
     forallb row_decodable (predictions (snd (Api.post_batch_predict body w)))
     = true).
Proof.
  intros Hw. destruct (model w) as [m|] eqn:Hm.
  - split; intros body.
    + unfold Api.post_predict.
      destruct (Api.TweetRequest_valid body); [|exact Hw].
      destruct (predict_sentiment_run body w m Hm)
        as [r [w1 [evs [Hrun [_ [_ [_ [_ Hcases]]]]]]]].
      assert (Hsnd : snd (Api.respond (Api.predict_sentiment body) w) = w1).
      { unfold Api.respond. rewrite Hrun. destruct r as [[c d|msg]|a];
          reflexivity. }
      rewrite Hsnd.
      destruct Hcases as [[_ [_ [Hp _]]]|[_ [p [_ [_ [Hout _]]]]]];
        [rewrite Hp; exact Hw|].
      destruct Hout as [[_ Hrows]|[_ Hrows]]; rewrite Hrows; [|exact Hw].
      apply forallb_app_true; [exact Hw|]. cbn [forallb].
      rewrite (stored_metadata_decodable
                 (logged_row (Api.text body) (Model.sentiment p)
                    (Model.confidence p) (Api.metadata body) w)
                 (Api.metadata body) eq_refl).
      reflexivity.
    + unfold Api.post_batch_predict.
      destruct (Api.BatchTweetRequest_valid body); [|exact Hw].
      destruct (batch_predict_sentiment_run body w m Hm)
        as [r [w1 [cl [evs [new [k [ps [Hrun [_ [_ [Hp [_ [_ Hcases]]]]]]]]]]]]].
      assert (Hsnd : snd (Api.respond (Api.batch_predict_sentiment body) w)
                     = w1).
      { unfold Api.respond. rewrite Hrun. destruct r as [[c d|msg]|a];
          reflexivity. }
      rewrite Hsnd, Hp. apply forallb_app_true; [exact Hw|].
      destruct Hcases as [[_ [Hnew _]]|[_ [_ [_ [_ [Hrows _]]]]]];
        [subst new; reflexivity|].
      clear - Hrows. induction Hrows as [|p row ps' rows Hrow _ IH];
        [reflexivity|].
      cbn [forallb]. rewrite IH.
      destruct Hrow as [_ [_ [_ [_ [_ Hmeta]]]]].
      rewrite (stored_metadata_decodable row _ Hmeta). reflexivity.
  - destruct (handlers_without_model w Hm) as [H1 H2].
    split; intros body.
    + unfold Api.post_predict.
      destruct (Api.TweetRequest_valid body); [|exact Hw].
      unfold Api.respond. rewrite H1. exact Hw.
    + unfold Api.post_batch_predict.
      destruct (Api.BatchTweetRequest_valid body); [|exact Hw].
      unfold Api.respond. rewrite H2. exact Hw.
Qed.

(** *** Sample runs *)

Example dumps_sample :
  Json.dumps (JObj [("tags", JArr [JInt (-4); JBool true; JNull; JObj []]);
                    ("n", JInt 120)])
  = String "{" (Json.quote "tags" ++ ": [-4, true, null, {}], "
                ++ Json.quote "n" ++ ": 120}")%string.
Proof. reflexivity. Qed.

Example loads_spaced :
  Json.loads (String " " (String "[" (String " " "1 , 20 ]")))
  = Some (JArr [JInt 1; JInt 20]).
Proof. reflexivity. Qed.

Example loads_leading_zero : Json.loads "012" = None.
Proof. reflexivity. Qed.

Example stats_after_batch :
  fst (Api.get_stats
         (snd (Api.post_batch_predict sample_batch
                 (empty_world (Some toy_model)))))
  = Api.Http200
      [("total_predictions", Api.PInt 3);
       ("positive_count", Api.PInt 2);
       ("negative_count", Api.PInt 1);
       ("positive_percentage", Api.PFloat (6667 # 100));
       ("negative_percentage", Api.PFloat (3333 # 100));
       ("average_confidence", Api.PFloat (7917 # 10000));
       ("last_updated", Api.PTime 1700000000000000)].
Proof. reflexivity. Qed.

(** * Further properties of the code *)

(** ** What the endpoints answer and what they leave alone *)

(** A handler whose [except] clause raises a 500 returns or raises a 500. *)
Lemma guarded_outcome {A} (c : M A) (f : exn -> string) (w : World) :
  (exists a, fst (try_except c (fun e => raise (HTTPException 500 (f e))) w)
             = inr a) \/
  (exists d, fst (try_except c (fun e => raise (HTTPException 500 (f e))) w)
             = inl (HTTPException 500 d)).
Proof.
  unfold try_except, raise. destruct (c w) as [[e|a] w'].
  - right. eexists. reflexivity.
  - left. eexists. reflexivity.
Qed.

Lemma respond_status {A} (h : M A) (w : World) :
  (exists a, fst (h w) = inr a) \/
  (exists d, fst (h w) = inl (HTTPException 500 d)) ->
  status_of (fst (Api.respond h w)) = 200%nat \/
  status_of (fst (Api.respond h w)) = 500%nat.
Proof.
  unfold Api.respond. intros [[a H]|[d H]];
    destruct (h w) as [r w']; cbn [fst] in H; subst r; cbn; auto.
Qed.

Lemma predict_sentiment_status (body : Api.TweetRequest) (w : World) :
  status_of (fst (Api.respond (Api.predict_sentiment body) w)) = 200%nat \/
  status_of (fst (Api.respond (Api.predict_sentiment body) w)) = 500%nat.
Proof.
  apply respond_status.
  exact (guarded_outcome _
           (fun e => ("Prediction failed: " ++ exn_str e)%string) w).
Qed.

Lemma batch_predict_sentiment_status (body : Api.BatchTweetRequest)
    (w : World) :
  status_of (fst (Api.respond (Api.batch_predict_sentiment body) w)) = 200%nat
  \/
  status_of (fst (Api.respond (Api.batch_predict_sentiment body) w)) = 500%nat.
Proof.
  apply respond_status.
  exact (guarded_outcome _
           (fun e => ("Batch prediction failed: " ++ exn_str e)%string) w).
Qed.

Lemma get_prediction_stats_status (w : World) :
  status_of (fst (Api.respond Api.get_prediction_stats w)) = 200%nat \/
  status_of (fst (Api.respond Api.get_prediction_stats w)) = 500%nat.
Proof.
  apply respond_status.
  exact (guarded_outcome _
           (fun e => ("Failed to get statistics: " ++ exn_str e)%string) w).
Qed.

(** X1: [POST /predict] and [POST /batch_predict] answer 200, 422 or 500
    and nothing else, 422 exactly when the body fails validation;
    [GET /stats] answers 200 or 500; [GET /health] and [GET /] always
    answer 200. No endpoint ever answers 503. *)
Theorem endpoint_status_codes (w : World) :
  (forall body,
     In (status_of (fst (Api.post_predict body w))) [200; 422; 500]%nat /\
     (status_of (fst (Api.post_predict body w)) = 422%nat <->
      Api.TweetRequest_valid body = false)) /\
  (forall body,
     In (status_of (fst (Api.post_batch_predict body w))) [200; 422; 500]%nat /\
     (status_of (fst (Api.post_batch_predict body w)) = 422%nat <->
      Api.BatchTweetRequest_valid body = false)) /\
  In (status_of (fst (Api.get_stats w))) [200; 500]%nat /\
  status_of (fst (Api.get_health w)) = 200%nat /\
  status_of (fst (Startup.get_root w)) = 200%nat.
Proof.
  split; [|split; [|split; [|split]]].
  - intros body. unfold Api.post_predict.
    destruct (Api.TweetRequest_valid body).
    + destruct (predict_sentiment_status body w) as [H|H]; rewrite H; cbn;
        (split; [tauto|]); split; intros; discriminate.
    + cbn. split; [tauto|]. split; reflexivity.
  - intros body. unfold Api.post_batch_predict.
    destruct (Api.BatchTweetRequest_valid body).
    + destruct (batch_predict_sentiment_status body w) as [H|H]; rewrite H;
        cbn; (split; [tauto|]); split; intros; discriminate.
    + cbn. split; [tauto|]. split; reflexivity.
  - unfold Api.get_stats.
    destruct (get_prediction_stats_status w) as [H|H]; rewrite H; cbn; tauto.
  - reflexivity.
  - reflexivity.
Qed.

Lemma accessed_frame (w : World) :
  predictions (accessed w) = predictions w /\
  model (accessed w) = model w /\
  clock (accessed w) = clock w /\
  trace (accessed w) = trace w ++ [EvStore].
Proof. destruct w; repeat split. Qed.

(** A read changes neither the rows, nor the model, nor the clock, and
    accesses nothing but the store. *)
Lemma get_all_predictions_frame (limit : option Z) (w : World) :
  predictions (snd (Database.get_all_predictions limit w)) = predictions w /\
  model (snd (Database.get_all_predictions limit w)) = model w /\
  clock (snd (Database.get_all_predictions limit w)) = clock w /\
  exists evs,
    trace (snd (Database.get_all_predictions limit w)) = trace w ++ evs /\
    Forall is_store_event evs.
Proof.
  rewrite get_all_predictions_eq.
  destruct (logger_instance w).
  - rewrite method_get_all_predictions_eq. cbn [snd].
    destruct (accessed_frame w) as [H1 [H2 [H3 H4]]].
    repeat split; try assumption.
    exists [EvStore]. split; [assumption|repeat constructor].
  - destruct (hd false (io_faults w)).
    + cbn [snd]. destruct (accessed_frame w) as [H1 [H2 [H3 H4]]].
      repeat split; try assumption.
      exists [EvStore]. split; [assumption|repeat constructor].
    + rewrite method_get_all_predictions_eq. cbn [snd].
      destruct w as [m l ps c fs tr]. cbn. repeat split.
      exists [EvStore; EvStore]. split; [|repeat constructor].
      rewrite <- app_assoc. reflexivity.
Qed.

Lemma get_prediction_stats_world (w : World) :
  snd (Api.get_prediction_stats w)
  = snd (Database.get_all_predictions None w).
Proof.
  unfold Api.get_prediction_stats, try_except, bind.
  destruct (Database.get_all_predictions None w) as [[e|[|d ds]] w'];
    reflexivity.
Qed.

Lemma respond_world {A} (h : M A) (w : World) :
  snd (Api.respond h w) = snd (h w).
Proof.
  unfold Api.respond. destruct (h w) as [[[c d|msg]|a] w']; reflexivity.
Qed.

(** X2: the endpoints never modify or remove a stored row and never touch
    the model: [/predict] appends at most one row and [/batch_predict] at
    most one per text, behind the rows that were there; [GET /stats]
    leaves the rows as they are and accesses only the store; [GET /health]
    and [GET /] leave the whole world as it is. *)
Theorem endpoints_only_append (w : World) :
  (forall body,
     model (snd (Api.post_predict body w)) = model w /\
     exists new,
       predictions (snd (Api.post_predict body w)) = predictions w ++ new /\
       (List.length new <= 1)%nat) /\
  (forall body,
     model (snd (Api.post_batch_predict body w)) = model w /\
     exists new,
       predictions (snd (Api.post_batch_predict body w))
       = predictions w ++ new /\
       (List.length new <= List.length (Api.tweets body))%nat) /\
  (model (snd (Api.get_stats w)) = model w /\
   predictions (snd (Api.get_stats w)) = predictions w /\
   exists evs,
     trace (snd (Api.get_stats w)) = trace w ++ evs /\
     Forall is_store_event evs) /\
  snd (Api.get_health w) = w /\
  snd (Startup.get_root w) = w.
Proof.
  split; [|split; [|split; [|split]]].
  - intros body. unfold Api.post_predict.
    destruct (Api.TweetRequest_valid body);
      [|split; [reflexivity|exists []; rewrite app_nil_r; split;
                             [reflexivity|cbn; lia]]].
    rewrite respond_world.
    destruct (model w) as [m|] eqn:Hm.
    + destruct (predict_sentiment_run body w m Hm)
        as [r [w1 [evs [Hrun [_ [_ [Hmodel [_ Hcases]]]]]]]].
      rewrite Hrun. cbn [snd]. split; [congruence|].
      destruct Hcases as [[_ [_ [Hp _]]]|[_ [p [_ [_ [Hout _]]]]]].
      * exists []. rewrite app_nil_r. split; [exact Hp|cbn; lia].
      * destruct Hout as [[_ Hrows]|[_ Hrows]].
        -- eexists. split; [exact Hrows|cbn; lia].
        -- exists []. rewrite app_nil_r. split; [exact Hrows|cbn; lia].
    + destruct (handlers_without_model w Hm) as [H1 _]. rewrite H1.
      cbn [snd]. split; [exact Hm|].
      exists []. rewrite app_nil_r. split; [reflexivity|cbn; lia].
  - intros body. unfold Api.post_batch_predict.
    destruct (Api.BatchTweetRequest_valid body);
      [|split; [reflexivity|exists []; rewrite app_nil_r; split;
                             [reflexivity|cbn; lia]]].
    rewrite respond_world.
    destruct (model w) as [m|] eqn:Hm.
    + destruct (batch_predict_sentiment_run body w m Hm)
        as [r [w1 [cl [evs [new [k [ps [Hrun [_ [_ [Hp [Hmodel [_ Hcases]]]]]]]]]]]]].
      rewrite Hrun. cbn [snd]. split; [congruence|].
      exists new. split; [exact Hp|].
      destruct Hcases as [[_ [Hnew _]]|[_ [_ [Hts [_ [Hrows _]]]]]].
      * subst new. cbn. lia.
      * rewrite <- (Forall2_length Hrows), <- Hts, length_map.
        rewrite length_firstn. lia.
    + destruct (handlers_without_model w Hm) as [_ H2]. rewrite H2.
      cbn [snd]. split; [exact Hm|].
      exists []. rewrite app_nil_r. split; [reflexivity|cbn; lia].
  - unfold Api.get_stats. rewrite respond_world, get_prediction_stats_world.
    destruct (get_all_predictions_frame None w) as [H1 [H2 [_ H3]]].
    split; [exact H2|]. split; [exact H1|exact H3].
  - reflexivity.
  - reflexivity.
Qed.

(** X3: the row stored for a prediction says what the caller was told: on
    a 200 answer of [/predict] the response carries the request text and
    exactly one row is appended, with the next id and the text, sentiment
    and confidence of the response; on a 200 answer of [/batch_predict]
    the appended rows match the results one by one, in order. *)
Theorem stored_rows_match_responses (w : World) :
  (forall body resp w',
     Api.post_predict body w = (Api.Http200 resp, w') ->
     Api.r_text resp = Api.text body /\
     exists row,
       predictions w' = predictions w ++ [row] /\
       row_matches_response row resp /\
       row_id row = Database.next_id (predictions w)) /\
  (forall body resp w',
     Api.post_batch_predict body w = (Api.Http200 resp, w') ->
     exists new,
       predictions w' = predictions w ++ new /\
       Forall2 row_matches_response new (Api.results resp)).
Proof.
  split.
  - intros body resp w' H. unfold Api.post_predict in H.
    destruct (Api.TweetRequest_valid body); [|discriminate].
    apply respond_200 in H.
    destruct (model w) as [m|] eqn:Hm;
      [|destruct (handlers_without_model w Hm) as [H1 _];
        rewrite H1 in H; discriminate].
    destruct (predict_sentiment_run body w m Hm)
      as [r [w1 [evs [Hrun [_ [_ [_ [_ Hcases]]]]]]]].
    rewrite Hrun in H. inversion H. subst r w1.
    destruct Hcases as [[_ [_ [_ [d Hd]]]]|[_ [p [_ [Ht [Hout _]]]]]];
      [discriminate|].
    destruct Hout as [[Hr Hrows]|[[d Hd] _]]; [|discriminate].
    inversion Hr. subst resp. cbn [Api.make_response Api.r_text].
    split; [exact Ht|].
    eexists. split; [exact Hrows|]. split; [|reflexivity].
    unfold row_matches_response. cbn. rewrite Ht. repeat split.
  - intros body resp w' H. unfold Api.post_batch_predict in H.
    destruct (Api.BatchTweetRequest_valid body); [|discriminate].
    apply respond_200 in H.
    destruct (model w) as [m|] eqn:Hm;
      [|destruct (handlers_without_model w Hm) as [_ H2];
        rewrite H2 in H; discriminate].
    destruct (batch_predict_sentiment_run body w m Hm)
      as [r [w1 [cl [evs [new [k [ps [Hrun [_ [_ [Hp [_ [_ Hcases]]]]]]]]]]]]].
    rewrite Hrun in H. inversion H. subst r w1.
    destruct Hcases as [[_ [_ [_ [d Hd]]]]|[_ [_ [_ [_ [Hrows [Hres _]]]]]]];
      [discriminate|].
    destruct (Hres resp eq_refl) as [Hresults [Hk _]]. subst k.
    rewrite firstn_all in Hrows.
    exists new. split; [exact Hp|]. rewrite Hresults.
    clear - Hrows. induction Hrows as [|p row ps rows Hrow _ IH];
      [constructor|].
    cbn [map]. constructor; [|exact IH].
    destruct Hrow as [H1 [H2 [H3 [_ [H5 _]]]]].
    unfold row_matches_response. cbn. auto.
Qed.

Lemma stored_rows_match_responses_witness :
  exists resp row,
    fst (Api.post_predict sample_request (empty_world (Some toy_model)))
    = Api.Http200 resp /\
    predictions (snd (Api.post_predict sample_request
                        (empty_world (Some toy_model)))) = [row] /\
    row_matches_response row resp.
Proof.
  destruct (stored_rows_match_responses (empty_world (Some toy_model)))
    as [H _].
  destruct (H sample_request
              (Api.make_response
                 {| Model.text := "good"; Model.sentiment := "Positive";
                    Model.confidence := 3 # 4; Model.predicted_class := 0;
                    Model.positive := 3 # 4; Model.negative := 1 # 4 |}
                 1700000000000000)
              (snd (Api.post_predict sample_request
                      (empty_world (Some toy_model))))
              eq_refl) as [_ [row [Hrows [Hmatch _]]]].
  eexists. exists row. split; [reflexivity|]. split; assumption.
Defined.

(** ** Invariants of the table *)

Lemma log_prediction_keeps (I : list Row -> Prop) (t s : string) (c : Q)
    (md : option pydict) (w : World) :
  kept_by_logging I ->
  s = "Positive"%string \/ s = "Negative"%string ->
  I (predictions w) ->
  I (predictions (snd (Database.log_prediction t s c md w))).
Proof.
  intros HI Hs Hw.
  destruct (log_prediction_run t s c md w)
    as [r [w' [Hrun [_ [_ [_ [Hrows _]]]]]]].
  rewrite Hrun. cbn [snd].
  destruct Hrows as [[_ [_ Hp]]|[_ Hp]]; rewrite Hp; [|exact Hw].
  apply HI; assumption.
Qed.

Lemma respond_and_log_keeps (I : list Row -> Prop) (m : NegaBotModel)
    (md : option pydict) (ps : list Model.Prediction) :
  kept_by_logging I ->
  Forall (produced_by m) ps ->
  forall w,
    I (predictions w) ->
    I (predictions (snd (for_each (respond_and_log md) ps w))).
Proof.
  intros HI Hps. induction Hps as [|p ps Hp _ IH]; intros w Hw;
    [exact Hw|].
  cbn [for_each]. unfold bind at 1. unfold respond_and_log at 1.
  unfold bind at 1, datetime_now. unfold bind at 1.
  pose proof (log_prediction_keeps I (Model.text p) (Model.sentiment p)
                (Model.confidence p) md w HI (produced_label m p Hp) Hw)
    as Hkeep.
  destruct (Database.log_prediction (Model.text p) (Model.sentiment p)
              (Model.confidence p) md w) as [[e|u] w1]; cbn [snd] in Hkeep.
  - exact Hkeep.
  - unfold ret at 1. specialize (IH w1 Hkeep). unfold bind at 1.
    destruct (for_each (respond_and_log md) ps w1) as [[e|rs] w2];
      exact IH.
Qed.

(** A property kept by logging is kept by every endpoint. *)
Lemma endpoints_keep (I : list Row -> Prop) (w : World) :
  kept_by_logging I ->
  I (predictions w) ->
  (forall body, I (predictions (snd (Api.post_predict body w)))) /\
  (forall body, I (predictions (snd (Api.post_batch_predict body w)))) /\
  I (predictions (snd (Api.get_stats w))).
Proof.
  intros HI Hw. split; [|split].
  - intros body. unfold Api.post_predict.
    destruct (Api.TweetRequest_valid body); [|exact Hw].
    rewrite respond_world.
    destruct (model w) as [m|] eqn:Hm;
      [|destruct (handlers_without_model w Hm) as [H1 _]; rewrite H1;
        exact Hw].
    destruct (predict_sentiment_run body w m Hm)
      as [r [w1 [evs [Hrun [_ [_ [_ [_ Hcases]]]]]]]].
    rewrite Hrun. cbn [snd].
    destruct Hcases as [[_ [_ [Hp _]]]|[_ [p [Hprod [_ [Hout _]]]]]];
      [rewrite Hp; exact Hw|].
    destruct Hout as [[_ Hrows]|[_ Hrows]]; rewrite Hrows; [|exact Hw].
    apply HI; [exact (produced_label m p Hprod)|exact Hw].
  - intros body. unfold Api.post_batch_predict.
    destruct (Api.BatchTweetRequest_valid body); [|exact Hw].
    rewrite respond_world.
    destruct (model w) as [m|] eqn:Hm;
      [|destruct (handlers_without_model w Hm) as [_ H2]; rewrite H2;
        exact Hw].
    unfold Api.batch_predict_sentiment, Api.get_model.
    change (fun result : Model.Prediction =>
              bind datetime_now
                (fun now =>
                   bind (Database.log_prediction (Model.text result)
                           (Model.sentiment result) (Model.confidence result)
                           (Api.b_metadata body))
                     (fun _ => ret (Api.make_response result now))))
      with (respond_and_log (Api.b_metadata body)).
    unfold try_except, bind at 1. rewrite Hm. unfold bind at 1.
    destruct (batch_predict_run m (Api.tweets body) w)
      as [r0 [cl [Hrun Hcases]]].
    rewrite Hrun.
    destruct Hcases as [[_ [_ [ps [Hr0 [_ Hps]]]]]|[_ [e He]]]; subst r0;
      [|exact Hw].
    pose proof (respond_and_log_keeps I m (Api.b_metadata body) ps HI Hps
                  (set_trace w (trace w ++ map EvClassify cl)) Hw) as Hkeep.
    unfold bind at 1.
    destruct (for_each (respond_and_log (Api.b_metadata body)) ps
                (set_trace w (trace w ++ map EvClassify cl)))
      as [[e|rs] w2]; exact Hkeep.
  - unfold Api.get_stats. rewrite respond_world, get_prediction_stats_world.
    destruct (get_all_predictions_frame None w) as [H1 _]. rewrite H1.
    exact Hw.
Qed.

Lemma logged_row_well_labelled (t s : string) (c : Q) (md : option pydict)
    (w : World) :
  s = "Positive"%string \/ s = "Negative"%string ->
  well_labelled (logged_row t s c md w).
Proof.
  unfold well_labelled. intros [-> | ->]; cbn; auto.
Qed.

Lemma well_labelled_kept : kept_by_logging (Forall well_labelled).
Proof.
  intros w t s c md Hs Hw. apply Forall_app. split; [exact Hw|].
  constructor; [|constructor]. apply logged_row_well_labelled. exact Hs.
Qed.

(** X4: if every stored row is labelled ["Positive"] with class 0 or
    ["Negative"] with class 1, the same holds after any request to
    [/predict], [/batch_predict] or [/stats], whatever its outcome and
    whatever the classifier returns. *)
Theorem labels_are_kept (w : World) :
  Forall well_labelled (predictions w) ->
  (forall body,
     Forall well_labelled (predictions (snd (Api.post_predict body w)))) /\
  (forall body,
     Forall well_labelled
       (predictions (snd (Api.post_batch_predict body w)))) /\
  Forall well_labelled (predictions (snd (Api.get_stats w))).
Proof.
  intros Hw.
  exact (endpoints_keep (Forall well_labelled) w well_labelled_kept Hw).
Qed.

Lemma labels_are_kept_witness :
  Forall well_labelled
    (predictions (snd (Api.post_batch_predict sample_batch
                         (sample_world (Some toy_model) [])))).
Proof.
  assert (Hw : Forall well_labelled
                 (predictions (sample_world (Some toy_model) []))).
  { cbn.
    repeat (apply Forall_cons; [unfold well_labelled; cbn; auto|]).
    apply Forall_nil. }
  destruct (labels_are_kept (sample_world (Some toy_model) []) Hw)
    as [_ [H _]].
  apply H.
Defined.

Lemma fold_max_bound (ids : list Z) (x : Z) :
  In x ids -> x <= fold_right Z.max 0 ids.
Proof.
  induction ids as [|y ids IH]; cbn; [tauto|].
  intros [->|H]; [lia|]. specialize (IH H). lia.
Qed.

Lemma strongly_sorted_snoc (l : list Z) (x : Z) :
  StronglySorted Z.lt l -> Forall (fun y => y < x) l ->
  StronglySorted Z.lt (l ++ [x]).
Proof.
  induction 1 as [|y l Hl IH Hy]; intros Hx; cbn.
  - repeat constructor.
  - inversion Hx; subst. constructor; [apply IH; assumption|].
    apply Forall_app. split; [exact Hy|]. repeat constructor. assumption.
Qed.

Lemma ids_ascending_kept : kept_by_logging ids_ascending.
Proof.
  intros w t s c md _ [Hsorted Hpos]. split.
  - rewrite map_app. cbn [map logged_row row_id].
    apply strongly_sorted_snoc; [exact Hsorted|].
    apply Forall_forall. intros y Hy. unfold Database.next_id.
    pose proof (fold_max_bound _ _ Hy). lia.
  - apply Forall_app. split; [exact Hpos|]. constructor; [|constructor].
    cbn [logged_row row_id]. unfold Database.next_id.
    assert (0 <= fold_right Z.max 0 (map row_id (predictions w))).
    { generalize (map row_id (predictions w)). intros l.
      induction l; cbn; lia. }
    lia.
Qed.

Lemma ids_ascending_nodup (rows : list Row) :
  ids_ascending rows -> NoDup (map row_id rows).
Proof.
  intros [H _]. induction H as [|x l Hl IH Hx]; constructor; [|exact IH].
  intros Hin. rewrite Forall_forall in Hx. specialize (Hx x Hin). lia.
Qed.

(** X5: if the ids of the stored rows are positive and strictly increasing
    along the table, they still are after any request to [/predict],
    [/batch_predict] or [/stats]; in particular no two rows ever share an
    id. *)
Theorem ids_stay_ascending (w : World) :
  ids_ascending (predictions w) ->
  (forall body,
     ids_ascending (predictions (snd (Api.post_predict body w))) /\
     NoDup (map row_id (predictions (snd (Api.post_predict body w))))) /\
  (forall body,
     ids_ascending (predictions (snd (Api.post_batch_predict body w))) /\
     NoDup (map row_id (predictions (snd (Api.post_batch_predict body w))))) /\
  ids_ascending (predictions (snd (Api.get_stats w))).
Proof.
  intros Hw.
  destruct (endpoints_keep ids_ascending w ids_ascending_kept Hw)
    as [H1 [H2 H3]].
  split; [|split; [|exact H3]]; intros body; split;
    try apply ids_ascending_nodup; auto.
Qed.

Lemma ids_stay_ascending_witness :
  map row_id
    (predictions (snd (Api.post_batch_predict sample_batch
                         (sample_world (Some toy_model) []))))
  = [1; 2; 3; 4; 5; 6] /\
  NoDup (map row_id
           (predictions (snd (Api.post_batch_predict sample_batch
                                (sample_world (Some toy_model) []))))).
Proof.
  assert (Hw : ids_ascending (predictions (sample_world (Some toy_model) []))).
  { split; cbn; repeat constructor; cbn; lia. }
  destruct (ids_stay_ascending (sample_world (Some toy_model) []) Hw)
    as [_ [H _]].
  split; [reflexivity|]. apply H.
Defined.

(** ** The numbers in a response *)

(** The three rounded numbers of a returned prediction. *)
Lemma predict_values (m : NegaBotModel) (t : string) (w : World)
    (p : Model.Prediction) :
  fst (Model.predict m t w) = inr p ->
  exists out c p0 p1,
    m t = inr out /\
    nth_error (probabilities out) (argmax out) = Some c /\
    nth_error (probabilities out) 0 = Some p0 /\
    nth_error (probabilities out) 1 = Some p1 /\
    Model.sentiment p
    = (if Nat.eqb (argmax out) 1 then "Negative" else "Positive")%string /\
    Model.confidence p = py_round c 4 /\
    Model.positive p = py_round p0 4 /\
    Model.negative p = py_round p1 4.
Proof.
  rewrite predict_eq.
  destruct (m t) as [e|out]; [discriminate|].
  destruct (nth_error (probabilities out) (argmax out)) as [c|] eqn:Ec;
    [|discriminate].
  destruct (nth_error (probabilities out) 0) as [p0|] eqn:E0;
    [|discriminate].
  destruct (nth_error (probabilities out) 1) as [p1|] eqn:E1;
    [|discriminate].
  cbn [fst]. intros H. inversion H. subst p.
  exists out, c, p0, p1. cbn. repeat split; assumption.
Qed.

(** With two classes the confidence is the probability of the label. *)
Lemma produced_confidence (m : NegaBotModel) (p : Model.Prediction) :
  binary m -> produced_by m p ->
  (Model.sentiment p = "Positive"%string /\
   Model.confidence p = Model.positive p) \/
  (Model.sentiment p = "Negative"%string /\
   Model.confidence p = Model.negative p).
Proof.
  intros Hb Hp. specialize (Hp (empty_world None)).
  apply predict_values in Hp.
  destruct Hp as [out [c [p0 [p1 [Hm [Ec [E0 [E1 [Hs [Hc [H0 H1]]]]]]]]]]].
  specialize (Hb _ _ Hm).
  assert (Ha : argmax out = 0%nat \/ argmax out = 1%nat).
  { assert (argmax out < List.length (probabilities out))%nat
      by (apply nth_error_Some; congruence).
    lia. }
  destruct Ha as [Ha|Ha]; rewrite Ha in *; cbn in Hs.
  - left. split; [exact Hs|]. congruence.
  - right. split; [exact Hs|]. congruence.
Qed.

(** Every 200 answer is built from predictions the classifier wrapper
    returned. *)
Lemma responses_are_produced (w : World) (m : NegaBotModel) :
  model w = Some m ->
  (forall body resp w',
     Api.post_predict body w = (Api.Http200 resp, w') ->
     exists p, produced_by m p /\ resp = Api.make_response p (clock w)) /\
  (forall body resp w',
     Api.post_batch_predict body w = (Api.Http200 resp, w') ->
     exists ps,
       Forall (produced_by m) ps /\
       Api.results resp = map (fun p => Api.make_response p (clock w)) ps).
Proof.
  intros Hm. split.
  - intros body resp w' H. unfold Api.post_predict in H.
    destruct (Api.TweetRequest_valid body); [|discriminate].
    apply respond_200 in H.
    destruct (predict_sentiment_run body w m Hm)
      as [r [w1 [evs [Hrun [_ [_ [_ [_ Hcases]]]]]]]].
    rewrite Hrun in H. inversion H. subst r w1.
    destruct Hcases as [[_ [_ [_ [d Hd]]]]|[_ [p [Hp [_ [Hout _]]]]]];
      [discriminate|].
    destruct Hout as [[Hr _]|[[d Hd] _]]; [|discriminate].
    inversion Hr. exists p. split; [exact Hp|reflexivity].
  - intros body resp w' H. unfold Api.post_batch_predict in H.
    destruct (Api.BatchTweetRequest_valid body); [|discriminate].
    apply respond_200 in H.
    destruct (batch_predict_sentiment_run body w m Hm)
      as [r [w1 [cl [evs [new [k [ps [Hrun [_ [_ [_ [_ [_ Hcases]]]]]]]]]]]]].
    rewrite Hrun in H. inversion H. subst r w1.
    destruct Hcases as [[_ [_ [_ [d Hd]]]]|[_ [_ [_ [Hps [_ [Hres _]]]]]]];
      [discriminate|].
    destruct (Hres resp eq_refl) as [Hresults _].
    exists ps. split; assumption.
Qed.

(** X6: with a two-class classifier, the confidence of every response is
    the probability the response reports for its own label: [positive]
    when the sentiment is ["Positive"], [negative] when it is
    ["Negative"]; for [/predict] and for every result of
    [/batch_predict]. *)
Theorem confidence_is_probability_of_label (w : World) (m : NegaBotModel) :
  model w = Some m ->
  binary m ->
  (forall body resp w',
     Api.post_predict body w = (Api.Http200 resp, w') ->
     confidence_of_label resp) /\
  (forall body resp w',
     Api.post_batch_predict body w = (Api.Http200 resp, w') ->
     Forall confidence_of_label (Api.results resp)).
Proof.
  intros Hm Hb. destruct (responses_are_produced w m Hm) as [H1 H2].
  split.
  - intros body resp w' H. destruct (H1 body resp w' H) as [p [Hp ->]].
    exact (produced_confidence m p Hb Hp).
  - intros body resp w' H. destruct (H2 body resp w' H) as [ps [Hps ->]].
    apply Forall_map. revert Hps. apply Forall_impl. intros p Hp.
    exact (produced_confidence m p Hb Hp).
Qed.

Lemma confidence_is_probability_of_label_witness :
  Forall confidence_of_label
    [Api.make_response
       {| Model.text := "good"; Model.sentiment := "Positive";
          Model.confidence := 3 # 4; Model.predicted_class := 0;
          Model.positive := 3 # 4; Model.negative := 1 # 4 |}
       1700000009000000;
     Api.make_response
       {| Model.text := "-bad"; Model.sentiment := "Negative";
          Model.confidence := 7 # 8; Model.predicted_class := 1;
          Model.positive := 1 # 8; Model.negative := 7 # 8 |}
       1700000009000000;
     Api.make_response
       {| Model.text := "fine"; Model.sentiment := "Positive";
          Model.confidence := 3 # 4; Model.predicted_class := 0;
          Model.positive := 3 # 4; Model.negative := 1 # 4 |}
       1700000009000000].
Proof.
  destruct (confidence_is_probability_of_label
              (sample_world (Some toy_model) []) toy_model eq_refl
              toy_model_binary) as [_ H].
  exact (H sample_batch _ _ eq_refl).
Defined.

(** Rounding never leaves an interval with integer bounds. *)
Lemma produced_in_range (m : NegaBotModel) (p : Model.Prediction) :
  yields_probabilities m -> produced_by m p ->
  unit_interval (Model.confidence p) /\
  unit_interval (Model.positive p) /\
  unit_interval (Model.negative p).
Proof.
  intros Hy Hp. specialize (Hp (empty_world None)).
  apply predict_values in Hp.
  destruct Hp as [out [c [p0 [p1 [Hm [Ec [E0 [E1 [_ [Hc [H0 H1]]]]]]]]]]].
  specialize (Hy _ _ Hm). rewrite Forall_forall in Hy.
  rewrite Hc, H0, H1.
  split; [|split]; apply py_round_unit_interval; apply Hy;
    eapply nth_error_In; eassumption.
Qed.

Lemma toy_model_yields_probabilities : yields_probabilities toy_model.
Proof.
  intros t out. unfold toy_model. destruct t as [|c t].
  - intros H. inversion H. cbn. repeat constructor; cbn; lra.
  - destruct (Ascii.eqb c "-"); [|destruct (Ascii.eqb c "!")];
      intros H; inversion H; cbn; repeat constructor; cbn; lra.
Qed.

(** X7: if the classifier yields probabilities (numbers between 0 and 1),
    then [confidence], [probabilities.positive] and
    [probabilities.negative] of every response of [/predict] and of every
    result of [/batch_predict] lie between 0 and 1: rounding to four
    places never leaves the interval. *)
Theorem response_numbers_in_range (w : World) (m : NegaBotModel) :
  model w = Some m ->
  yields_probabilities m ->
  (forall body resp w',
     Api.post_predict body w = (Api.Http200 resp, w') ->
     numbers_in_range resp) /\
  (forall body resp w',
     Api.post_batch_predict body w = (Api.Http200 resp, w') ->
     Forall numbers_in_range (Api.results resp)).
Proof.
  intros Hm Hy. destruct (responses_are_produced w m Hm) as [H1 H2].
  split.
  - intros body resp w' H. destruct (H1 body resp w' H) as [p [Hp ->]].
    exact (produced_in_range m p Hy Hp).
  - intros body resp w' H. destruct (H2 body resp w' H) as [ps [Hps ->]].
    apply Forall_map. revert Hps. apply Forall_impl. intros p Hp.
    exact (produced_in_range m p Hy Hp).
Qed.

Lemma response_numbers_in_range_witness :
  numbers_in_range
    (Api.make_response
       {| Model.text := "good"; Model.sentiment := "Positive";
          Model.confidence := 3 # 4; Model.predicted_class := 0;
          Model.positive := 3 # 4; Model.negative := 1 # 4 |}
       1700000000000000).
Proof.
  destruct (response_numbers_in_range
              (empty_world (Some toy_model)) toy_model eq_refl
              toy_model_yields_probabilities) as [H _].
  exact (H sample_request _ _ eq_refl).
Defined.

(** ** The snapshot of [GET /stats], whatever the state of the store *)

(** A read of the whole history raises (the logger cannot be built),
    returns nothing, or returns every row. *)
Lemma get_all_predictions_cases (w : World) :
  exists r w',
    Database.get_all_predictions None w = (r, w') /\
    clock w' = clock w /\
    (r = inl store_error \/ r = inr [] \/
     r = inr (map dict_of_row
                (Database.order_by_created_at_desc (predictions w)))).
Proof.
  rewrite get_all_predictions_eq.
  destruct (logger_instance w).
  - rewrite method_get_all_predictions_eq. eexists. eexists.
    split; [reflexivity|]. split; [destruct w; reflexivity|].
    destruct (hd false (io_faults w)); [auto|].
    destruct (forallb row_decodable (selected None (predictions w))); auto.
  - destruct (hd false (io_faults w)).
    + eexists. eexists. split; [reflexivity|].
      split; [destruct w; reflexivity|]. auto.
    + rewrite method_get_all_predictions_eq. eexists. eexists.
      split; [reflexivity|]. split; [destruct w; reflexivity|].
      change (predictions (set_logger_instance (accessed w) true))
        with (predictions w).
      destruct (hd false (io_faults (set_logger_instance (accessed w) true)));
        [auto|].
      destruct (forallb row_decodable (selected None (predictions w))); auto.
Qed.

(** The two snapshots [GET /stats] can answer with. *)
Lemma get_stats_cases (w w' : World) (d : Api.stats_dict) :
  Api.get_stats w = (Api.Http200 d, w') ->
  d = empty_snapshot \/
  (predictions w <> [] /\
   d = snapshot_of
         (map dict_of_row (Database.order_by_created_at_desc (predictions w)))
         (clock w)).
Proof.
  intros H. unfold Api.get_stats in H. apply respond_200 in H.
  unfold Api.get_prediction_stats, try_except, bind at 1 in H.
  destruct (get_all_predictions_cases w) as [r [w1 [Hget [Hclock Hr]]]].
  rewrite Hget in H.
  destruct Hr as [Hr|[Hr|Hr]]; subst r.
  - discriminate.
  - inversion H. left. reflexivity.
  - destruct (map dict_of_row
                (Database.order_by_created_at_desc (predictions w)))
      as [|p ps] eqn:E.
    + inversion H. left. reflexivity.
    + right. split.
      * intros Hnil. rewrite Hnil in E. discriminate.
      * unfold bind, datetime_now, ret in H. inversion H. subst w'.
        rewrite Hclock. reflexivity.
Qed.

Lemma confidence_sum_range (rows : list Row) :
  confidences_are_probabilities rows ->
  (0 <= fold_right Qplus (0 # 1) (map row_confidence rows))%Q /\
  (fold_right Qplus (0 # 1) (map row_confidence rows)
   <= inject_Z (Z.of_nat (List.length rows)))%Q.
Proof.
  induction 1 as [|r rows [H0 H1] _ [IH0 IH1]].
  - cbn. split; apply Qle_refl.
  - cbn [map fold_right List.length].
    rewrite Nat2Z.inj_succ. unfold Z.succ. rewrite inject_Z_plus.
    change (inject_Z 1) with 1%Q. split; lra.
Qed.

Lemma ratio_is_percentage (p t : Z) :
  0 <= p <= t -> 0 < t ->
  is_percentage (py_round (fmul (int_truediv p t) (float_of_int 100)) 2).
Proof.
  intros Hp Ht. destruct (float_percentage_range p t Hp Ht) as [H0 H1].
  apply (py_round_between 0 100).
  - exact H0.
  - exact H1.
Qed.

Lemma probabilities_perm (l l' : list Row) :
  Permutation l l' ->
  confidences_are_probabilities l -> confidences_are_probabilities l'.
Proof.
  unfold confidences_are_probabilities. intros Hp H.
  rewrite Forall_forall in *. intros r Hr. apply H.
  apply (Permutation_in r (Permutation_sym Hp) Hr).
Qed.

(** The average [/stats] takes over probabilities is a probability. *)
Lemma average_unit_interval (rows : list Row) :
  rows <> [] ->
  confidences_are_probabilities rows ->
  unit_interval
    (fdiv (Api.sum_confidence (map dict_of_row rows))
          (float_of_int (Z.of_nat (List.length (map dict_of_row rows))))).
Proof.
  intros Hne Hc. rewrite sum_confidence_rows, length_map.
  pose proof (float_mean_unit_interval
                (map (fun r => b64 (row_confidence r)) rows)) as H.
  unfold float_mean in H. rewrite length_map in H. apply H.
  - destruct rows; [congruence|discriminate].
  - apply stored_floats_unit. exact Hc.
Qed.

(** X8: every 200 answer of [GET /stats], whatever the state of the store,
    is consistent: the two counts are non-negative and add up to
    [total_predictions], which is 0 or the number of stored rows; the
    snapshot with total 0 is the one that carries the message and it has no
    percentages, no [last_updated] and the integer 0 as average; a snapshot
    with a positive total carries both percentages, each between 0 and
    100, and an average confidence that lies between 0 and 1 if every
    stored confidence does. *)
Theorem stats_snapshot_is_consistent (w w' : World) (d : Api.stats_dict) :
  Api.get_stats w = (Api.Http200 d, w') ->
  consistent_snapshot (predictions w) d.
Proof.
  intros H. apply get_stats_cases in H. destruct H as [->|[Hne ->]].
  - exists 0, 0, 0, (Api.PInt 0).
    split; [reflexivity|]. split; [reflexivity|]. split; [reflexivity|].
    split; [reflexivity|]. split; [lia|]. split; [lia|]. split; [lia|].
    split; [left; reflexivity|]. split; [split; reflexivity|].
    split; [intros _; repeat split|]. intros Hpos. lia.
  - set (rows := predictions w) in *.
    set (ps := map dict_of_row (Database.order_by_created_at_desc rows)).
    assert (Hlen : List.length ps = List.length rows).
    { unfold ps. rewrite length_map. symmetry. apply Permutation_length.
      apply order_by_perm. }
    assert (Htotal : 0 < Z.of_nat (List.length ps)).
    { rewrite Hlen. destruct rows; [contradiction|]. cbn [List.length]. lia. }
    assert (Hle : (List.length (filter Api.is_positive ps)
                   <= List.length ps)%nat) by apply filter_length_le.
    unfold snapshot_of.
    eexists. eexists. eexists. eexists.
    split; [reflexivity|]. split; [reflexivity|]. split; [reflexivity|].
    split; [reflexivity|]. split; [lia|]. split; [lia|]. split; [lia|].
    split; [right; rewrite Hlen; reflexivity|].
    split; [split; [lia|intros Hmsg; discriminate]|].
    split; [lia|]. intros _.
    eexists. eexists. eexists.
    split; [reflexivity|]. split; [reflexivity|].
    split; [apply ratio_is_percentage; lia|].
    split; [apply ratio_is_percentage; lia|].
    split; [reflexivity|].
    intros Hprob. apply py_round_unit_interval.
    unfold ps. apply average_unit_interval.
    + intros E. unfold ps in Hlen. rewrite E in Hlen. cbn in Hlen.
      destruct rows; [contradiction|discriminate].
    + apply (probabilities_perm rows); [apply order_by_perm|exact Hprob].
Qed.

Lemma stats_snapshot_is_consistent_witness :
  consistent_snapshot sample_rows
    (snapshot_of
       (map dict_of_row (Database.order_by_created_at_desc sample_rows))
       1700000009000000).
Proof.
  exact (stats_snapshot_is_consistent (sample_world None [])
           (snd (Api.get_stats (sample_world None []))) _ eq_refl).
Defined.

(** ** Reading the history back *)

Lemma selected_incl (limit : option Z) (rows : list Row) (r : Row) :
  In r (selected limit rows) -> In r rows.
Proof.
  unfold selected, Database.sql_limit. intros H.
  apply (Permutation_in _ (Permutation_sym (order_by_perm rows))).
  destruct limit as [n|]; cbn [int_truthy] in H; [|exact H].
  destruct (negb (n =? 0)); [|exact H].
  destruct ((n <? - 2 ^ 63) || (2 ^ 63 <=? n)); [destruct H|].
  destruct (n <? 0); [exact H|]. eapply in_firstn; eassumption.
Qed.

Lemma selected_decodable (limit : option Z) (rows : list Row) :
  forallb row_decodable rows = true ->
  forallb row_decodable (selected limit rows) = true.
Proof.
  intros H. rewrite forallb_forall in *. intros r Hr.
  apply H. eapply selected_incl. eassumption.
Qed.

(** A readable store hands back the selected rows and stays readable. *)
Lemma get_all_predictions_on_readable (limit : option Z) (w : World) :
  readable w ->
  exists w',
    Database.get_all_predictions limit w
    = (inr (map dict_of_row (selected limit (predictions w))), w') /\
    readable w' /\ predictions w' = predictions w /\
    model w' = model w /\ clock w' = clock w /\ logger_instance w' = true.
Proof.
  intros [Hff Hdec].
  pose proof (selected_decodable limit _ Hdec) as Hsel.
  rewrite get_all_predictions_eq.
  destruct (logger_instance w) eqn:Hl.
  - rewrite method_get_all_predictions_eq, (fault_free_hd w Hff), Hsel.
    eexists. split; [reflexivity|].
    split; [split; [apply fault_free_accessed; exact Hff|]|];
      destruct w; cbn in *; auto.
  - rewrite (fault_free_hd w Hff).
    rewrite method_get_all_predictions_eq.
    change (predictions (set_logger_instance (accessed w) true))
      with (predictions w).
    rewrite Hsel.
    assert (Hff1 : fault_free (set_logger_instance (accessed w) true)).
    { apply fault_free_accessed in Hff. destruct w; exact Hff. }
    rewrite (fault_free_hd _ Hff1).
    eexists. split; [reflexivity|].
    split; [split; [apply fault_free_accessed; exact Hff1|]|];
      destruct w; cbn in *; auto.
Qed.




(** ** Writing a prediction and reading it back *)

Lemma dict_of_logged_row (t s : string) (c : Q) (md : option pydict)
    (w : World) :
  dict_of_row (logged_row t s c md w) = logged_dict t s c md w.
Proof.
  unfold dict_of_row, logged_dict, logged_row, decoded_metadata.
  cbn [row_id row_text row_sentiment row_confidence row_predicted_class
       row_timestamp row_metadata row_created_at].
  f_equal. destruct md as [[|kv d]|]; [reflexivity| |reflexivity].
  rewrite stored_metadata_nonempty by discriminate.
  destruct (dumps_nonempty (JObj (kv :: d))) as [a [rest E]].
  rewrite E, <- E. apply loads_dumps.
Qed.

Lemma order_by_snoc_newest (rows : list Row) (r : Row) :
  Forall (fun x => row_created_at x < row_created_at r) rows ->
  Database.order_by_created_at_desc (rows ++ [r])
  = r :: Database.order_by_created_at_desc rows.
Proof.
  unfold Database.order_by_created_at_desc. rewrite fold_right_app.
  cbn [fold_right Database.insert_desc].
  induction 1 as [|x rows Hx _ IH]; [reflexivity|].
  cbn [fold_right]. rewrite IH. cbn [Database.insert_desc].
  destruct (Z.leb_spec (row_created_at r) (row_created_at x)); [lia|].
  reflexivity.
Qed.

(** On a readable store a prediction is logged, and the store stays
    readable. *)
Lemma log_prediction_on_readable (t s : string) (c : Q) (md : option pydict)
    (w : World) :
  readable w ->
  exists w1,
    Database.log_prediction t s c md w = (inr tt, w1) /\
    readable w1 /\
    predictions w1 = predictions w ++ [logged_row t s c md w] /\
    model w1 = model w /\ clock w1 = clock w.
Proof.
  intros [Hff Hdec].
  destruct (log_prediction_run t s c md w)
    as [r [w1 [Hrun [Hm [Hc [_ [Hrows Hok]]]]]]].
  destruct (Hok Hff) as [-> Hff1].
  destruct Hrows as [[_ [_ Hp]]|[[e He] _]]; [|discriminate].
  exists w1. split; [exact Hrun|]. split; [|auto].
  split; [exact Hff1|]. rewrite Hp. apply forallb_app_true; [exact Hdec|].
  cbn [forallb]. rewrite andb_true_r.
  apply (stored_metadata_decodable _ md). reflexivity.
Qed.

(** X10: on a store that can be read, logging a prediction and then
    reading the history returns one record more than there were rows, the
    new record among them: it has the next id, the logged text, sentiment
    and confidence, the class inferred from the sentiment (1 for
    ["Negative"], 0 otherwise), the time of the call, and as metadata the
    logged object, or [None] if that was absent or empty. The other
    records are those of the earlier rows, and the new record comes first
    if every earlier row was created in an earlier second. *)
Theorem logged_prediction_is_read_back (t s : string) (c : Q)
    (md : option pydict) (w : World) :
  readable w ->
  exists w1 w2 ds,
    Database.log_prediction t s c md w = (inr tt, w1) /\
    Database.get_all_predictions None w1 = (inr ds, w2) /\
    List.length ds = S (List.length (predictions w)) /\
    newest_first ds /\
    Permutation ds
      (logged_dict t s c md w :: map dict_of_row (predictions w)) /\
    (strictly_older w ->
     ds = logged_dict t s c md w
          :: map dict_of_row
               (Database.order_by_created_at_desc (predictions w))).
Proof.
  intros Hread.
  destruct (log_prediction_on_readable t s c md w Hread)
    as [w1 [Hlog [Hread1 [Hp [_ _]]]]].
  destruct (get_all_predictions_on_readable None w1 Hread1)
    as [w2 [Hget _]].
  exists w1, w2. eexists.
  split; [exact Hlog|]. split; [exact Hget|].
  change (selected None (predictions w1))
    with (Database.order_by_created_at_desc (predictions w1)).
  rewrite Hp.
  assert (HP : Permutation
                 (map dict_of_row
                    (Database.order_by_created_at_desc
                       (predictions w ++ [logged_row t s c md w])))
                 (logged_dict t s c md w :: map dict_of_row (predictions w))).
  { rewrite <- dict_of_logged_row.
    change (dict_of_row (logged_row t s c md w)
            :: map dict_of_row (predictions w))
      with (map dict_of_row (logged_row t s c md w :: predictions w)).
    apply Permutation_map.
    eapply Permutation_trans;
      [apply Permutation_sym; apply order_by_perm|].
    apply Permutation_sym. apply Permutation_cons_append. }
  split; [|split; [|split]].
  - rewrite (Permutation_length HP). cbn. rewrite length_map. reflexivity.
  - apply newest_first_map. apply order_by_sorted.
  - exact HP.
  - intros Hold. rewrite order_by_snoc_newest by exact Hold.
    cbn [map]. rewrite dict_of_logged_row. reflexivity.
Qed.

Lemma logged_prediction_is_read_back_witness :
  exists ds,
    fst (Database.get_all_predictions None
           (snd (Database.log_prediction "great" "Positive" (9 # 10)
                   (Some sample_metadata) (sample_world None []))))
    = inr ds /\
    List.length ds = 4%nat /\
    hd_error ds
    = Some (logged_dict "great" "Positive" (9 # 10) (Some sample_metadata)
              (sample_world None [])) /\
    option_map Database.metadata (hd_error ds)
    = Some (Some (JObj sample_metadata)).
Proof.
  destruct (logged_prediction_is_read_back "great" "Positive" (9 # 10)
              (Some sample_metadata) (sample_world None []))
    as [w1 [w2 [ds [Hlog [Hget [Hlen [_ [_ Hfirst]]]]]]]].
  - split; [constructor|reflexivity].
  - exists ds. rewrite Hlog. cbn [snd]. rewrite Hget.
    split; [reflexivity|]. split; [exact Hlen|].
    rewrite Hfirst; [split; reflexivity|].
    unfold strictly_older. cbn. repeat constructor.
Defined.

(** ** The prediction flow end to end *)

(** [/predict] on a readable store with a text that classifies. *)
Lemma post_predict_on_readable (body : Api.TweetRequest) (w : World)
    (m : NegaBotModel) :
  model w = Some m ->
  readable w ->
  Api.TweetRequest_valid body = true ->
  classifies m (Api.text body) = true ->
  exists p w1,
    produced_by m p /\ Model.text p = Api.text body /\
    Api.post_predict body w
    = (Api.Http200 (Api.make_response p (clock w)), w1) /\
    readable w1 /\
    predictions w1
    = predictions w
      ++ [logged_row (Api.text body) (Model.sentiment p) (Model.confidence p)
            (Api.metadata body) w] /\
    model w1 = model w /\ clock w1 = clock w.
Proof.
  intros Hm Hread Hvalid Hcl.
  destruct (predict_returns m (Api.text body) w Hcl) as [p Hp].
  destruct (predict_result m _ w p Hp) as [_ [Ht _]].
  assert (Hprod : produced_by m p).
  { intros w0. rewrite Ht.
    rewrite (predict_fst_indep m (Api.text body) w0 w). exact Hp. }
  set (w0 := set_trace w (trace w ++ [EvClassify (Api.text body)])).
  assert (Hrun : Model.predict m (Api.text body) w = (inr p, w0)).
  { rewrite (surjective_pairing (Model.predict m (Api.text body) w)).
    rewrite Hp, predict_world. reflexivity. }
  assert (Hread0 : readable w0) by exact Hread.
  destruct (log_prediction_on_readable (Api.text body) (Model.sentiment p)
              (Model.confidence p) (Api.metadata body) w0 Hread0)
    as [w1 [Hlog [Hread1 [Hrows [Hm1 Hc1]]]]].
  exists p, w1. split; [exact Hprod|]. split; [exact Ht|].
  split; [|split; [exact Hread1|split; [exact Hrows|split; assumption]]].
  unfold Api.post_predict. rewrite Hvalid. apply respond_200.
  unfold Api.predict_sentiment, Api.get_model.
  unfold try_except, bind at 1. rewrite Hm. unfold bind at 1.
  rewrite Hrun. run_monad. rewrite Hlog. reflexivity.
Qed.

(** [PredictionLogger.get_stats], written out: a fault gives the empty
    dictionary. *)
Lemma method_get_stats_eq (w : World) :
  DatabaseStats.PredictionLogger_get_stats w
  = (if hd false (io_faults w) then inr []
     else inr (store_snapshot (predictions w)),
     accessed w).
Proof.
  unfold DatabaseStats.PredictionLogger_get_stats, store_snapshot. run_monad.
  rewrite sqlite3_connect_eq.
  destruct (hd false (io_faults w)); [reflexivity|].
  change (predictions (accessed w)) with (predictions w).
  destruct (Z.of_nat (List.length (predictions w)) =? 0); reflexivity.
Qed.

Lemma database_get_prediction_stats_eq (w : World) :
  DatabaseStats.get_prediction_stats w
  = if logger_instance w
    then DatabaseStats.PredictionLogger_get_stats w
    else if hd false (io_faults w) then (inl store_error, accessed w)
    else DatabaseStats.PredictionLogger_get_stats
           (set_logger_instance (accessed w) true).
Proof.
  unfold DatabaseStats.get_prediction_stats, bind. rewrite get_logger_eq.
  destruct (logger_instance w); [reflexivity|].
  destruct (hd false (io_faults w)); reflexivity.
Qed.

(** The store's own statistics on a store without pending fault. *)
Lemma database_stats_fault_free (w : World) :
  fault_free w ->
  exists w',
    DatabaseStats.get_prediction_stats w
    = (inr (store_snapshot (predictions w)), w') /\
    predictions w' = predictions w /\ fault_free w'.
Proof.
  intros Hff. rewrite database_get_prediction_stats_eq.
  destruct (logger_instance w).
  - rewrite method_get_stats_eq, (fault_free_hd w Hff).
    eexists. split; [reflexivity|].
    split; [destruct w; reflexivity|apply fault_free_accessed; exact Hff].
  - rewrite (fault_free_hd w Hff).
    assert (Hff1 : fault_free (set_logger_instance (accessed w) true)).
    { apply fault_free_accessed in Hff. destruct w; exact Hff. }
    rewrite method_get_stats_eq, (fault_free_hd _ Hff1).
    eexists. split; [reflexivity|].
    split; [destruct w; reflexivity|apply fault_free_accessed; exact Hff1].
Qed.

Lemma store_snapshot_total (rows : list Row) :
  Api.dict_get (store_snapshot rows) "total_predictions"
  = Some (Api.PInt (Z.of_nat (List.length rows))).
Proof.
  unfold store_snapshot.
  destruct (Z.eqb_spec (Z.of_nat (List.length rows)) 0) as [E|E].
  - rewrite E. reflexivity.
  - reflexivity.
Qed.

(** X11: the flow of the repository's integration test. On a store that
    can be read, with the model loaded and a valid text that classifies:
    reading the history, posting to [/predict], reading again and asking
    the store for its statistics gives a 200 answer, a second history one
    record longer than the first, holding a record with the posted text
    and the sentiment and confidence of the response, which comes first if
    every earlier row was created in an earlier second, and statistics
    whose [total_predictions] is the length of the second history, so at
    least 1. *)
Theorem prediction_is_logged_and_counted (body : Api.TweetRequest)
    (w : World) (m : NegaBotModel) :
  model w = Some m ->
  readable w ->
  Api.TweetRequest_valid body = true ->
  classifies m (Api.text body) = true ->
  exists initial w0 resp w1 new w2 stats w3 d,
    Database.get_all_predictions None w = (inr initial, w0) /\
    Api.post_predict body w0 = (Api.Http200 resp, w1) /\
    Database.get_all_predictions None w1 = (inr new, w2) /\
    DatabaseStats.get_prediction_stats w2 = (inr stats, w3) /\
    List.length new = (List.length initial + 1)%nat /\
    In d new /\
    Database.text d = Api.text body /\
    Database.sentiment d = Api.r_sentiment resp /\
    Database.confidence d = Api.r_confidence resp /\
    (strictly_older w -> hd_error new = Some d) /\
    Api.dict_get stats "total_predictions"
    = Some (Api.PInt (Z.of_nat (List.length new))) /\
    1 <= Z.of_nat (List.length new).
Proof.
  intros Hm Hread Hvalid Hcl.
  destruct (get_all_predictions_on_readable None w Hread)
    as [w0 [Hget0 [Hread0 [Hp0 [Hm0 [Hc0 _]]]]]].
  assert (Hm0' : model w0 = Some m) by congruence.
  destruct (post_predict_on_readable body w0 m Hm0' Hread0 Hvalid Hcl)
    as [p [w1 [_ [Ht [Hpost [Hread1 [Hp1 _]]]]]]].
  destruct (get_all_predictions_on_readable None w1 Hread1)
    as [w2 [Hget1 [[Hff2 _] [Hp2 _]]]].
  destruct (database_stats_fault_free w2 Hff2) as [w3 [Hstats _]].
  set (row := logged_row (Api.text body) (Model.sentiment p)
                (Model.confidence p) (Api.metadata body) w0) in *.
  change (selected None (predictions w1))
    with (Database.order_by_created_at_desc (predictions w1)) in Hget1.
  change (selected None (predictions w))
    with (Database.order_by_created_at_desc (predictions w)) in Hget0.
  assert (Hlen : List.length
                   (map dict_of_row
                      (Database.order_by_created_at_desc (predictions w1)))
                 = (List.length
                      (map dict_of_row
                         (Database.order_by_created_at_desc (predictions w)))
                    + 1)%nat).
  { rewrite !length_map.
    rewrite <- (Permutation_length (order_by_perm (predictions w1))).
    rewrite <- (Permutation_length (order_by_perm (predictions w))).
    rewrite Hp1, Hp0, length_app. reflexivity. }
  do 8 eexists. exists (dict_of_row row).
  split; [exact Hget0|]. split; [exact Hpost|]. split; [exact Hget1|].
  split; [exact Hstats|]. split; [exact Hlen|].
  split.
  { apply in_map.
    apply (Permutation_in _ (order_by_perm (predictions w1))).
    rewrite Hp1. apply in_or_app. right. left. reflexivity. }
  split; [reflexivity|]. split; [reflexivity|]. split; [reflexivity|].
  split.
  { intros Hold. rewrite Hp1, order_by_snoc_newest; [reflexivity|].
    unfold strictly_older in Hold. rewrite Hp0.
    unfold row, logged_row. cbn [row_created_at].
    unfold Database.current_timestamp in *. rewrite Hc0. exact Hold. }
  split; [rewrite Hp2; rewrite store_snapshot_total; f_equal; f_equal;
          f_equal; rewrite length_map;
          apply (Permutation_length (order_by_perm (predictions w1)))|].
  rewrite Hlen. lia.
Qed.

Lemma prediction_is_logged_and_counted_witness :
  exists initial w0 resp w1 new w2 stats,
    Database.get_all_predictions None (sample_world (Some toy_model) [])
    = (inr initial, w0) /\
    Api.post_predict sample_request w0 = (Api.Http200 resp, w1) /\
    Database.get_all_predictions None w1 = (inr new, w2) /\
    fst (DatabaseStats.get_prediction_stats w2) = inr stats /\
    List.length initial = 3%nat /\
    List.length new = 4%nat /\
    option_map Database.text (hd_error new) = Some "good" /\
    Api.dict_get stats "total_predictions" = Some (Api.PInt 4).
Proof.
  destruct (prediction_is_logged_and_counted sample_request
              (sample_world (Some toy_model) []) toy_model)
    as [initial [w0 [resp [w1 [new [w2 [stats [w3 [d H]]]]]]]]].
  - reflexivity.
  - split; [constructor|reflexivity].
  - reflexivity.
  - reflexivity.
  - destruct H as [H0 [H1 [H2 [H3 [H4 [_ [H6 [_ [_ [H9 [H10 _]]]]]]]]]]].
    assert (Hi : List.length initial = 3%nat).
    { cbv in H0. inversion H0. reflexivity. }
    exists initial, w0, resp, w1, new, w2, stats.
    split; [exact H0|]. split; [exact H1|]. split; [exact H2|].
    split; [rewrite H3; reflexivity|]. split; [exact Hi|].
    split; [rewrite H4, Hi; reflexivity|].
    split.
    + rewrite H9; [cbn [option_map]; rewrite H6; reflexivity|].
      unfold strictly_older. cbn. repeat constructor.
    + rewrite H10, H4, Hi. reflexivity.
Defined.

(** ** The store's own statistics *)

Lemma labels_partition (rows : list Row) :
  Forall well_labelled rows ->
  DatabaseStats.sentiment_count "Positive" rows
  + DatabaseStats.sentiment_count "Negative" rows
  = Z.of_nat (List.length rows).
Proof.
  unfold DatabaseStats.sentiment_count.
  induction 1 as [|r rows Hr _ IH]; [reflexivity|].
  cbn [filter List.length].
  destruct Hr as [[Hs _]|[Hs _]]; rewrite Hs.
  - change (String.eqb "Positive" "Positive") with true.
    change (String.eqb "Positive" "Negative") with false.
    cbn [List.length]. rewrite !Nat2Z.inj_succ. lia.
  - change (String.eqb "Negative" "Positive") with false.
    change (String.eqb "Negative" "Negative") with true.
    cbn [List.length]. rewrite !Nat2Z.inj_succ. lia.
Qed.






(** The two averages need not be equal: on four rows written one per
    second the store's [AVG] gives 0.6007 and [/stats] gives 0.6006. *)
Example store_and_api_averages_differ :
  exists d s,
    fst (Api.get_stats uneven_world) = Api.Http200 d /\
    fst (DatabaseStats.get_prediction_stats uneven_world) = inr s /\
    Api.dict_get s "average_confidence" = Some (Api.PFloat (6007 # 10000)) /\
    Api.dict_get d "average_confidence" = Some (Api.PFloat (3003 # 5000)).
Proof.
  eexists. eexists. split; [vm_compute; reflexivity|].
  split; [vm_compute; reflexivity|]. split; vm_compute; reflexivity.
Qed.

(** X13: [database.get_prediction_stats] never raises once the logger
    singleton exists: a fault while the statistics are read gives the
    empty dictionary, without any key, and not the dictionary of zeros an
    empty table gives; only building the singleton can raise. In every
    case the rows are left as they are. *)
Theorem store_statistics_on_fault (w : World) :
  (logger_instance w = true ->
   exists s, fst (DatabaseStats.get_prediction_stats w) = inr s) /\
  (logger_instance w = true -> hd false (io_faults w) = true ->
   DatabaseStats.get_prediction_stats w = (inr [], accessed w)) /\
  (logger_instance w = false -> hd false (io_faults w) = true ->
   DatabaseStats.get_prediction_stats w = (inl store_error, accessed w)) /\
  (fault_free w -> predictions w = [] ->
   exists s,
     fst (DatabaseStats.get_prediction_stats w) = inr s /\
     Api.dict_get s "total_predictions" = Some (Api.PInt 0) /\
     Api.dict_get s "positive_count" = Some (Api.PInt 0) /\
     Api.dict_get s "negative_count" = Some (Api.PInt 0) /\
     Api.dict_get s "average_confidence" = Some (Api.PInt 0)) /\
  predictions (snd (DatabaseStats.get_prediction_stats w)) = predictions w.
Proof.
  rewrite database_get_prediction_stats_eq.
  split; [|split; [|split; [|split]]].
  - intros Hl. rewrite Hl, method_get_stats_eq.
    destruct (hd false (io_faults w)); eexists; reflexivity.
  - intros Hl Hf. rewrite Hl, method_get_stats_eq, Hf. reflexivity.
  - intros Hl Hf. rewrite Hl, Hf. reflexivity.
  - intros Hff Hrows.
    rewrite <- database_get_prediction_stats_eq.
    destruct (database_stats_fault_free w Hff) as [w' [H _]].
    rewrite H, Hrows. eexists. split; [reflexivity|]. repeat split.
  - destruct (logger_instance w).
    + rewrite method_get_stats_eq. destruct w; reflexivity.
    + destruct (hd false (io_faults w)); [destruct w; reflexivity|].
      rewrite method_get_stats_eq. destruct w; reflexivity.
Qed.

Lemma store_statistics_on_fault_witness :
  DatabaseStats.get_prediction_stats (sample_world None [true])
  = (inr [], accessed (sample_world None [true])) /\
  Api.dict_get [] "total_predictions" = None.
Proof.
  destruct (store_statistics_on_fault (sample_world None [true]))
    as [_ [H _]].
  split; [exact (H eq_refl eq_refl)|reflexivity].
Defined.

(** ** Loading the model at startup *)

(** X14: [startup_event] succeeds exactly when the singleton of model.py
    exists or the hub serves the default model. It then makes that model
    the [model] of the API and the singleton, changes nothing else,
    [GET /health] answers "healthy" with [model_loaded] true, and a second
    startup changes nothing and does not consult the hub. When loading
    fails, the exception of the loader is raised again and nothing is
    changed: the failure is not remembered, and a later startup with a hub
    that serves the model succeeds. *)
Theorem startup_loads_the_model (hub : ModelLoader.Hub) (p : Process) :
  (forall m,
     loadable hub p = inr m ->
     exists p',
       Startup.startup_event hub p = (inr tt, p') /\
       model (world p') = Some m /\
       model_instance p' = Some m /\
       predictions (world p') = predictions (world p) /\
       logger_instance (world p') = logger_instance (world p) /\
       io_faults (world p') = io_faults (world p) /\
       trace (world p') = trace (world p) /\
       clock (world p') = clock (world p) /\
       (exists h,
          Api.get_health (world p') = (Api.Http200 h, world p') /\
          Api.status h = "healthy" /\ Api.model_loaded h = true) /\
       (forall hub', Startup.startup_event hub' p' = (inr tt, p'))) /\
  (forall e,
     loadable hub p = inl e ->
     Startup.startup_event hub p = (inl e, p) /\
     forall hub' m,
       hub' ModelLoader.default_model_name = inr m ->
       exists p',
         Startup.startup_event hub' p = (inr tt, p') /\
         model (world p') = Some m).
Proof.
  unfold loadable, Startup.startup_event, ModelLoader.get_model,
    ModelLoader.NegaBotModel_init, ModelLoader.load_model.
  split.
  - intros m Hm.
    assert (Hstart :
              (match
                 match model_instance p with
                 | Some m0 => (inr m0, p)
                 | None =>
                     match
                       match hub ModelLoader.default_model_name with
                       | inl e => inl e
                       | inr m0 => inr m0
                       end
                     with
                     | inl e => (inl e, p)
                     | inr m0 =>
                         (inr m0,
                          {| world := world p; model_instance := Some m0 |})
                     end
                 end
               with
               | (inl e, p') => (inl e, p')
               | (inr m0, p') =>
                   (inr tt,
                    {| world := set_model (world p') (Some m0);
                       model_instance := model_instance p' |})
               end)
              = (inr tt, {| world := set_model (world p) (Some m);
                            model_instance := Some m |})).
    { destruct (model_instance p) as [m0|] eqn:E.
      - inversion Hm. subst m0. rewrite E. reflexivity.
      - rewrite Hm. reflexivity. }
    rewrite Hstart. eexists. split; [reflexivity|].
    cbn [world model_instance set_model model predictions logger_instance
         io_faults trace clock].
    repeat (split; [reflexivity|]).
    split.
    + eexists. split; [reflexivity|]. split; reflexivity.
    + intros hub'. reflexivity.
  - intros e He.
    destruct (model_instance p) as [m0|] eqn:E; [discriminate|].
    rewrite He. split; [reflexivity|].
    intros hub' m Hm. rewrite Hm. eexists. split; reflexivity.
Qed.

Lemma startup_loads_the_model_witness :
  (exists p',
     Startup.startup_event sample_hub fresh_process = (inr tt, p') /\
     model_instance p' = Some toy_model /\
     fst (Api.get_health (world p'))
     = Api.Http200 {| Api.status := "healthy"; Api.model_loaded := true;
                      Api.h_timestamp := 1700000000000000 |}) /\
  Startup.startup_event failing_hub fresh_process
  = (inl (PyError "connection error"), fresh_process).
Proof.
  destruct (startup_loads_the_model sample_hub fresh_process) as [H _].
  destruct (startup_loads_the_model failing_hub fresh_process) as [_ H'].
  split.
  - destruct (H toy_model eq_refl) as [p' [H1 [_ [H3 _]]]].
    exists p'. split; [exact H1|]. split; [exact H3|].
    inversion H1. reflexivity.
  - exact (proj1 (H' _ eq_refl)).
Defined.

(** ** A store fault in the middle of a batch *)

Lemma log_prediction_built (t s : string) (c : Q) (md : option pydict)
    (w : World) :
  logger_instance w = true ->
  Database.log_prediction t s c md w
  = if hd false (io_faults w) then (inl store_error, accessed w)
    else (inr tt,
          set_predictions (accessed w)
            (predictions w ++ [logged_row t s c md w])).
Proof.
  intros Hl. unfold Database.log_prediction, bind. rewrite get_logger_eq, Hl.
  apply method_log_prediction_eq.
Qed.

(** The logging loop stops at the first fault and keeps what it wrote. *)
Lemma respond_and_log_until_fault (md : option pydict)
    (ps : list Model.Prediction) :
  forall (k : nat) (w : World),
    logger_instance w = true ->
    faults_after k w ->
    (k < List.length ps)%nat ->
    exists w' new,
      for_each (respond_and_log md) ps w = (inl store_error, w') /\
      predictions w' = predictions w ++ new /\
      map row_text new = map Model.text (firstn k ps) /\
      List.length new = k /\
      model w' = model w.
Proof.
  induction ps as [|p ps IH]; intros k w Hl [rest Hf] Hk;
    [cbn in Hk; lia|].
  cbn [for_each]. unfold bind at 1. unfold respond_and_log at 1.
  run_monad. rewrite (log_prediction_built _ _ _ _ w Hl), Hf.
  destruct k as [|k]; cbn [repeat app hd].
  - exists (accessed w), []. split; [reflexivity|].
    split; [rewrite app_nil_r; destruct w; reflexivity|].
    split; [reflexivity|]. split; [reflexivity|destruct w; reflexivity].
  - set (row := logged_row (Model.text p) (Model.sentiment p)
                  (Model.confidence p) md w).
    set (w1 := set_predictions (accessed w) (predictions w ++ [row])).
    assert (Hl1 : logger_instance w1 = true) by (destruct w; exact Hl).
    assert (Hf1 : faults_after k w1).
    { exists rest. destruct w as [a b c0 d e f]. cbn in *. rewrite Hf.
      reflexivity. }
    assert (Hk1 : (k < List.length ps)%nat) by (cbn in Hk; lia).
    destruct (IH k w1 Hl1 Hf1 Hk1) as [w' [new [Hrun [Hp [Ht [Hlen Hm]]]]]].
    rewrite Hrun. exists w', (row :: new).
    split; [reflexivity|]. split.
    { rewrite Hp. unfold w1. destruct w; cbn. rewrite <- app_assoc.
      reflexivity. }
    split; [cbn [map firstn]; rewrite Ht; reflexivity|].
    split; [cbn; congruence|]. rewrite Hm. destruct w; reflexivity.
Qed.

(** X15: a batch is not rolled back. With the model loaded, the logger
    built and every text classifying, if the store accesses [k] times
    without fault and then faults, with [k] smaller than the number of
    texts, [/batch_predict] answers 500, yet the rows of the first [k]
    texts have been appended to the store and stay there. *)
Theorem batch_is_not_rolled_back (body : Api.BatchTweetRequest) (w : World)
    (m : NegaBotModel) (k : nat) :
  model w = Some m ->
  Api.BatchTweetRequest_valid body = true ->
  forallb (classifies m) (Api.tweets body) = true ->
  logger_instance w = true ->
  faults_after k w ->
  (k < List.length (Api.tweets body))%nat ->
  exists d w' new,
    Api.post_batch_predict body w = (Api.HttpError 500 d, w') /\
    predictions w' = predictions w ++ new /\
    List.length new = k /\
    map row_text new = firstn k (Api.tweets body).
Proof.
  intros Hm Hvalid Hall Hl Hf Hk.
  unfold Api.post_batch_predict. rewrite Hvalid.
  unfold Api.batch_predict_sentiment, Api.get_model.
  change (fun result : Model.Prediction =>
            bind datetime_now
              (fun now =>
                 bind (Database.log_prediction (Model.text result)
                         (Model.sentiment result) (Model.confidence result)
                         (Api.b_metadata body))
                   (fun _ => ret (Api.make_response result now))))
    with (respond_and_log (Api.b_metadata body)).
  destruct (batch_predict_run m (Api.tweets body) w)
    as [r0 [cl [Hrun Hcases]]].
  destruct Hcases as [[_ [_ [ps [Hr0 [Hts _]]]]]|[Hno _]];
    [|congruence].
  subst r0.
  set (w1 := set_trace w (trace w ++ map EvClassify cl)) in *.
  assert (Hk1 : (k < List.length ps)%nat).
  { rewrite <- (length_map Model.text), Hts. exact Hk. }
  destruct (respond_and_log_until_fault (Api.b_metadata body) ps k w1
              Hl Hf Hk1) as [w' [new [Hloop [Hp [Ht [Hlen _]]]]]].
  eexists. exists w', new. split.
  - apply respond_error.
    unfold try_except, bind at 1. rewrite Hm. unfold bind at 1.
    rewrite Hrun. unfold bind at 1. rewrite Hloop. reflexivity.
  - split; [exact Hp|]. split; [exact Hlen|].
    rewrite Ht, <- Hts. symmetry. apply firstn_map.
Qed.

Lemma batch_is_not_rolled_back_witness :
  exists d w',
    Api.post_batch_predict sample_batch
      (sample_world (Some toy_model) [false; true])
    = (Api.HttpError 500 d, w') /\
    map row_text (predictions w') = ["good"; "-bad"; "fine"; "good"].
Proof.
  destruct (batch_is_not_rolled_back sample_batch
              (sample_world (Some toy_model) [false; true]) toy_model 1)
    as [d [w' [new [H [Hp [Hlen Ht]]]]]].
  - reflexivity.
  - reflexivity.
  - reflexivity.
  - reflexivity.
  - exists []. reflexivity.
  - cbn. lia.
  - exists d, w'. split; [exact H|]. rewrite Hp, map_app, Ht. reflexivity.
Defined.

(** ** The dashboard: filtering *)

Lemma filter_all_true {A} (f : A -> bool) (l : list A) :
  (forall x, f x = true) -> filter f l = l.
Proof.
  intros H. induction l as [|x l IH]; [reflexivity|].
  cbn. rewrite H, IH. reflexivity.
Qed.

Lemma filter_and {A} (f g : A -> bool) (l : list A) :
  filter g (filter f l) = filter (fun x => f x && g x) l.
Proof.
  induction l as [|x l IH]; [reflexivity|]. cbn.
  destruct (f x); cbn; [destruct (g x)|]; rewrite IH; reflexivity.
Qed.

Lemma select_rows (keep : Dashboard.FrameRow -> bool)
    (df : Dashboard.DataFrame) :
  Dashboard.has_columns df = true ->
  Dashboard.select keep df
  = inr {| Dashboard.has_columns := true;
           Dashboard.rows := filter keep (Dashboard.rows df) |}.
Proof. intros H. unfold Dashboard.select. rewrite H. reflexivity. Qed.

Lemma sentiment_step_eq (sentiment_filter : string)
    (rows : list Dashboard.FrameRow) :
  Dashboard.sentiment_step sentiment_filter
    {| Dashboard.has_columns := true; Dashboard.rows := rows |}
  = inr {| Dashboard.has_columns := true;
           Dashboard.rows := filter (sentiment_test sentiment_filter) rows |}.
Proof.
  unfold Dashboard.sentiment_step, sentiment_test, Dashboard.select.
  destruct (String.eqb sentiment_filter "All"); cbn [negb orb].
  - rewrite filter_all_true by reflexivity. reflexivity.
  - reflexivity.
Qed.

Lemma date_step_eq (date_range : list Z) (rows : list Dashboard.FrameRow) :
  Dashboard.date_step date_range
    {| Dashboard.has_columns := true; Dashboard.rows := rows |}
  = match date_range with
    | [] | [_; _] =>
        inr {| Dashboard.has_columns := true;
               Dashboard.rows := filter (date_test date_range) rows |}
    | _ => inl (PyError "ValueError")
    end.
Proof.
  unfold Dashboard.date_step, date_test, Dashboard.select.
  destruct date_range as [|a [|b [|c rest]]]; try reflexivity.
  rewrite filter_all_true by reflexivity. reflexivity.
Qed.

Lemma filter_nil_existsb {A} (f : A -> bool) (l : list A) :
  filter f l = [] <-> existsb f l = false.
Proof.
  induction l as [|x l IH]; cbn; [tauto|].
  destruct (f x); cbn; [split; discriminate|exact IH].
Qed.

Lemma search_step_eq (compile : Dashboard.Regex) (eager : bool)
    (search_term : string) (rows : list Dashboard.FrameRow) :
  Dashboard.search_step compile eager search_term
    {| Dashboard.has_columns := true; Dashboard.rows := rows |}
  = match search_term with
    | EmptyString =>
        inr {| Dashboard.has_columns := true; Dashboard.rows := rows |}
    | String _ _ =>
        if eager || existsb (fun _ => true) rows
        then match compile search_term with
             | inl e => inl e
             | inr _ =>
                 inr {| Dashboard.has_columns := true;
                        Dashboard.rows :=
                          filter (search_test compile search_term) rows |}
             end
        else inr {| Dashboard.has_columns := true;
                    Dashboard.rows :=
                      filter (search_test compile search_term) rows |}
    end.
Proof.
  unfold Dashboard.search_step, search_test, Dashboard.select.
  destruct search_term as [|ch term]; [reflexivity|].
  cbn [Dashboard.has_columns Dashboard.rows].
  destruct rows as [|r rows], eager; cbn [existsb orb negb];
    try reflexivity;
    destruct (compile (String ch term)) as [e|found]; reflexivity.
Qed.

(** [filter_dataframe] on a frame that has its columns, written out. *)
Lemma filter_dataframe_eq (compile : Dashboard.Regex) (eager : bool)
    (df : Dashboard.DataFrame) (sentiment_filter : string)
    (date_range : list Z) (search_term : string) :
  Dashboard.has_columns df = true ->
  Dashboard.filter_dataframe compile eager df sentiment_filter date_range
    search_term
  = match filter_error compile eager df sentiment_filter date_range
            search_term with
    | Some e => inl e
    | None =>
        inr {| Dashboard.has_columns := true;
               Dashboard.rows :=
                 filter (kept compile sentiment_filter date_range search_term)
                        (Dashboard.rows df) |}
    end.
Proof.
  intros Hc. destruct df as [c rows]. cbn in Hc. subst c.
  unfold Dashboard.filter_dataframe, filter_error, term_compiled.
  cbn [Dashboard.rows].
  rewrite sentiment_step_eq, date_step_eq.
  assert (Hkept : forall l : list Dashboard.FrameRow,
             filter (search_test compile search_term)
               (filter (date_test date_range)
                  (filter (sentiment_test sentiment_filter) l))
             = filter (kept compile sentiment_filter date_range search_term)
                      l).
  { intros l. rewrite !filter_and. apply filter_ext. intros r.
    unfold kept. rewrite andb_assoc. reflexivity. }
  assert (Hleft : existsb (fun _ : Dashboard.FrameRow => true)
                    (filter (date_test date_range)
                       (filter (sentiment_test sentiment_filter) rows))
                  = existsb (fun r => sentiment_test sentiment_filter r
                                      && date_test date_range r) rows).
  { rewrite filter_and.
    generalize (fun r => sentiment_test sentiment_filter r
                         && date_test date_range r).
    intros f. induction rows as [|r rows IH]; [reflexivity|]. cbn.
    destruct (f r); cbn; [reflexivity|exact IH]. }
  assert (Hall : forall l : list Dashboard.FrameRow,
             filter (search_test compile EmptyString) l = l).
  { intros l. apply filter_all_true. reflexivity. }
  destruct date_range as [|a [|b [|c rest]]]; try reflexivity;
    rewrite search_step_eq, Hleft;
    (destruct search_term as [|ch term];
     [do 2 f_equal; rewrite <- Hkept; symmetry; apply Hall|]);
    rewrite Hkept;
    destruct eager; cbn [orb];
    destruct (existsb (fun r => sentiment_test sentiment_filter r
                                && date_test _ r) rows);
    cbn [orb negb]; try reflexivity;
    destruct (compile (String ch term)); reflexivity.
Qed.

Lemma filter_idempotent {A} (f : A -> bool) (l : list A) :
  filter f (filter f l) = filter f l.
Proof.
  rewrite filter_and. apply filter_ext. intros x. destruct (f x); reflexivity.
Qed.

Lemma existsb_filter_false {A} (f g : A -> bool) (l : list A) :
  existsb f l = false -> existsb f (filter g l) = false.
Proof.
  induction l as [|x l IH]; cbn; [reflexivity|].
  intros H. apply orb_false_iff in H. destruct H as [Hx Hl].
  destruct (g x); cbn; [rewrite Hx|]; auto.
Qed.

(** What passed the filters once raises no error when filtered again. *)
Lemma filter_error_kept (compile : Dashboard.Regex) (eager : bool)
    (df : Dashboard.DataFrame) (sentiment_filter : string)
    (date_range : list Z) (search_term : string) :
  filter_error compile eager df sentiment_filter date_range search_term
  = None ->
  filter_error compile eager
    {| Dashboard.has_columns := true;
       Dashboard.rows :=
         filter (kept compile sentiment_filter date_range search_term)
                (Dashboard.rows df) |}
    sentiment_filter date_range search_term = None.
Proof.
  unfold filter_error, term_compiled. cbn [Dashboard.rows].
  destruct date_range as [|a [|b [|c rest]]]; try discriminate;
    (destruct search_term as [|ch term]; [reflexivity|]);
    (destruct (compile (String ch term)) as [e|found];
     [|intros _;
       match goal with
       | |- (if ?c then _ else _) = _ => destruct c; reflexivity
       end]);
    destruct eager; cbn [orb]; try discriminate;
    match goal with
    | |- (if existsb ?f ?l then _ else _) = _ -> _ =>
        destruct (existsb f l) eqn:E; [discriminate|]; intros _;
        rewrite (existsb_filter_false f _ l E); reflexivity
    end.
Qed.

(** X16: when [filter_dataframe] returns, on a frame that has its
    columns, the result holds exactly the rows of the frame that pass the
    three filters, in their order: the sentiment equals the sentiment
    filter unless that is ["All"], the date lies within the two ends of
    the date range unless the range is empty, and the text matches the
    search term unless the term is empty. Filtering the result again with
    the same controls changes nothing, and with all three filters off the
    frame is returned as it is. This holds whether or not the string
    engine compiles the term for a column without rows. *)
Theorem filter_dataframe_keeps_matching_rows (compile : Dashboard.Regex)
    (eager : bool) (df df' : Dashboard.DataFrame) (sentiment_filter : string)
    (date_range : list Z) (search_term : string) :
  Dashboard.has_columns df = true ->
  Dashboard.filter_dataframe compile eager df sentiment_filter date_range
    search_term = inr df' ->
  Dashboard.has_columns df' = true /\
  Dashboard.rows df'
  = filter (kept compile sentiment_filter date_range search_term)
           (Dashboard.rows df) /\
  (forall r,
     In r (Dashboard.rows df') <->
     In r (Dashboard.rows df) /\
     sentiment_test sentiment_filter r = true /\
     date_test date_range r = true /\
     search_test compile search_term r = true) /\
  (List.length (Dashboard.rows df') <= List.length (Dashboard.rows df))%nat /\
  Dashboard.filter_dataframe compile eager df' sentiment_filter date_range
    search_term = inr df' /\
  (sentiment_filter = "All"%string -> date_range = [] ->
   search_term = EmptyString -> df' = df).
Proof.
  intros Hc H. rewrite (filter_dataframe_eq _ _ _ _ _ _ Hc) in H.
  destruct (filter_error compile eager df sentiment_filter date_range
              search_term) eqn:Err;
    [discriminate|].
  inversion H. subst df'. clear H.
  cbn [Dashboard.has_columns Dashboard.rows].
  split; [reflexivity|]. split; [reflexivity|]. split; [|split; [|split]].
  - intros r. rewrite filter_In. unfold kept.
    rewrite !andb_true_iff. tauto.
  - apply filter_length_le.
  - rewrite filter_dataframe_eq by reflexivity.
    rewrite (filter_error_kept _ _ _ _ _ _ Err).
    cbn [Dashboard.rows]. rewrite filter_idempotent. reflexivity.
  - intros -> -> ->. destruct df as [c rows]. cbn in Hc. subst c.
    cbn [Dashboard.rows]. f_equal. apply filter_all_true. reflexivity.
Qed.

Lemma filter_dataframe_keeps_matching_rows_witness :
  exists df',
    Dashboard.filter_dataframe sample_regex true sample_frame "Positive"
      [19675; 19676] "g" = inr df' /\
    map (fun r => Database.text (Dashboard.prediction r)) (Dashboard.rows df')
    = ["good"] /\
    Dashboard.filter_dataframe sample_regex true df' "Positive"
      [19675; 19676] "g" = inr df'.
Proof.
  eexists. split; [reflexivity|].
  destruct (filter_dataframe_keeps_matching_rows sample_regex true
              sample_frame _ "Positive" [19675; 19676] "g" eq_refl eq_refl)
    as [_ [_ [_ [_ [H _]]]]].
  split; [reflexivity|exact H].
Defined.



(** ** The dashboard: loading *)

Lemma load_data_eq (w : World) :
  Dashboard.load_data w
  = (inr (match fst (Database.get_all_predictions None w) with
          | inr (p :: ps) =>
              {| Dashboard.has_columns := true;
                 Dashboard.rows := map Dashboard.with_dates (p :: ps) |}
          | _ => Dashboard.empty_frame
          end),
     snd (Database.get_all_predictions None w)).
Proof.
  unfold Dashboard.load_data, try_except, bind.
  destruct (Database.get_all_predictions None w) as [[e|[|p ps]] w'];
    reflexivity.
Qed.

Lemma with_dates_dated (p : Database.PredictionDict) :
  dated (Dashboard.with_dates p).
Proof.
  unfold dated, Dashboard.with_dates.
  cbn [Dashboard.hour Dashboard.date Dashboard.prediction].
  set (t := Database.created_at p).
  pose proof (Z.div_mod t 86400 ltac:(lia)) as H1.
  pose proof (Z.mod_pos_bound t 86400 ltac:(lia)) as H2.
  pose proof (Z.div_mod (t mod 86400) 3600 ltac:(lia)) as H3.
  pose proof (Z.mod_pos_bound (t mod 86400) 3600 ltac:(lia)) as H4.
  split; [split|]; lia.
Qed.

Lemma prediction_with_dates (ps : list Database.PredictionDict) :
  map Dashboard.prediction (map Dashboard.with_dates ps) = ps.
Proof.
  rewrite map_map. cbn [Dashboard.with_dates Dashboard.prediction].
  apply map_id.
Qed.

(** X18: [load_data] never raises and leaves the stored rows as they
    are. The frame it returns has columns exactly when it has rows; its
    rows are none at all or one per stored row, newest first; the date and
    hour of every row fit its creation time, with an hour from 0 to 23. A
    store fault gives the frame without columns, a store that can be read
    the whole history. *)
Theorem load_data_never_raises (w : World) :
  exists df w',
    Dashboard.load_data w = (inr df, w') /\
    predictions w' = predictions w /\
    (Dashboard.has_columns df = true <-> Dashboard.rows df <> []) /\
    (Dashboard.rows df = [] \/
     map Dashboard.prediction (Dashboard.rows df)
     = map dict_of_row (Database.order_by_created_at_desc (predictions w))) /\
    Forall dated (Dashboard.rows df) /\
    (hd false (io_faults w) = true -> df = Dashboard.empty_frame) /\
    (readable w ->
     map Dashboard.prediction (Dashboard.rows df)
     = map dict_of_row (Database.order_by_created_at_desc (predictions w)) /\
     List.length (Dashboard.rows df) = List.length (predictions w)).
Proof.
  rewrite load_data_eq. eexists. eexists. split; [reflexivity|].
  split; [apply get_all_predictions_frame|].
  destruct (get_all_predictions_cases w) as [r [w1 [Hget [_ Hr]]]].
  split; [|split; [|split; [|split]]].
  - rewrite Hget. cbn [fst].
    destruct r as [e|[|p ps]]; cbn; split; congruence.
  - rewrite Hget. cbn [fst].
    destruct Hr as [-> | [-> | ->]]; [left; reflexivity|left; reflexivity|].
    destruct (map dict_of_row
                (Database.order_by_created_at_desc (predictions w)))
      as [|p ps]; [left; reflexivity|right].
    cbn [Dashboard.rows]. apply prediction_with_dates.
  - destruct (fst (Database.get_all_predictions None w)) as [e|[|p ps]];
      [apply Forall_nil|apply Forall_nil|].
    cbn [Dashboard.rows]. apply Forall_forall. intros x Hin.
    apply in_map_iff in Hin. destruct Hin as [q [<- _]].
    apply with_dates_dated.
  - intros Hf. rewrite get_all_predictions_eq.
    destruct (logger_instance w).
    + rewrite method_get_all_predictions_eq, Hf. reflexivity.
    + rewrite Hf. reflexivity.
  - intros Hread.
    destruct (get_all_predictions_on_readable None w Hread) as [w2 [H _]].
    rewrite H. cbn [fst].
    change (selected None (predictions w))
      with (Database.order_by_created_at_desc (predictions w)).
    assert (Hlen : List.length
                     (map dict_of_row
                        (Database.order_by_created_at_desc (predictions w)))
                   = List.length (predictions w)).
    { rewrite length_map. symmetry. apply Permutation_length.
      apply order_by_perm. }
    destruct (map dict_of_row
                (Database.order_by_created_at_desc (predictions w)))
      as [|p ps].
    + split; [reflexivity|exact Hlen].
    + cbn [Dashboard.rows]. split; [apply prediction_with_dates|].
      rewrite length_map. exact Hlen.
Qed.

Lemma load_data_never_raises_witness :
  fst (Dashboard.load_data (sample_world None [])) = inr sample_frame /\
  map Dashboard.hour (Dashboard.rows sample_frame) = [22; 22; 22] /\
  fst (Dashboard.load_data (sample_world None [true]))
  = inr Dashboard.empty_frame.
Proof.
  destruct (load_data_never_raises (sample_world None [true]))
    as [df [w' [H [_ [_ [_ [_ [Hf _]]]]]]]].
  split; [reflexivity|]. split; [reflexivity|].
  rewrite H. cbn [fst]. rewrite (Hf eq_refl). reflexivity.
Defined.

(** ** The dashboard: the default view *)









(** ** Reading by sentiment *)

Lemma filter_decodable (f : Row -> bool) (rows : list Row) :
  forallb row_decodable rows = true ->
  forallb row_decodable (Database.order_by_created_at_desc (filter f rows))
  = true.
Proof.
  intros H. rewrite forallb_forall in *. intros r Hr.
  apply H.
  apply (Permutation_in _ (Permutation_sym (order_by_perm _))) in Hr.
  apply filter_In in Hr. tauto.
Qed.

Lemma get_predictions_by_sentiment_on_readable (s : string) (w : World) :
  readable w ->
  exists w',
    Database.get_predictions_by_sentiment s w
    = (inr (map dict_of_row
              (Database.order_by_created_at_desc
                 (filter (fun r => String.eqb (row_sentiment r) s)
                         (predictions w)))), w') /\
    predictions w' = predictions w.
Proof.
  intros [Hff Hdec].
  pose proof (filter_decodable (fun r => String.eqb (row_sentiment r) s)
                _ Hdec) as Hsel.
  unfold Database.get_predictions_by_sentiment, bind. rewrite get_logger_eq.
  destruct (logger_instance w).
  - rewrite method_get_by_sentiment_eq, (fault_free_hd w Hff), Hsel.
    eexists. split; [reflexivity|]. destruct w; reflexivity.
  - rewrite (fault_free_hd w Hff).
    assert (Hff1 : fault_free (set_logger_instance (accessed w) true)).
    { apply fault_free_accessed in Hff. destruct w; exact Hff. }
    rewrite method_get_by_sentiment_eq, (fault_free_hd _ Hff1).
    change (predictions (set_logger_instance (accessed w) true))
      with (predictions w).
    rewrite Hsel. eexists. split; [reflexivity|]. destruct w; reflexivity.
Qed.

Lemma filter_dict_of_row (s : string) (rows : list Row) :
  filter (fun d => String.eqb (Database.sentiment d) s) (map dict_of_row rows)
  = map dict_of_row (filter (fun r => String.eqb (row_sentiment r) s) rows).
Proof.
  induction rows as [|r rows IH]; [reflexivity|]. cbn [map filter].
  cbn [Database.sentiment dict_of_row].
  destruct (String.eqb (row_sentiment r) s); cbn [map]; rewrite IH;
    reflexivity.
Qed.

(** X20: on a store that can be read, [get_predictions_by_sentiment(s)]
    returns, newest first, the records of [get_all_predictions()] whose
    sentiment is [s], each once, and leaves the rows as they are. The
    comparison is exact, so on a store whose rows are labelled
    ["Positive"] or ["Negative"] any other [s] gives the empty list, and
    the records read for the two labels together are as many as the whole
    history. *)
Theorem sentiment_read_is_filtered_history (w : World) :
  readable w ->
  exists full,
    fst (Database.get_all_predictions None w) = inr full /\
    (forall s,
       exists part,
         fst (Database.get_predictions_by_sentiment s w) = inr part /\
         Permutation part
           (filter (fun d => String.eqb (Database.sentiment d) s) full) /\
         newest_first part /\
         predictions (snd (Database.get_predictions_by_sentiment s w))
         = predictions w /\
         (Forall well_labelled (predictions w) ->
          s <> "Positive"%string -> s <> "Negative"%string -> part = [])) /\
    (Forall well_labelled (predictions w) ->
     exists pos neg,
       fst (Database.get_predictions_by_sentiment "Positive" w) = inr pos /\
       fst (Database.get_predictions_by_sentiment "Negative" w) = inr neg /\
       (List.length pos + List.length neg = List.length full)%nat).
Proof.
  intros Hread.
  destruct (get_all_predictions_on_readable None w Hread) as [w0 [Hget _]].
  change (selected None (predictions w))
    with (Database.order_by_created_at_desc (predictions w)) in Hget.
  eexists. split; [rewrite Hget; reflexivity|]. split.
  - intros s.
    destruct (get_predictions_by_sentiment_on_readable s w Hread)
      as [w1 [Hs Hp]].
    eexists. rewrite Hs. cbn [fst snd]. split; [reflexivity|].
    split; [|split; [|split; [exact Hp|]]].
    + rewrite filter_dict_of_row. apply Permutation_map.
      eapply Permutation_trans;
        [apply Permutation_sym; apply order_by_perm|].
      apply filter_perm. apply order_by_perm.
    + apply newest_first_map. apply order_by_sorted.
    + intros Hlab Hp' Hn'.
      assert (Hnone : filter (fun r => String.eqb (row_sentiment r) s)
                        (predictions w) = []).
      { clear - Hlab Hp' Hn'.
        induction Hlab as [|r rows Hr _ IH]; [reflexivity|]. cbn [filter].
        destruct (String.eqb_spec (row_sentiment r) s) as [E|_];
          [|exact IH].
        destruct Hr as [[Hr _]|[Hr _]]; congruence. }
      rewrite Hnone. reflexivity.
  - intros Hlab.
    destruct (get_predictions_by_sentiment_on_readable "Positive" w Hread)
      as [w1 [H1 _]].
    destruct (get_predictions_by_sentiment_on_readable "Negative" w Hread)
      as [w2 [H2 _]].
    eexists. eexists. rewrite H1, H2. cbn [fst].
    split; [reflexivity|]. split; [reflexivity|].
    rewrite !length_map.
    rewrite <- !(Permutation_length (order_by_perm _)).
    pose proof (labels_partition _ Hlab) as Hpart.
    unfold DatabaseStats.sentiment_count in Hpart. lia.
Qed.

Lemma sentiment_read_is_filtered_history_witness :
  exists pos neg other,
    fst (Database.get_predictions_by_sentiment "Positive"
           (sample_world None [])) = inr pos /\
    fst (Database.get_predictions_by_sentiment "Negative"
           (sample_world None [])) = inr neg /\
    fst (Database.get_predictions_by_sentiment "positive"
           (sample_world None [])) = inr other /\
    List.length pos = 2%nat /\ List.length neg = 1%nat /\ other = [].
Proof.
  destruct (sentiment_read_is_filtered_history (sample_world None []))
    as [full [_ [Hs _]]].
  - split; [constructor|reflexivity].
  - destruct (Hs "positive"%string) as [other [H [_ [_ [_ Hnone]]]]].
    eexists. eexists. exists other.
    split; [reflexivity|]. split; [reflexivity|]. split; [exact H|].
    split; [reflexivity|]. split; [reflexivity|].
    apply Hnone; [|discriminate|discriminate].
    unfold sample_world, sample_rows. cbn [predictions].
    repeat (apply Forall_cons; [unfold well_labelled; cbn; auto|]).
    apply Forall_nil.
Defined.
